(** * LogiFlow network optimizer: a shallow embedding of
      [src/optimization/network_optimizer.py]

    The development follows the class [NetworkOptimizer]: the three input
    tables, the mixed-integer model that [build_model] constructs, the call
    to the external solver in [solve], the solution record assembled by
    [extract_solution] and the warehouse-count sweep of [compare_scenarios].

    Numbers.  The program computes with Python floats.  Here every number is
    an exact rational ([Q]); comparisons, sums and the two-decimal rounding
    are the exact counterparts of the float operations.  Rounding error of
    the float operations themselves is outside the model.

    Library checks.  [build_model] below describes the runs of the method
    that pass two checks made outside its own text: the attributes it reads
    exist only once [load_data] has run, and PuLP refuses a constraint
    whose name, after its rewriting of special characters, is already in
    the model.  The definition raises for neither, so the properties of
    the built model take the result of [build_model] as a premise. *)

From Stdlib Require Import List String Ascii ZArith QArith Qround Qabs.
From Stdlib Require Import Lia Lqa Bool Sorted OrderedTypeEx.
Import ListNotations.

Local Open Scope string_scope.
Local Open Scope Q_scope.

(* ===================================================================== *)
(** ** Python built-ins used by the optimizer *)
(* ===================================================================== *)

Module Py.

(** The exceptions the modelled code can raise. *)
Inductive exn : Type :=
| KeyError (key : string)
| AttributeError (attr : string)
| ValueError (msg : string)
| IndexError (msg : string).

(** A computation either returns a value or raises. *)
Inductive result (A : Type) : Type :=
| Ok (a : A)
| Raise (e : exn).

Arguments Ok {A} a.
Arguments Raise {A} e.

Definition bind {A B : Type} (r : result A) (k : A -> result B) : result B :=
  match r with
  | Ok a => k a
  | Raise e => Raise e
  end.

(** A comprehension whose body may raise: the first failure wins. *)
Fixpoint mapM {A B : Type} (f : A -> result B) (l : list A) : result (list B) :=
  match l with
  | [] => Ok []
  | a :: r =>
      bind (f a) (fun b => bind (mapM f r) (fun bs => Ok (b :: bs)))
  end.

(** [a > b] on numbers. *)
Definition gt (a b : Q) : bool := negb (Qle_bool a b).

(** [sum(xs)]: left to right, starting from 0. *)
Definition sum (xs : list Q) : Q := fold_left Qplus xs 0.

(** Round half to even, to the nearest integer. *)
Definition round_half_even (q : Q) : Z :=
  let f := Qfloor q in
  match Qcompare (q - inject_Z f) (1 # 2) with
  | Lt => f
  | Gt => (f + 1)%Z
  | Eq => if Z.even f then f else (f + 1)%Z
  end.

(** [round(q, 2)]. *)
Definition round2 (q : Q) : Q :=
  inject_Z (round_half_even (q * 100)) * (1 # 100).

(** Truth value of an [Optional[int]] in an [if]: [None] and [0] are false. *)
Definition truthy (n : option Z) : bool :=
  match n with
  | None => false
  | Some z => negb (z =? 0)%Z
  end.

(** *** Dictionaries

    A [dict] is an association list in insertion order.  The operations
    below keep the keys unique, as Python does. *)

Definition dict (K V : Type) : Type := list (K * V).

Section Dict.
Context {K V : Type} (eqb : K -> K -> bool).

Fixpoint get (d : dict K V) (k : K) : option V :=
  match d with
  | [] => None
  | (k', v) :: r => if eqb k k' then Some v else get r k
  end.

(** [d.get(k, dflt)] *)
Definition get_default (d : dict K V) (k : K) (dflt : V) : V :=
  match get d k with
  | Some v => v
  | None => dflt
  end.

(** [d[k] = v]: overwrite in place, or append a new key. *)
Fixpoint setitem (d : dict K V) (k : K) (v : V) : dict K V :=
  match d with
  | [] => [(k, v)]
  | (k', v') :: r =>
      if eqb k k' then (k', v) :: r else (k', v') :: setitem r k v
  end.

Definition keys (d : dict K V) : list K := map fst d.
Definition values (d : dict K V) : list V := map snd d.

(** [dict(zip(ks, vs))] *)
Definition of_zip (ks : list K) (vs : list V) : dict K V :=
  fold_left (fun d kv => setitem d (fst kv) (snd kv)) (combine ks vs) [].

End Dict.

(** The distinct elements of a list, first occurrences, in order: the keys
    of a dict built from the list, and [Series.unique()]. *)
Fixpoint unique {K : Type} (eqb : K -> K -> bool) (l : list K) : list K :=
  match l with
  | [] => []
  | k :: r => k :: filter (fun k' => negb (eqb k' k)) (unique eqb r)
  end.

(** [d[k]] on a string-keyed dict. *)
Definition getitem {V : Type} (d : dict string V) (k : string) : result V :=
  match get String.eqb d k with
  | Some v => Ok v
  | None => Raise (KeyError k)
  end.

Definition pair_eqb (p q : string * string) : bool :=
  (fst p =? fst q)%string && (snd p =? snd q)%string.

End Py.

Import Py.

Notation "x <- c ;; k" := (Py.bind c (fun x => k))
  (at level 61, c at next level, right associativity).
Notation "' pat <- c ;; k" := (Py.bind c (fun x => match x with pat => k end))
  (at level 61, pat pattern, c at next level, right associativity).

(* ===================================================================== *)
(** ** pandas: the few DataFrame operations the optimizer calls *)
(* ===================================================================== *)

Module Pd.

(** A frame built from a list of records.  The column labels come from the
    records: a frame built from the empty list has no columns at all. *)
Record DataFrame (R : Type) : Type := mkDataFrame {
  columns : list string;
  rows : list R
}.

Arguments mkDataFrame {R} columns rows.
Arguments columns {R} d.
Arguments rows {R} d.

(** [pd.DataFrame(records)], where every record has the fields [fields]. *)
Definition of_records {R : Type} (fields : list string) (records : list R)
  : DataFrame R :=
  match records with
  | [] => mkDataFrame [] []
  | _ :: _ => mkDataFrame fields records
  end.

(** [df[col]] for a numeric column read through [proj]. *)
Definition getitem {R : Type} (df : DataFrame R) (col : string) (proj : R -> Q)
  : result (list Q) :=
  if existsb (String.eqb col) (columns df)
  then Ok (map proj (rows df))
  else Raise (KeyError col).

(** [series.idxmin()] over the default integer index: the position of the
    first occurrence of the minimum. *)
Fixpoint idxmin_from (best : Q) (besti i : nat) (l : list Q) : nat :=
  match l with
  | [] => besti
  | v :: r =>
      if Py.gt best v then idxmin_from v i (S i) r
      else idxmin_from best besti (S i) r
  end.

Definition idxmin (l : list Q) : result nat :=
  match l with
  | [] => Raise (ValueError "attempt to get argmin of an empty sequence")
  | v :: r => Ok (idxmin_from v 0%nat 1%nat r)
  end.

(** [df.iloc[i]] *)
Definition iloc {R : Type} (df : DataFrame R) (i : nat) : result R :=
  match nth_error (rows df) i with
  | Some r => Ok r
  | None => Raise (IndexError "single positional indexer is out-of-bounds")
  end.

(** [df.groupby(key)[col].sum().to_dict()] on the (key, value) pairs of the
    frame: one entry per key, keys in ascending order, values added in row
    order. *)
Fixpoint groupby_insert (k : string) (v : Q) (d : dict string Q)
  : dict string Q :=
  match d with
  | [] => [(k, v)]
  | (k', v') :: r =>
      match String.compare k k' with
      | Lt => (k, v) :: d
      | Eq => (k', v' + v) :: r
      | Gt => (k', v') :: groupby_insert k v r
      end
  end.

Definition groupby_sum (kvs : list (string * Q)) : dict string Q :=
  fold_left (fun d kv => groupby_insert (fst kv) (snd kv) d) kvs [].

End Pd.

(* ===================================================================== *)
(** ** PuLP: variables, affine expressions, constraints, problems *)
(* ===================================================================== *)

Module Pulp.

(** The two families of decision variables of the model:
    [y[w]] ([warehouse_open], Binary) and [x[(w, c)]] ([shipment],
    Continuous with lower bound 0). *)
Inductive LpVariable : Type :=
| warehouse_open (w : string)
| shipment (w c : string).

Record LpAffineExpression : Type := mkExpr {
  terms : list (Q * LpVariable);
  constant : Q
}.

Definition of_var (v : LpVariable) : LpAffineExpression := mkExpr [(1, v)] 0.
Definition of_const (q : Q) : LpAffineExpression := mkExpr [] q.

(** [q * e] *)
Definition scale (q : Q) (e : LpAffineExpression) : LpAffineExpression :=
  mkExpr (map (fun t => (q * fst t, snd t)) (terms e)) (q * constant e).

(** [e1 + e2] *)
Definition add (e1 e2 : LpAffineExpression) : LpAffineExpression :=
  mkExpr (terms e1 ++ terms e2) (constant e1 + constant e2).

Definition lpSum (es : list LpAffineExpression) : LpAffineExpression :=
  fold_left add es (of_const 0).

Inductive sense : Type := LE | EQ | GE.

Record LpConstraint : Type := mkConstraint {
  c_lhs : LpAffineExpression;
  c_sense : sense;
  c_rhs : LpAffineExpression;
  c_name : string
}.

Record LpProblem : Type := mkProblem {
  p_name : string;
  objective : LpAffineExpression;
  objective_name : string;
  constraints : list LpConstraint
}.

(** The solver statuses the optimizer distinguishes by name. *)
Inductive LpStatus : Type :=
| NotSolved | Optimal | Feasible | Infeasible | Unbounded | Undefined.

Definition assignment : Type := LpVariable -> Q.

(** [value(e)] once the variables carry values. *)
Definition value (a : assignment) (e : LpAffineExpression) : Q :=
  fold_left (fun acc t => acc + fst t * a (snd t)) (terms e) 0 + constant e.

Definition holds (a : assignment) (c : LpConstraint) : bool :=
  match c_sense c with
  | LE => Qle_bool (value a (c_lhs c)) (value a (c_rhs c))
  | EQ => Qeq_bool (value a (c_lhs c)) (value a (c_rhs c))
  | GE => Qle_bool (value a (c_rhs c)) (value a (c_lhs c))
  end.

(** The category and bounds each variable was declared with. *)
Definition in_domain (a : assignment) (v : LpVariable) : bool :=
  match v with
  | warehouse_open _ => Qeq_bool (a v) 0 || Qeq_bool (a v) 1
  | shipment _ _ => Qle_bool 0 (a v)
  end.

End Pulp.

Import Pulp.

(* ===================================================================== *)
(** ** The input tables *)
(* ===================================================================== *)

(** A row of [warehouse_locations.csv] (columns read by the optimizer). *)
Record WarehouseRow : Type := mkWarehouseRow {
  wr_warehouse : string;
  wr_fixed_cost_annual : Q
}.

(** A row of [aggregated_demand.csv]. *)
Record DemandRow : Type := mkDemandRow {
  dm_city : string;
  dm_service_level : string;
  dm_demand : Q
}.

(** A row of [distance_matrix.csv]. *)
Record DistanceRow : Type := mkDistanceRow {
  ds_warehouse : string;
  ds_customer_city : string;
  ds_service_level : string;
  ds_transport_cost_per_shipment : Q
}.

(* ===================================================================== *)
(** ** The solution and the optimizer object *)
(* ===================================================================== *)

(** One entry of the route list built by [extract_solution]. *)
Record Route : Type := mkRoute {
  rt_warehouse : string;
  rt_customer : string;
  rt_shipments : Q;
  rt_cost_per_shipment : Q;
  rt_total_cost : Q
}.

Definition route_fields : list string :=
  ["warehouse"; "customer"; "shipments"; "cost_per_shipment"; "total_cost"].

(** The dict stored in [self.solution]. *)
Record Solution : Type := mkSolution {
  open_warehouses : list string;
  num_warehouses : nat;
  routes : Pd.DataFrame Route;
  total_cost : Q;
  fixed_cost : Q;
  variable_cost : Q;
  objective_value : Q
}.

(** One row of the comparison table of [compare_scenarios]. *)
Record Scenario : Type := mkScenario {
  sc_max_warehouses : Z;
  sc_actual_warehouses : nat;
  sc_total_cost : Q;
  sc_fixed_cost : Q;
  sc_variable_cost : Q
}.

Definition scenario_fields : list string :=
  ["max_warehouses"; "actual_warehouses"; "total_cost"; "fixed_cost";
   "variable_cost"].

(** The fields of a [NetworkOptimizer] instance.  [y] and [x] are the key
    lists of the two variable dicts; the variable stored under a key is
    [warehouse_open w], respectively [shipment w c].  [status] and
    [varValue] are what the solver writes back into the model and its
    variables; [varValue] is read by [extract_solution] only, which [solve]
    calls after the solver has ended Optimal or Feasible and has given
    every variable a value. *)
Record NetworkOptimizer : Type := mkNetworkOptimizer {
  model : option LpProblem;
  warehouses : list string;
  customers : list string;
  solution : option Solution;
  warehouse_df : list WarehouseRow;
  demand_df : list DemandRow;
  distance_df : list DistanceRow;
  y : list string;
  x : list (string * string);
  demand_dict : dict string Q;
  cost_dict : dict (string * string) Q;
  fixed_cost_dict : dict string Q;
  status : LpStatus;
  varValue : assignment
}.

(** [NetworkOptimizer()].  [__init__] creates the model, the two lists and
    the solution only; the tables and the dicts become attributes in
    [load_data] and [build_model].  The record has them from the start,
    empty, so a read that the program would refuse with [AttributeError]
    finds an empty table here (see the header). *)
Definition init : NetworkOptimizer :=
  {| model := None; warehouses := []; customers := []; solution := None;
     warehouse_df := []; demand_df := []; distance_df := [];
     y := []; x := []; demand_dict := []; cost_dict := [];
     fixed_cost_dict := []; status := NotSolved; varValue := fun _ => 0 |}.

(** [load_data]: the three files are given by their rows. *)
Definition load_data (warehouse_file : list WarehouseRow)
  (demand_file : list DemandRow) (distance_file : list DistanceRow)
  (self : NetworkOptimizer) : NetworkOptimizer :=
  {| model := model self;
     warehouses := map wr_warehouse warehouse_file;
     customers := Py.unique String.eqb (map dm_city demand_file);
     solution := solution self;
     warehouse_df := warehouse_file;
     demand_df := demand_file;
     distance_df := distance_file;
     y := y self; x := x self; demand_dict := demand_dict self;
     cost_dict := cost_dict self; fixed_cost_dict := fixed_cost_dict self;
     status := status self; varValue := varValue self |}.

(* ===================================================================== *)
(** ** [build_model] *)
(* ===================================================================== *)

(** [demand_filtered.groupby('city')['demand'].sum().to_dict()] *)
Definition make_demand_dict (lvl : string) (df : list DemandRow)
  : dict string Q :=
  Pd.groupby_sum
    (map (fun r => (dm_city r, dm_demand r))
       (filter (fun r => (dm_service_level r =? lvl)%string) df)).

(** The loop filling [cost_dict] from the filtered distance rows. *)
Definition make_cost_dict (lvl : string) (df : list DistanceRow)
  : dict (string * string) Q :=
  fold_left
    (fun d row =>
       Py.setitem Py.pair_eqb d (ds_warehouse row, ds_customer_city row)
         (ds_transport_cost_per_shipment row))
    (filter (fun r => (ds_service_level r =? lvl)%string) df) [].

Definition make_fixed_cost_dict (df : list WarehouseRow) : dict string Q :=
  Py.of_zip String.eqb (map wr_warehouse df) (map wr_fixed_cost_annual df).

(** [routes = [(w, c) for w in self.warehouses for c in demand_dict.keys()]] *)
Definition make_routes (ws : list string) (dd : dict string Q)
  : list (string * string) :=
  flat_map (fun w => map (fun c => (w, c)) (Py.keys dd)) ws.

(** The objective: fixed costs, then transport costs. *)
Definition make_objective (ws : list string) (rts : list (string * string))
  (cd : dict (string * string) Q) (fd : dict string Q)
  : result LpAffineExpression :=
  fixed <- Py.mapM
             (fun w => f <- Py.getitem fd w ;;
                       Ok (scale f (of_var (warehouse_open w)))) ws ;;
  Ok (add (lpSum fixed)
        (lpSum (map (fun wc =>
                       scale (Py.get_default Py.pair_eqb cd wc 0)
                         (of_var (shipment (fst wc) (snd wc)))) rts))).

(** Constraint 1: meet all customer demand. *)
Definition demand_constraint (ws : list string) (c : string) (d : Q)
  : LpConstraint :=
  {| c_lhs := lpSum (map (fun w => of_var (shipment w c)) ws);
     c_sense := EQ;
     c_rhs := of_const d;
     c_name := "Demand_" ++ c |}.

Definition demand_constraints (ws : list string) (dd : dict string Q)
  : result (list LpConstraint) :=
  Py.mapM (fun c => d <- Py.getitem dd c ;; Ok (demand_constraint ws c d))
    (Py.keys dd).

(** Constraint 2: can only ship from open warehouses (big M). *)
Definition capacity_constraint (M : Q) (w c : string) : LpConstraint :=
  {| c_lhs := of_var (shipment w c);
     c_sense := LE;
     c_rhs := scale M (of_var (warehouse_open w));
     c_name := "Capacity_" ++ w ++ "_" ++ c |}.

Definition capacity_constraints (M : Q) (ws : list string)
  (dd : dict string Q) : list LpConstraint :=
  flat_map (fun w => map (fun c => capacity_constraint M w c) (Py.keys dd)) ws.

(** Constraint 3: maximum number of warehouses. *)
Definition max_warehouses_constraint (ws : list string) (n : Z)
  : LpConstraint :=
  {| c_lhs := lpSum (map (fun w => of_var (warehouse_open w)) ws);
     c_sense := LE;
     c_rhs := of_const (inject_Z n);
     c_name := "Max_Warehouses" |}.

(** [if max_warehouses: ...] *)
Definition max_warehouses_constraints (ws : list string)
  (max_warehouses : option Z) : list LpConstraint :=
  match max_warehouses with
  | Some n =>
      if Py.truthy max_warehouses
      then [max_warehouses_constraint ws n]
      else []
  | None => []
  end.

(** [build_model].  The constraints are kept in the order in which the
    method adds them, each under the name the source gives it.  PuLP's
    refusal of a name that the model already has is not part of the
    definition (see the header): where two names coincide the program
    raises and this function returns. *)
Definition build_model (max_warehouses : option Z)
  (service_level_filter : string) (self : NetworkOptimizer)
  : result NetworkOptimizer :=
  let demand_dict := make_demand_dict service_level_filter (demand_df self) in
  let cost_dict := make_cost_dict service_level_filter (distance_df self) in
  let fixed_cost_dict := make_fixed_cost_dict (warehouse_df self) in
  let y := Py.unique String.eqb (warehouses self) in
  let routes := make_routes (warehouses self) demand_dict in
  let x := Py.unique Py.pair_eqb routes in
  obj <- make_objective (warehouses self) routes cost_dict fixed_cost_dict ;;
  c1 <- demand_constraints (warehouses self) demand_dict ;;
  let M := Py.sum (Py.values demand_dict) in
  let c2 := capacity_constraints M (warehouses self) demand_dict in
  let c3 := max_warehouses_constraints (warehouses self) max_warehouses in
  Ok {| model :=
          Some {| p_name := "Supply_Chain_Network_Optimization";
                  objective := obj;
                  objective_name := "Total_Cost";
                  constraints := (c1 ++ c2 ++ c3)%list |};
        warehouses := warehouses self;
        customers := customers self;
        solution := solution self;
        warehouse_df := warehouse_df self;
        demand_df := demand_df self;
        distance_df := distance_df self;
        y := y; x := x;
        demand_dict := demand_dict;
        cost_dict := cost_dict;
        fixed_cost_dict := fixed_cost_dict;
        status := NotSolved;
        varValue := varValue self |}.

(** An assignment satisfies the built model: every constraint holds and
    every declared variable is within its category and bounds. *)
Definition satisfies (self : NetworkOptimizer) (a : assignment) : bool :=
  match model self with
  | None => false
  | Some m =>
      forallb (holds a) (constraints m)
      && forallb (fun w => in_domain a (warehouse_open w)) (y self)
      && forallb (fun wc => in_domain a (shipment (fst wc) (snd wc))) (x self)
  end.

(* ===================================================================== *)
(** ** [extract_solution] *)
(* ===================================================================== *)

(** The dict appended to [routes] for a key of [self.x]. *)
Definition stamp (self : NetworkOptimizer) (wc : string * string) : Route :=
  let flow := varValue self (shipment (fst wc) (snd wc)) in
  {| rt_warehouse := fst wc;
     rt_customer := snd wc;
     rt_shipments := Py.round2 flow;
     rt_cost_per_shipment := Py.get_default Py.pair_eqb (cost_dict self) wc 0;
     rt_total_cost :=
       Py.round2 (flow * Py.get_default Py.pair_eqb (cost_dict self) wc 0) |}.

(** The body of the routing loop for one key of [self.x]. *)
Definition route_of (self : NetworkOptimizer) (wc : string * string)
  : list Route :=
  let flow := varValue self (shipment (fst wc) (snd wc)) in
  if Py.gt flow (1 # 100) then [stamp self wc] else [].

Definition extract_solution (self : NetworkOptimizer)
  : result NetworkOptimizer :=
  let open_warehouses :=
    filter (fun w => Py.gt (varValue self (warehouse_open w)) (1 # 2))
      (warehouses self) in
  let routes := flat_map (route_of self) (x self) in
  let routes_df := Pd.of_records route_fields routes in
  fixed <- Py.mapM (Py.getitem (fixed_cost_dict self)) open_warehouses ;;
  let total_fixed_cost := Py.sum fixed in
  line_costs <- Pd.getitem routes_df "total_cost" rt_total_cost ;;
  let total_variable_cost := Py.sum line_costs in
  let total_cost := total_fixed_cost + total_variable_cost in
  m <- match model self with
       | Some m => Ok m
       | None => Raise (AttributeError "objective")
       end ;;
  Ok {| model := model self;
        warehouses := warehouses self;
        customers := customers self;
        solution :=
          Some {| open_warehouses := open_warehouses;
                  num_warehouses := List.length open_warehouses;
                  routes := routes_df;
                  total_cost := total_cost;
                  fixed_cost := total_fixed_cost;
                  variable_cost := total_variable_cost;
                  objective_value := value (varValue self) (objective m) |};
        warehouse_df := warehouse_df self;
        demand_df := demand_df self;
        distance_df := distance_df self;
        y := y self; x := x self;
        demand_dict := demand_dict self;
        cost_dict := cost_dict self;
        fixed_cost_dict := fixed_cost_dict self;
        status := status self;
        varValue := varValue self |}.

(* ===================================================================== *)
(** ** [solve] and [compare_scenarios], over an external solver *)
(* ===================================================================== *)

(** What a run of the external solver leaves behind: a status and the
    values of the variables. *)
Definition Solver : Type := Z -> LpProblem -> LpStatus * assignment.

(** The solver is sound for infeasibility when it reports [Infeasible]
    only for models without a satisfying assignment. *)
Definition reports_infeasible_soundly (cbc : Solver) : Prop :=
  forall (self : NetworkOptimizer) (m : LpProblem) (t : Z),
    model self = Some m ->
    fst (cbc t m) = Infeasible ->
    forall a, satisfies self a = false.

(** The object once the solver has written a status and values back. *)
Definition with_solver_output (self : NetworkOptimizer) (st : LpStatus)
  (vals : assignment) : NetworkOptimizer :=
  {| model := model self;
     warehouses := warehouses self;
     customers := customers self;
     solution := solution self;
     warehouse_df := warehouse_df self;
     demand_df := demand_df self;
     distance_df := distance_df self;
     y := y self; x := x self;
     demand_dict := demand_dict self;
     cost_dict := cost_dict self;
     fixed_cost_dict := fixed_cost_dict self;
     status := st;
     varValue := vals |}.

Section WithSolver.

(** [PULP_CBC_CMD(timeLimit=t)] applied to a model. *)
Variable PULP_CBC_CMD : Solver.

(** [solve] returns its result and the updated object. *)
Definition solve (time_limit : Z) (self : NetworkOptimizer)
  : result (option Solution * NetworkOptimizer) :=
  match model self with
  | None => Raise (AttributeError "solve")
  | Some m =>
      let '(st, vals) := PULP_CBC_CMD time_limit m in
      let self1 := with_solver_output self st vals in
      match st with
      | Optimal | Feasible =>
          self2 <- extract_solution self1 ;;
          Ok (solution self2, self2)
      | _ => Ok (None, self1)
      end
  end.

(** One iteration of the loop of [compare_scenarios]. *)
Definition scenario_step (n : Z) (acc : list Scenario * NetworkOptimizer)
  : result (list Scenario * NetworkOptimizer) :=
  self1 <- build_model (Some n) "Standard" (snd acc) ;;
  r <- solve 60 self1 ;;
  let self2 := snd r in
  match solution self2 with
  | Some s =>
      Ok ((fst acc ++
             [ {| sc_max_warehouses := n;
                  sc_actual_warehouses := num_warehouses s;
                  sc_total_cost := total_cost s;
                  sc_fixed_cost := fixed_cost s;
                  sc_variable_cost := variable_cost s |} ])%list,
          self2)
  | None => Ok (fst acc, self2)
  end.

Fixpoint sweep (caps : list Z) (acc : list Scenario * NetworkOptimizer)
  : result (list Scenario * NetworkOptimizer) :=
  match caps with
  | [] => Ok acc
  | n :: rest => acc' <- scenario_step n acc ;; sweep rest acc'
  end.

Definition scenario_caps : list Z := [2; 3; 4; 5; 6; 7; 8]%Z.

(** The outcome of [compare_scenarios]: the table it returns and the row
    it reports as optimal. *)
Record Comparison : Type := mkComparison {
  scenario_df : Pd.DataFrame Scenario;
  optimal : Scenario
}.

Definition compare_scenarios (self : NetworkOptimizer)
  : result (Comparison * NetworkOptimizer) :=
  acc <- sweep scenario_caps ([], self) ;;
  let scenario_df := Pd.of_records scenario_fields (fst acc) in
  col <- Pd.getitem scenario_df "total_cost" sc_total_cost ;;
  optimal_idx <- Pd.idxmin col ;;
  optimal <- Pd.iloc scenario_df optimal_idx ;;
  Ok ({| scenario_df := scenario_df; optimal := optimal |}, snd acc).

End WithSolver.

(* ===================================================================== *)
(** ** Notions used to state the properties *)
(* ===================================================================== *)

(** Strict order on keys, as [groupby] sorts them. *)
Definition slt (a b : string) : Prop := String.compare a b = Lt.


(** What one insertion does to a lookup. *)
Definition opt_add (o : option Q) (v : Q) : option Q :=
  Some (match o with Some v' => v' + v | None => v end).


(** The total of the values filed under key [k], added in row order
    starting from what [o] already holds. *)
Definition group_total (kvs : list (string * Q)) (k : string) (o : option Q)
  : option Q :=
  fold_left (fun o kv => if (k =? fst kv)%string then opt_add o (snd kv) else o)
    kvs o.


(** The warehouse list is the [warehouse] column of the warehouse table, as
    [load_data] leaves it.  (A new object has the property too: both are
    empty.) *)
Definition loaded (self : NetworkOptimizer) : Prop :=
  warehouses self = map wr_warehouse (warehouse_df self).

(* ===================================================================== *)
(** ** The callers in [src/api/main.py] *)
(* ===================================================================== *)

Module Api.

(** The [detail] of an [HTTPException]: a literal, or [str(e)] of the
    exception caught by the handler, which may itself be an
    [HTTPException] raised inside the [try]. *)
Inductive Detail : Type :=
| Literal (s : string)
| StrOfExn (e : Py.exn)
| StrOfHTTP (status_code : Z) (detail : string).

(** How a handler ends when it does not return: it raises an
    [HTTPException], or a Python exception escapes it. *)
Inductive failure : Type :=
| HTTPException (status_code : Z) (detail : Detail)
| Uncaught (e : Py.exn)
| TypeError (msg : string).

Inductive outcome (A : Type) : Type :=
| Returned (a : A)
| Failed (f : failure).

Arguments Returned {A} a.
Arguments Failed {A} f.

Record OptimizationRequest : Type := mkRequest {
  rq_max_warehouses : option Z;
  rq_service_level : string
}.

(** The dict returned by [run_optimization]. *)
Record OptimizationResponse : Type := mkResponse {
  rs_open_warehouses : list string;
  rs_num_warehouses : nat;
  rs_total_cost : Q;
  rs_fixed_cost : Q;
  rs_variable_cost : Q;
  rs_annual_savings : Q;
  rs_savings_percentage : Q;
  rs_routes : list Route
}.

Definition baseline_cost : Q := 22667407.

Section WithSolver.
Variable PULP_CBC_CMD : Solver.

(** [POST /optimize].  [load_data()] reads the three files, given here by
    their rows.  Every exception raised inside the [try], the
    [HTTPException] of a missing solution included, is turned into an
    [HTTPException] with status 500 and detail [str(e)]. *)
Definition run_optimization (warehouse_file : list WarehouseRow)
  (demand_file : list DemandRow) (distance_file : list DistanceRow)
  (request : OptimizationRequest) : outcome OptimizationResponse :=
  let optimizer := load_data warehouse_file demand_file distance_file init in
  match (self1 <- build_model (rq_max_warehouses request)
                    (rq_service_level request) optimizer ;;
         r <- solve PULP_CBC_CMD 60 self1 ;;
         Ok (snd r)) with
  | Raise e => Failed (HTTPException 500 (StrOfExn e))
  | Ok optimizer =>
      match solution optimizer with
      | None =>
          Failed (HTTPException 500 (StrOfHTTP 500 "Optimization failed"))
      | Some s =>
          let savings := baseline_cost - total_cost s in
          let savings_pct := (savings / baseline_cost) * 100 in
          Returned
            {| rs_open_warehouses := open_warehouses s;
               rs_num_warehouses := num_warehouses s;
               rs_total_cost := total_cost s;
               rs_fixed_cost := fixed_cost s;
               rs_variable_cost := variable_cost s;
               rs_annual_savings := savings;
               rs_savings_percentage := Py.round2 savings_pct;
               rs_routes := Pd.rows (routes s) |}
      end
  end.

End WithSolver.

(** One entry of [warehouse_breakdown]. *)
Record WarehouseCost : Type := mkWarehouseCost {
  wc_warehouse : string;
  wc_fixed_cost : Q;
  wc_variable_cost : Q;
  wc_total_cost : Q;
  wc_num_routes : nat;
  wc_total_shipments : Q
}.

(** The dict returned by [get_cost_breakdown]. *)
Record CostBreakdown : Type := mkCostBreakdown {
  cb_baseline_cost : Q;
  cb_optimized_cost : Q;
  cb_savings : Q;
  cb_fixed_cost_total : Q;
  cb_variable_cost_total : Q;
  cb_warehouse_breakdown : list WarehouseCost
}.

(** [warehouse_df[warehouse_df['warehouse'] == wh].iloc[0]] *)
Definition first_row_named (warehouse_df : list WarehouseRow) (wh : string)
  : outcome WarehouseRow :=
  match filter (fun r => (wr_warehouse r =? wh)%string) warehouse_df with
  | r :: _ => Returned r
  | [] =>
      Failed (Uncaught
                (IndexError "single positional indexer is out-of-bounds"))
  end.

(** [routes[routes['warehouse'] == wh]] *)
Definition routes_from (routes : Pd.DataFrame Route) (wh : string)
  : outcome (list Route) :=
  if existsb (String.eqb "warehouse") (Pd.columns routes)
  then Returned (filter (fun r => (rt_warehouse r =? wh)%string)
                   (Pd.rows routes))
  else Failed (Uncaught (KeyError "warehouse")).

(** The body of the loop over the open warehouses. *)
Definition warehouse_cost (warehouse_df : option (list WarehouseRow))
  (s : Solution) (wh : string) : outcome WarehouseCost :=
  match warehouse_df with
  | None => Failed (TypeError "'NoneType' object is not subscriptable")
  | Some df =>
      match first_row_named df wh with
      | Failed f => Failed f
      | Returned wh_data =>
          match routes_from (routes s) wh with
          | Failed f => Failed f
          | Returned wh_routes =>
              Returned
                {| wc_warehouse := wh;
                   wc_fixed_cost := wr_fixed_cost_annual wh_data;
                   wc_variable_cost := Py.sum (map rt_total_cost wh_routes);
                   wc_total_cost :=
                     wr_fixed_cost_annual wh_data
                     + Py.sum (map rt_total_cost wh_routes);
                   wc_num_routes := List.length wh_routes;
                   wc_total_shipments :=
                     Py.sum (map rt_shipments wh_routes) |}
          end
      end
  end.

Fixpoint for_each {A B : Type} (f : A -> outcome B) (l : list A)
  : outcome (list B) :=
  match l with
  | [] => Returned []
  | a :: r =>
      match f a with
      | Failed e => Failed e
      | Returned b =>
          match for_each f r with
          | Failed e => Failed e
          | Returned bs => Returned (b :: bs)
          end
      end
  end.

(** [GET /cost-breakdown], over the module-level [solution] and
    [warehouse_df], each [None] when it could not be loaded. *)
Definition get_cost_breakdown (solution : option Solution)
  (warehouse_df : option (list WarehouseRow)) : outcome CostBreakdown :=
  match solution with
  | None => Failed (HTTPException 500 (Literal "Solution not loaded"))
  | Some s =>
      let optimized_cost := total_cost s in
      match for_each (warehouse_cost warehouse_df s) (open_warehouses s) with
      | Failed f => Failed f
      | Returned warehouse_costs =>
          Returned
            {| cb_baseline_cost := baseline_cost;
               cb_optimized_cost := optimized_cost;
               cb_savings := baseline_cost - optimized_cost;
               cb_fixed_cost_total := fixed_cost s;
               cb_variable_cost_total := variable_cost s;
               cb_warehouse_breakdown := warehouse_costs |}
      end
  end.

End Api.

(* ===================================================================== *)
(** ** Further notions used to state properties *)
(* ===================================================================== *)

(** The assignment that opens the single warehouse [w0] and ships every
    customer's whole demand from it. *)
Definition serve_all_from (w0 : string) (dd : dict string Q) : assignment :=
  fun v =>
    match v with
    | warehouse_open w => if (w =? w0)%string then 1 else 0
    | shipment w c =>
        if (w =? w0)%string then Py.get_default String.eqb dd c 0 else 0
    end.


(** The solver ends a run with a status that [solve] treats as failure. *)
Definition fails (st : LpStatus) : Prop := st <> Optimal /\ st <> Feasible.

(** The fixed cost of the first row of the warehouse table named [wh]. *)
Definition first_fixed_cost (warehouse_df : list WarehouseRow) (wh : string)
  : Q :=
  match filter (fun r => (wr_warehouse r =? wh)%string) warehouse_df with
  | r :: _ => wr_fixed_cost_annual r
  | [] => 0
  end.

(** The breakdown entry of warehouse [wh] over the route rows [rts]. *)
Definition breakdown_entry (warehouse_df : list WarehouseRow)
  (rts : list Route) (wh : string) : Api.WarehouseCost :=
  let wh_routes := filter (fun r => (rt_warehouse r =? wh)%string) rts in
  {| Api.wc_warehouse := wh;
     Api.wc_fixed_cost := first_fixed_cost warehouse_df wh;
     Api.wc_variable_cost := Py.sum (map rt_total_cost wh_routes);
     Api.wc_total_cost :=
       first_fixed_cost warehouse_df wh + Py.sum (map rt_total_cost wh_routes);
     Api.wc_num_routes := List.length wh_routes;
     Api.wc_total_shipments := Py.sum (map rt_shipments wh_routes) |}.


(* ===================================================================== *)
(** ** Concrete networks used as examples *)
(* ===================================================================== *)

Module Examples.

(** Two candidate warehouses, three customers.  The demand of C2 is split
    over two Standard rows; the pair (B, C3) has no Standard cost row. *)
Definition warehouse_table : list WarehouseRow :=
  [ mkWarehouseRow "A" 1000000; mkWarehouseRow "B" 1200000 ].

Definition demand_table : list DemandRow :=
  [ mkDemandRow "C2" "Standard" 20;
    mkDemandRow "C1" "Standard" 100;
    mkDemandRow "C2" "Express" 7;
    mkDemandRow "C2" "Standard" 30;
    mkDemandRow "C3" "Standard" 30 ].

Definition distance_table : list DistanceRow :=
  [ mkDistanceRow "A" "C1" "Standard" 2;
    mkDistanceRow "A" "C2" "Standard" 3;
    mkDistanceRow "A" "C3" "Standard" (1 # 8);
    mkDistanceRow "B" "C1" "Standard" 5;
    mkDistanceRow "B" "C2" "Standard" 6;
    mkDistanceRow "B" "C3" "Express" 1 ].

Definition network : NetworkOptimizer :=
  load_data warehouse_table demand_table distance_table init.

(** Everything is served from warehouse A; B stays closed. *)
Definition all_from_A : assignment :=
  fun v =>
    match v with
    | warehouse_open w => if (w =? "A")%string then 1 else 0
    | shipment w c =>
        if (w =? "A")%string
        then if (c =? "C1")%string then 100
             else if (c =? "C2")%string then 50
             else if (c =? "C3")%string then 30 else 0
        else 0
    end.

(** A solver run that ends Optimal with that assignment. *)
Definition cbc_all_from_A : Solver := fun _ _ => (Optimal, all_from_A).

(** A solver that needs the full default budget of 300 seconds: with less
    time it stops without a solution. *)
Definition cbc_slow : Solver :=
  fun time_limit _ =>
    if (300 <=? time_limit)%Z then (Optimal, all_from_A)
    else (NotSolved, fun _ => 0).

(** A network with one tiny order: customer C2 asks for 1/128 of a unit on
    an expensive lane.  All the numbers are exact binary fractions. *)
Definition tiny_warehouse_table : list WarehouseRow :=
  [ mkWarehouseRow "A" 1000 ].

Definition tiny_demand_table : list DemandRow :=
  [ mkDemandRow "C1" "Standard" 10;
    mkDemandRow "C2" "Standard" (1 # 128) ].

Definition tiny_distance_table : list DistanceRow :=
  [ mkDistanceRow "A" "C1" "Standard" 1;
    mkDistanceRow "A" "C2" "Standard" 1280000 ].

Definition tiny_network : NetworkOptimizer :=
  load_data tiny_warehouse_table tiny_demand_table tiny_distance_table init.

(** The only assignment the tiny model admits. *)
Definition tiny_flows : assignment :=
  fun v =>
    match v with
    | warehouse_open _ => 1
    | shipment _ c => if (c =? "C1")%string then 10 else 1 # 128
    end.

Definition cbc_tiny : Solver := fun _ _ => (Optimal, tiny_flows).

(** A network whose only customer has zero Standard demand. *)
Definition idle_demand_table : list DemandRow :=
  [ mkDemandRow "C1" "Standard" 0 ].

Definition idle_network : NetworkOptimizer :=
  load_data warehouse_table idle_demand_table distance_table init.

Definition no_flows : assignment := fun _ => 0.

Definition cbc_idle : Solver := fun _ _ => (Optimal, no_flows).

(** Unwrapping a result that is known to be [Ok]. *)
Definition built (r : result NetworkOptimizer) : NetworkOptimizer :=
  match r with
  | Ok s => s
  | Raise _ => init
  end.

Definition solved (r : result NetworkOptimizer) : Solution :=
  match r with
  | Ok {| solution := Some s |} => s
  | _ => {| open_warehouses := []; num_warehouses := 0;
            routes := Pd.mkDataFrame [] []; total_cost := 0;
            fixed_cost := 0; variable_cost := 0; objective_value := 0 |}
  end.

(** The problem held by an object on which [build_model] has run. *)
Definition problem_of (self : NetworkOptimizer) : LpProblem :=
  match model self with
  | Some m => m
  | None => {| p_name := ""; objective := of_const 0; objective_name := "";
               constraints := [] |}
  end.

(** The uncapped model of [network], and what extraction makes of
    [all_from_A]. *)
Definition uncapped : NetworkOptimizer :=
  built (build_model None "Standard" network).

Definition uncapped_extracted : result NetworkOptimizer :=
  extract_solution (with_solver_output uncapped Optimal all_from_A).

(** The same for the tiny network. *)
Definition tiny_model : NetworkOptimizer :=
  built (build_model None "Standard" tiny_network).

Definition tiny_extracted : result NetworkOptimizer :=
  extract_solution (with_solver_output tiny_model Optimal tiny_flows).

(** The model that [build_model] makes of [network] under a cap of 0. *)
Definition capped_at_zero : NetworkOptimizer :=
  built (build_model (Some 0%Z) "Standard" network).

(** The main script: an uncapped solve with the default budget, then the
    sweep.  This is the object between the two. *)
Definition after_first_solve : NetworkOptimizer :=
  match solve cbc_slow 300 uncapped with
  | Ok (_, self) => self
  | Raise _ => init
  end.

(** The rows of the table returned by [compare_scenarios]. *)
Definition table (r : result (Comparison * NetworkOptimizer))
  : list Scenario :=
  match r with
  | Ok (c, _) => Pd.rows (scenario_df c)
  | Raise _ => []
  end.

Definition reported (r : result (Comparison * NetworkOptimizer))
  : option Scenario :=
  match r with
  | Ok (c, _) => Some (optimal c)
  | Raise _ => None
  end.

(** The sweep over [network] when every solve returns [all_from_A]. *)
Definition swept_rows : list Scenario :=
  match sweep cbc_all_from_A scenario_caps ([], network) with
  | Ok acc => fst acc
  | Raise _ => []
  end.

Definition swept_final : NetworkOptimizer :=
  match sweep cbc_all_from_A scenario_caps ([], network) with
  | Ok acc => snd acc
  | Raise _ => init
  end.

(** The model of the idle network. *)
Definition idle_model : NetworkOptimizer :=
  built (build_model None "Standard" idle_network).

End Examples.

(** Further concrete cases. *)
Module Cases.

Definition capped_at_two : NetworkOptimizer :=
  Examples.built (build_model (Some 2%Z) "Standard" Examples.network).

Definition capped_at_two_extracted : result NetworkOptimizer :=
  extract_solution
    (with_solver_output capped_at_two Optimal Examples.all_from_A).

Definition capped_below_zero : NetworkOptimizer :=
  Examples.built (build_model (Some (-1)%Z) "Standard" Examples.network).

(** The example network without any candidate warehouse. *)
Definition no_warehouse_network : NetworkOptimizer :=
  load_data [] Examples.demand_table Examples.distance_table init.

Definition no_warehouse_model : NetworkOptimizer :=
  Examples.built (build_model None "Standard" no_warehouse_network).

(** A cost matrix that lists the lane (A, C1) twice at the Standard level. *)
Definition repeated_lane_table : list DistanceRow :=
  [ mkDistanceRow "A" "C1" "Standard" 2;
    mkDistanceRow "A" "C2" "Standard" 3;
    mkDistanceRow "A" "C1" "Standard" 9;
    mkDistanceRow "A" "C1" "Express" 20 ].

Definition repeated_lane_network : NetworkOptimizer :=
  load_data Examples.warehouse_table Examples.demand_table
    repeated_lane_table init.

(** A solver that never finds a solution. *)
Definition cbc_never : Solver := fun _ _ => (NotSolved, fun _ => 0).

(** The solution of the uncapped example. *)
Definition uncapped_solution : Solution :=
  Examples.solved Examples.uncapped_extracted.

End Cases.

(* ===================================================================== *)
(** ** Facts about the Python and pandas primitives *)
(* ===================================================================== *)

Module PyFacts.

Lemma gt_true (a b : Q) : Py.gt a b = true <-> b < a.
Proof.
  unfold Py.gt. rewrite negb_true_iff.
  split; intro H.
  - destruct (Qlt_le_dec b a) as [L | L]; [exact L |].
    apply Qle_bool_iff in L. congruence.
  - destruct (Qle_bool a b) eqn:E; [| reflexivity].
    apply Qle_bool_iff in E. lra.
Qed.

Lemma gt_false (a b : Q) : Py.gt a b = false <-> a <= b.
Proof.
  unfold Py.gt. rewrite negb_false_iff. apply Qle_bool_iff.
Qed.

Lemma fold_plus_acc (l : list Q) (acc : Q) :
  fold_left Qplus l acc == acc + fold_left Qplus l 0.
Proof.
  revert acc. induction l as [| q l IH]; intro acc; simpl.
  - lra.
  - rewrite (IH (acc + q)), (IH (0 + q)). lra.
Qed.

Lemma sum_nil : Py.sum [] = 0.
Proof. reflexivity. Qed.

Lemma sum_cons (q : Q) (l : list Q) : Py.sum (q :: l) == q + Py.sum l.
Proof.
  unfold Py.sum. simpl. rewrite fold_plus_acc. lra.
Qed.

Lemma sum_app (l1 l2 : list Q) : Py.sum (l1 ++ l2) == Py.sum l1 + Py.sum l2.
Proof.
  induction l1 as [| q l1 IH]; simpl.
  - rewrite sum_nil. lra.
  - rewrite !sum_cons, IH. lra.
Qed.

(** Sums of pointwise equal lists are equal. *)
Lemma sum_ext {A : Type} (f g : A -> Q) (l : list A) :
  (forall a, In a l -> f a == g a) ->
  Py.sum (map f l) == Py.sum (map g l).
Proof.
  induction l as [| a l IH]; intro H; simpl.
  - reflexivity.
  - rewrite !sum_cons, (H a (or_introl eq_refl)), IH.
    + reflexivity.
    + intros b Hb. apply H. right. exact Hb.
Qed.

Lemma sum_flat_map {A B : Type} (f : A -> list B) (g : B -> Q) (l : list A) :
  Py.sum (map g (flat_map f l)) == Py.sum (map (fun a => Py.sum (map g (f a))) l).
Proof.
  induction l as [| a l IH]; simpl.
  - reflexivity.
  - rewrite map_app, sum_app, sum_cons, IH. reflexivity.
Qed.

(** *** Rounding to two decimals *)

Lemma round_half_even_near (q : Q) :
  Qabs (inject_Z (Py.round_half_even q) - q) <= 1 # 2.
Proof.
  unfold Py.round_half_even.
  pose proof (Qfloor_le q) as Hlo.
  pose proof (Qlt_floor q) as Hhi.
  rewrite inject_Z_plus in Hhi.
  change (inject_Z 1) with 1 in Hhi.
  apply Qabs_Qle_condition.
  destruct (Qcompare (q - inject_Z (Qfloor q)) (1 # 2)) eqn:E.
  - apply Qeq_alt in E.
    destruct (Z.even (Qfloor q)).
    + split; lra.
    + rewrite inject_Z_plus. change (inject_Z 1) with 1. split; lra.
  - apply Qlt_alt in E. split; lra.
  - apply Qgt_alt in E. rewrite inject_Z_plus. change (inject_Z 1) with 1.
    split; lra.
Qed.

Lemma round2_near (q : Q) : Qabs (Py.round2 q - q) <= 1 # 200.
Proof.
  unfold Py.round2.
  pose proof (round_half_even_near (q * 100)) as H.
  apply Qabs_Qle_condition in H. apply Qabs_Qle_condition.
  destruct H as [H1 H2]. split; lra.
Qed.

(** A value with at most two decimals is left unchanged. *)
Lemma round2_exact (z : Z) : Py.round2 (inject_Z z * (1 # 100)) == inject_Z z * (1 # 100).
Proof.
  unfold Py.round2.
  assert (E : inject_Z z * (1 # 100) * 100 == inject_Z z) by lra.
  assert (R : Py.round_half_even (inject_Z z * (1 # 100) * 100) = z).
  { unfold Py.round_half_even.
    assert (F : Qfloor (inject_Z z * (1 # 100) * 100) = z).
    { rewrite (Qfloor_comp _ _ E). apply Qfloor_Z. }
    rewrite F.
    assert (L : (inject_Z z * (1 # 100) * 100 - inject_Z z ?= 1 # 2) = Lt).
    { rewrite <- Qlt_alt. lra. }
    rewrite L. reflexivity. }
  rewrite R. reflexivity.
Qed.

(** *** [mapM] *)

Lemma mapM_ok {A B : Type} (f : A -> result B) (g : A -> B) (l : list A) :
  (forall a, In a l -> f a = Ok (g a)) ->
  Py.mapM f l = Ok (map g l).
Proof.
  induction l as [| a l IH]; intro H; simpl.
  - reflexivity.
  - rewrite (H a (or_introl eq_refl)). simpl.
    rewrite IH by (intros b Hb; apply H; right; exact Hb).
    reflexivity.
Qed.

Lemma mapM_inv {A B : Type} (f : A -> result B) (l : list A) (bs : list B) :
  Py.mapM f l = Ok bs -> Forall2 (fun a b => f a = Ok b) l bs.
Proof.
  revert bs. induction l as [| a l IH]; intros bs H; simpl in H.
  - injection H as <-. constructor.
  - destruct (f a) as [b |] eqn:Ea; simpl in H; [| discriminate].
    destruct (Py.mapM f l) as [bs' |] eqn:El; simpl in H; [| discriminate].
    injection H as <-. constructor; [exact Ea | apply IH; reflexivity].
Qed.

End PyFacts.

(** *** Dictionaries *)

Module DictFacts.

Section Generic.
Context {K V : Type} (eqb : K -> K -> bool).
Hypothesis eqb_eq : forall a b, eqb a b = true <-> a = b.

Lemma eqb_refl (a : K) : eqb a a = true.
Proof. apply eqb_eq. reflexivity. Qed.

Lemma eqb_neq (a b : K) : a <> b -> eqb a b = false.
Proof.
  intro N. destruct (eqb a b) eqn:E; [| reflexivity].
  apply eqb_eq in E. contradiction.
Qed.

Lemma get_in_keys (d : dict K V) (k : K) :
  In k (Py.keys d) -> exists v, Py.get eqb d k = Some v.
Proof.
  induction d as [| [k' v'] d IH]; simpl; intro H.
  - contradiction.
  - destruct (eqb k k') eqn:E.
    + exists v'. reflexivity.
    + destruct H as [H | H].
      * subst k'. rewrite eqb_refl in E. discriminate.
      * apply IH. exact H.
Qed.

Lemma get_not_in_keys (d : dict K V) (k : K) :
  ~ In k (Py.keys d) -> Py.get eqb d k = None.
Proof.
  induction d as [| [k' v'] d IH]; simpl; intro H.
  - reflexivity.
  - rewrite eqb_neq by (intro; subst; apply H; left; reflexivity).
    apply IH. intro; apply H; right; assumption.
Qed.

Lemma get_some_in_keys (d : dict K V) (k : K) (v : V) :
  Py.get eqb d k = Some v -> In k (Py.keys d).
Proof.
  induction d as [| [k' v'] d IH]; simpl; intro H.
  - discriminate.
  - destruct (eqb k k') eqn:E.
    + apply eqb_eq in E. left. symmetry. exact E.
    + right. apply IH. exact H.
Qed.

Lemma keys_setitem (d : dict K V) (k : K) (v : V) (k0 : K) :
  In k0 (Py.keys (Py.setitem eqb d k v)) <-> k0 = k \/ In k0 (Py.keys d).
Proof.
  induction d as [| [k' v'] d IH]; simpl.
  - intuition congruence.
  - destruct (eqb k k') eqn:E; simpl.
    + apply eqb_eq in E. subst k'. intuition congruence.
    + rewrite IH. intuition congruence.
Qed.

Lemma keys_fold_setitem (kvs : list (K * V)) (d : dict K V) (k0 : K) :
  In k0 (Py.keys (fold_left (fun d kv => Py.setitem eqb d (fst kv) (snd kv)) kvs d))
  <-> In k0 (Py.keys d) \/ In k0 (map fst kvs).
Proof.
  revert d. induction kvs as [| [k v] kvs IH]; intro d; simpl.
  - intuition.
  - rewrite IH, keys_setitem. intuition congruence.
Qed.

Lemma unique_in (l : list K) (k : K) : In k (Py.unique eqb l) <-> In k l.
Proof.
  induction l as [| a l IH]; simpl.
  - reflexivity.
  - rewrite filter_In, IH, negb_true_iff.
    split.
    + intros [H | [H _]]; [left | right]; assumption.
    + intros [H | H]; [left; exact H |].
      destruct (eqb k a) eqn:E.
      * apply eqb_eq in E. left. symmetry. exact E.
      * right. split; [exact H | reflexivity].
Qed.

Lemma unique_NoDup_id (l : list K) : NoDup l -> Py.unique eqb l = l.
Proof.
  induction 1 as [| a l Hnin Hnd IH]; simpl.
  - reflexivity.
  - rewrite IH. f_equal.
    apply forallb_filter_id. apply forallb_forall.
    intros k Hk. rewrite negb_true_iff. apply eqb_neq.
    intro; subst; contradiction.
Qed.

End Generic.

Lemma pair_eqb_eq (p q : string * string) : Py.pair_eqb p q = true <-> p = q.
Proof.
  destruct p as [a b], q as [c d]. unfold Py.pair_eqb. simpl.
  rewrite andb_true_iff, !String.eqb_eq. split.
  - intros [-> ->]. reflexivity.
  - intro H. injection H as -> ->. split; reflexivity.
Qed.

Lemma getitem_in_keys {V : Type} (d : dict string V) (k : string) :
  In k (Py.keys d) -> exists v, Py.getitem d k = Ok v /\ Py.get String.eqb d k = Some v.
Proof.
  intro H. destruct (get_in_keys String.eqb String.eqb_eq d k H) as [v Hv].
  exists v. unfold Py.getitem. rewrite Hv. split; reflexivity.
Qed.

Lemma getitem_ok_get {V : Type} (d : dict string V) (k : string) (v : V) :
  Py.getitem d k = Ok v <-> Py.get String.eqb d k = Some v.
Proof.
  unfold Py.getitem. destruct (Py.get String.eqb d k); split; congruence.
Qed.

(** *** [groupby(...).sum()] keeps its keys strictly ascending *)

Lemma slt_trans (a b c : string) : slt a b -> slt b c -> slt a c.
Proof.
  unfold slt. intros H1 H2.
  apply String_as_OT.cmp_lt in H1. apply String_as_OT.cmp_lt in H2.
  apply String_as_OT.cmp_lt. eapply String_as_OT.lt_trans; eassumption.
Qed.

Lemma slt_neq (a b : string) : slt a b -> a <> b.
Proof.
  unfold slt. intros H E. subst b.
  assert (R : String.compare a a = Eq) by (apply String_as_OT.cmp_eq; reflexivity).
  congruence.
Qed.

Lemma compare_gt_slt (a b : string) : String.compare a b = Gt -> slt b a.
Proof.
  unfold slt. intro H. rewrite String.compare_antisym, H. reflexivity.
Qed.

Lemma keys_groupby_insert (k : string) (v : Q) (d : dict string Q) (k0 : string) :
  In k0 (Py.keys (Pd.groupby_insert k v d)) <-> k0 = k \/ In k0 (Py.keys d).
Proof.
  induction d as [| [k' v'] d IH]; simpl.
  - intuition congruence.
  - destruct (String.compare k k') eqn:E; simpl.
    + apply String.compare_eq_iff in E. subst k'. intuition congruence.
    + intuition congruence.
    + rewrite IH. intuition congruence.
Qed.

Lemma groupby_insert_sorted (k : string) (v : Q) (d : dict string Q) :
  StronglySorted slt (Py.keys d) ->
  StronglySorted slt (Py.keys (Pd.groupby_insert k v d)).
Proof.
  induction d as [| [k' v'] d IH]; simpl; intro S.
  - constructor; constructor.
  - inversion S as [| ? ? Sd Hall]; subst.
    destruct (String.compare k k') eqn:E; simpl.
    + exact S.
    + constructor; [exact S |].
      constructor; [exact E |].
      eapply Forall_impl; [| exact Hall].
      intros a Ha. eapply slt_trans; [exact E | exact Ha].
    + constructor; [apply IH; exact Sd |].
      apply Forall_forall. intros a Ha.
      apply keys_groupby_insert in Ha. destruct Ha as [-> | Ha].
      * apply compare_gt_slt. exact E.
      * rewrite Forall_forall in Hall. apply Hall. exact Ha.
Qed.

Lemma groupby_fold_sorted (kvs : list (string * Q)) (d : dict string Q) :
  StronglySorted slt (Py.keys d) ->
  StronglySorted slt
    (Py.keys (fold_left (fun d kv => Pd.groupby_insert (fst kv) (snd kv) d) kvs d)).
Proof.
  revert d. induction kvs as [| kv kvs IH]; intros d S; simpl.
  - exact S.
  - apply IH. apply groupby_insert_sorted. exact S.
Qed.

Lemma groupby_sum_sorted (kvs : list (string * Q)) :
  StronglySorted slt (Py.keys (Pd.groupby_sum kvs)).
Proof. apply groupby_fold_sorted. constructor. Qed.

Lemma sorted_NoDup (l : list string) : StronglySorted slt l -> NoDup l.
Proof.
  induction 1 as [| a l S IH Hall]; constructor.
  - intro Hin. rewrite Forall_forall in Hall.
    apply (slt_neq a a); [apply Hall; exact Hin | reflexivity].
  - exact IH.
Qed.

Lemma groupby_sum_NoDup (kvs : list (string * Q)) :
  NoDup (Py.keys (Pd.groupby_sum kvs)).
Proof. apply sorted_NoDup, groupby_sum_sorted. Qed.

Lemma get_groupby_insert (k : string) (v : Q) (d : dict string Q) (k0 : string) :
  StronglySorted slt (Py.keys d) ->
  Py.get String.eqb (Pd.groupby_insert k v d) k0 =
  if (k0 =? k)%string then opt_add (Py.get String.eqb d k) v
  else Py.get String.eqb d k0.
Proof.
  induction d as [| [k' v'] d IH]; simpl; intro S.
  - destruct (k0 =? k)%string; reflexivity.
  - inversion S as [| ? ? Sd Hall]; subst.
    destruct (String.compare k k') eqn:E; simpl.
    + apply String.compare_eq_iff in E. subst k'.
      rewrite String.eqb_refl.
      destruct (k0 =? k)%string; reflexivity.
    + assert (N : (k =? k')%string = false)
        by (apply String.eqb_neq, slt_neq; exact E).
      rewrite N.
      assert (G : Py.get String.eqb d k = None).
      { apply (get_not_in_keys String.eqb String.eqb_eq).
        intro Hin. rewrite Forall_forall in Hall.
        apply (slt_neq k k); [| reflexivity].
        eapply slt_trans; [exact E | apply Hall; exact Hin]. }
      rewrite G.
      destruct (k0 =? k)%string eqn:E0; [reflexivity |].
      reflexivity.
    + assert (N : (k =? k')%string = false).
      { apply String.eqb_neq. intro; subst k'.
        apply compare_gt_slt in E. exact (slt_neq _ _ E eq_refl). }
      rewrite N, (IH Sd).
      destruct (k0 =? k)%string eqn:E0.
      * apply String.eqb_eq in E0. subst k0. rewrite N. reflexivity.
      * reflexivity.
Qed.

Lemma get_groupby_fold (kvs : list (string * Q)) (d : dict string Q) (k : string) :
  StronglySorted slt (Py.keys d) ->
  Py.get String.eqb
    (fold_left (fun d kv => Pd.groupby_insert (fst kv) (snd kv) d) kvs d) k
  = group_total kvs k (Py.get String.eqb d k).
Proof.
  revert d. induction kvs as [| [k1 v1] kvs IH]; intros d S; simpl.
  - reflexivity.
  - rewrite IH by (apply groupby_insert_sorted; exact S).
    rewrite get_groupby_insert by exact S.
    destruct (k =? k1)%string eqn:E.
    + apply String.eqb_eq in E. subst k1. reflexivity.
    + reflexivity.
Qed.

Lemma get_groupby_sum (kvs : list (string * Q)) (k : string) :
  Py.get String.eqb (Pd.groupby_sum kvs) k = group_total kvs k None.
Proof.
  unfold Pd.groupby_sum. rewrite get_groupby_fold by constructor. reflexivity.
Qed.

Lemma group_total_some (kvs : list (string * Q)) (k : string) (v0 : Q) :
  exists d, group_total kvs k (Some v0) = Some d /\
    d == v0 + Py.sum (map snd (filter (fun kv => (k =? fst kv)%string) kvs)).
Proof.
  revert v0. induction kvs as [| [k1 v1] kvs IH]; intro v0; simpl.
  - exists v0. split; [reflexivity |]. rewrite PyFacts.sum_nil. lra.
  - destruct (k =? k1)%string; simpl.
    + destruct (IH (v0 + v1)) as [d [Hd Hs]]. exists d.
      split; [exact Hd |]. rewrite Hs, PyFacts.sum_cons. lra.
    + apply IH.
Qed.

(** The entry of a key is the sum of the rows filed under it. *)
Lemma group_total_none (kvs : list (string * Q)) (k : string) (d : Q) :
  group_total kvs k None = Some d ->
  d == Py.sum (map snd (filter (fun kv => (k =? fst kv)%string) kvs)).
Proof.
  induction kvs as [| [k1 v1] kvs IH]; simpl.
  - discriminate.
  - destruct (k =? k1)%string; simpl.
    + intro H. destruct (group_total_some kvs k v1) as [d' [Hd Hs]].
      unfold opt_add in H. rewrite Hd in H. injection H as <-.
      rewrite Hs, PyFacts.sum_cons. reflexivity.
    + exact IH.
Qed.

End DictFacts.

(** *** Values of affine expressions *)

Module PulpFacts.

Section Value.
Variable a : assignment.

Lemma terms_acc (ts : list (Q * LpVariable)) (acc : Q) :
  fold_left (fun acc t => acc + fst t * a (snd t)) ts acc
  == acc + fold_left (fun acc t => acc + fst t * a (snd t)) ts 0.
Proof.
  revert acc. induction ts as [| t ts IH]; intro acc; simpl.
  - lra.
  - rewrite (IH (acc + fst t * a (snd t))), (IH (0 + fst t * a (snd t))). lra.
Qed.

Lemma value_of_var (v : LpVariable) : value a (of_var v) == a v.
Proof. unfold value; simpl. lra. Qed.

Lemma value_of_const (q : Q) : value a (of_const q) == q.
Proof. unfold value; simpl. lra. Qed.

Lemma value_add (e1 e2 : LpAffineExpression) :
  value a (add e1 e2) == value a e1 + value a e2.
Proof.
  unfold value, add; simpl. rewrite fold_left_app, terms_acc. lra.
Qed.

Lemma value_scale (q : Q) (e : LpAffineExpression) :
  value a (scale q e) == q * value a e.
Proof.
  unfold value, scale; simpl.
  assert (T : forall ts,
    fold_left (fun acc t => acc + fst t * a (snd t))
      (map (fun t => (q * fst t, snd t)) ts) 0
    == q * fold_left (fun acc t => acc + fst t * a (snd t)) ts 0).
  { induction ts as [| t ts IH]; simpl.
    - lra.
    - rewrite terms_acc, IH, (terms_acc ts (0 + fst t * a (snd t))). lra. }
  rewrite T. lra.
Qed.

Lemma value_fold_add (es : list LpAffineExpression) (e0 : LpAffineExpression) :
  value a (fold_left add es e0) == value a e0 + Py.sum (map (value a) es).
Proof.
  revert e0. induction es as [| e es IH]; intro e0; simpl.
  - rewrite PyFacts.sum_nil. lra.
  - rewrite IH, value_add, PyFacts.sum_cons. lra.
Qed.

Lemma value_lpSum (es : list LpAffineExpression) :
  value a (lpSum es) == Py.sum (map (value a) es).
Proof.
  unfold lpSum. rewrite value_fold_add, value_of_const. lra.
Qed.

(** [lpSum] of scaled variables. *)
Lemma value_lpSum_scaled {A : Type} (coef : A -> Q) (var : A -> LpVariable)
  (l : list A) :
  value a (lpSum (map (fun i => scale (coef i) (of_var (var i))) l))
  == Py.sum (map (fun i => coef i * a (var i)) l).
Proof.
  rewrite value_lpSum, map_map.
  apply PyFacts.sum_ext. intros i _. rewrite value_scale, value_of_var.
  reflexivity.
Qed.

Lemma value_lpSum_vars {A : Type} (var : A -> LpVariable) (l : list A) :
  value a (lpSum (map (fun i => of_var (var i)) l))
  == Py.sum (map (fun i => a (var i)) l).
Proof.
  rewrite value_lpSum, map_map.
  apply PyFacts.sum_ext. intros i _. apply value_of_var.
Qed.

End Value.

End PulpFacts.

(* ===================================================================== *)
(** ** Facts about [build_model] and [extract_solution] *)
(* ===================================================================== *)

Lemma Forall2_In_l {A B : Type} (R : A -> B -> Prop) (l : list A) (l' : list B)
  (x0 : A) :
  Forall2 R l l' -> In x0 l -> exists y0, In y0 l' /\ R x0 y0.
Proof.
  induction 1 as [| a b l l' Hab H IH]; simpl; intro Hin.
  - contradiction.
  - destruct Hin as [-> | Hin].
    + exists b. split; [left; reflexivity | exact Hab].
    + destruct (IH Hin) as [y0 [Hy HR]]. exists y0. split; [right |]; assumption.
Qed.

Lemma rows_of_records {R : Type} (fields : list string) (l : list R) :
  Pd.rows (Pd.of_records fields l) = l.
Proof. destruct l; reflexivity. Qed.

Lemma load_data_loaded wf df sf self : loaded (load_data wf df sf self).
Proof. reflexivity. Qed.

(** What a successful [build_model] leaves in the object. *)
Lemma build_model_inv (cap : option Z) (lvl : string)
  (self self' : NetworkOptimizer) :
  build_model cap lvl self = Ok self' ->
  let ws := warehouses self in
  let dd := make_demand_dict lvl (demand_df self) in
  let cd := make_cost_dict lvl (distance_df self) in
  let fd := make_fixed_cost_dict (warehouse_df self) in
  exists obj c1,
    make_objective ws (make_routes ws dd) cd fd = Ok obj /\
    demand_constraints ws dd = Ok c1 /\
    model self' =
      Some {| p_name := "Supply_Chain_Network_Optimization";
              objective := obj;
              objective_name := "Total_Cost";
              constraints :=
                (c1 ++ capacity_constraints (Py.sum (Py.values dd)) ws dd
                    ++ max_warehouses_constraints ws cap)%list |} /\
    warehouses self' = ws /\ demand_dict self' = dd /\ cost_dict self' = cd /\
    fixed_cost_dict self' = fd /\
    x self' = Py.unique Py.pair_eqb (make_routes ws dd) /\
    y self' = Py.unique String.eqb ws /\
    solution self' = solution self.
Proof.
  unfold build_model. intro H.
  destruct (make_objective _ _ _ _) as [obj |] eqn:Eo; simpl in H; [| discriminate].
  destruct (demand_constraints _ _) as [c1 |] eqn:Ec; simpl in H; [| discriminate].
  injection H as <-. simpl.
  exists obj, c1. repeat split; assumption.
Qed.

Lemma demand_constraints_ok (ws : list string) (dd : dict string Q) :
  exists c1, demand_constraints ws dd = Ok c1.
Proof.
  unfold demand_constraints.
  assert (G : forall l, incl l (Py.keys dd) ->
    exists c1, Py.mapM (fun c => d <- Py.getitem dd c ;;
                                 Ok (demand_constraint ws c d)) l = Ok c1).
  { induction l as [| c l IH]; intro Hl; simpl.
    - eexists; reflexivity.
    - destruct (DictFacts.getitem_in_keys dd c) as [d [Hd _]].
      { apply Hl. left. reflexivity. }
      rewrite Hd. simpl.
      destruct IH as [c1 Hc1].
      { intros k Hk. apply Hl. right. exact Hk. }
      rewrite Hc1. simpl. eexists; reflexivity. }
  apply G. apply incl_refl.
Qed.

Lemma make_objective_ok (ws : list string) rts cd (fd : dict string Q) :
  incl ws (Py.keys fd) -> exists obj, make_objective ws rts cd fd = Ok obj.
Proof.
  intro Hin. unfold make_objective.
  assert (G : forall l, incl l (Py.keys fd) ->
    exists fs, Py.mapM (fun w => f <- Py.getitem fd w ;;
                 Ok (scale f (of_var (warehouse_open w)))) l = Ok fs).
  { induction l as [| w l IH]; intro Hl; simpl.
    - eexists; reflexivity.
    - destruct (DictFacts.getitem_in_keys fd w) as [f [Hf _]].
      { apply Hl. left. reflexivity. }
      rewrite Hf. simpl.
      destruct IH as [fs Hfs].
      { intros k Hk. apply Hl. right. exact Hk. }
      rewrite Hfs. simpl. eexists; reflexivity. }
  destruct (G ws Hin) as [fs Hfs]. rewrite Hfs. simpl. eexists; reflexivity.
Qed.

Lemma keys_make_fixed_cost_dict (df : list WarehouseRow) (w : string) :
  In w (Py.keys (make_fixed_cost_dict df)) <-> In w (map wr_warehouse df).
Proof.
  unfold make_fixed_cost_dict, Py.of_zip.
  rewrite (DictFacts.keys_fold_setitem String.eqb String.eqb_eq). simpl.
  assert (E : map fst (combine (map wr_warehouse df) (map wr_fixed_cost_annual df))
              = map wr_warehouse df).
  { induction df as [| r df IH]; simpl; [reflexivity | rewrite IH; reflexivity]. }
  rewrite E. intuition.
Qed.

(** When the warehouse list is the warehouse column, the lookups of
    [build_model] find their keys: no [KeyError] leaves it. *)
Lemma build_model_no_KeyError (cap : option Z) (lvl : string)
  (self : NetworkOptimizer) :
  loaded self -> forall k, build_model cap lvl self <> Raise (KeyError k).
Proof.
  intros L k. unfold build_model.
  destruct (make_objective_ok (warehouses self)
              (make_routes (warehouses self)
                 (make_demand_dict lvl (demand_df self)))
              (make_cost_dict lvl (distance_df self))
              (make_fixed_cost_dict (warehouse_df self))) as [obj Ho].
  { intros w Hw. apply keys_make_fixed_cost_dict. rewrite <- L. exact Hw. }
  rewrite Ho. simpl.
  destruct (demand_constraints_ok (warehouses self)
              (make_demand_dict lvl (demand_df self))) as [c1 Hc1].
  rewrite Hc1. simpl. discriminate.
Qed.


(** What a successful [extract_solution] leaves in the object. *)
Lemma extract_solution_inv (self self' : NetworkOptimizer) :
  extract_solution self = Ok self' ->
  let ow := filter (fun w => Py.gt (varValue self (warehouse_open w)) (1 # 2))
              (warehouses self) in
  let rts := flat_map (route_of self) (x self) in
  exists fs m,
    Py.mapM (Py.getitem (fixed_cost_dict self)) ow = Ok fs /\
    rts <> [] /\
    model self = Some m /\
    solution self' =
      Some {| open_warehouses := ow;
              num_warehouses := List.length ow;
              routes := Pd.of_records route_fields rts;
              total_cost := Py.sum fs + Py.sum (map rt_total_cost rts);
              fixed_cost := Py.sum fs;
              variable_cost := Py.sum (map rt_total_cost rts);
              objective_value := value (varValue self) (objective m) |}.
Proof.
  unfold extract_solution. intro H.
  destruct (Py.mapM _ _) as [fs |] eqn:Ef; simpl in H; [| discriminate].
  destruct (flat_map (route_of self) (x self)) as [| r rts] eqn:Er.
  { simpl in H. discriminate. }
  unfold Pd.getitem in H. simpl in H.
  destruct (model self) as [m |] eqn:Em; simpl in H; [| discriminate].
  injection H as <-. simpl.
  exists fs, m. repeat split; try reflexivity. discriminate.
Qed.

(** A route in the list comes from a key of [x] with a significant flow. *)
Lemma in_route_of (self : NetworkOptimizer) (wc : string * string) (r : Route) :
  In r (route_of self wc) ->
  1 # 100 < varValue self (shipment (fst wc) (snd wc)) /\ r = stamp self wc.
Proof.
  unfold route_of.
  destruct (Py.gt _ _) eqn:E; simpl; [| contradiction].
  intros [<- | []]. split; [apply PyFacts.gt_true; exact E | reflexivity].
Qed.

Lemma in_make_routes (ws : list string) (dd : dict string Q) (w c : string) :
  In (w, c) (make_routes ws dd) <-> In w ws /\ In c (Py.keys dd).
Proof.
  unfold make_routes. rewrite in_flat_map. split.
  - intros [w' [Hw Hc]]. apply in_map_iff in Hc.
    destruct Hc as [c' [E Hc]]. injection E as -> ->. split; assumption.
  - intros [Hw Hc]. exists w. split; [exact Hw |].
    apply in_map_iff. exists c. split; [reflexivity | exact Hc].
Qed.

Lemma holds_demand_constraint (a : assignment) (ws : list string) (c : string)
  (d : Q) :
  holds a (demand_constraint ws c d) = true <->
  Py.sum (map (fun w => a (shipment w c)) ws) == d.
Proof.
  unfold holds, demand_constraint. simpl.
  rewrite Qeq_bool_iff.
  rewrite (PulpFacts.value_lpSum_vars a (fun w => shipment w c) ws).
  rewrite PulpFacts.value_of_const. reflexivity.
Qed.

Lemma holds_capacity_constraint (a : assignment) (M : Q) (w c : string) :
  holds a (capacity_constraint M w c) = true <->
  a (shipment w c) <= M * a (warehouse_open w).
Proof.
  unfold holds, capacity_constraint. simpl.
  rewrite Qle_bool_iff.
  rewrite PulpFacts.value_of_var, PulpFacts.value_scale, PulpFacts.value_of_var.
  reflexivity.
Qed.

Lemma holds_max_warehouses_constraint (a : assignment) (ws : list string)
  (n : Z) :
  holds a (max_warehouses_constraint ws n) = true <->
  Py.sum (map (fun w => a (warehouse_open w)) ws) <= inject_Z n.
Proof.
  unfold holds, max_warehouses_constraint. simpl.
  rewrite Qle_bool_iff.
  rewrite (PulpFacts.value_lpSum_vars a warehouse_open ws).
  rewrite PulpFacts.value_of_const. reflexivity.
Qed.

(** The demand constraint of every key of the demand dict is in the list. *)
Lemma in_demand_constraints (ws : list string) (dd : dict string Q)
  (c1 : list LpConstraint) (c : string) (d : Q) :
  demand_constraints ws dd = Ok c1 ->
  Py.get String.eqb dd c = Some d ->
  In (demand_constraint ws c d) c1.
Proof.
  unfold demand_constraints. intros H G.
  apply PyFacts.mapM_inv in H.
  destruct (Forall2_In_l _ _ _ c H) as [cs [Hin Hcs]].
  { eapply DictFacts.get_some_in_keys; [exact String.eqb_eq | exact G]. }
  apply DictFacts.getitem_ok_get in G. rewrite G in Hcs. simpl in Hcs.
  injection Hcs as <-. exact Hin.
Qed.

(** Grouping does not change the grand total. *)
Lemma sum_values_groupby_insert (k : string) (v : Q) (d : dict string Q) :
  Py.sum (Py.values (Pd.groupby_insert k v d)) == Py.sum (Py.values d) + v.
Proof.
  induction d as [| [k' v'] d IH]; simpl.
  - rewrite PyFacts.sum_cons, PyFacts.sum_nil. lra.
  - destruct (String.compare k k'); simpl.
    + rewrite !PyFacts.sum_cons. lra.
    + rewrite !PyFacts.sum_cons. lra.
    + rewrite !PyFacts.sum_cons, IH. lra.
Qed.

Lemma sum_values_groupby_fold (kvs : list (string * Q)) (d : dict string Q) :
  Py.sum (Py.values
            (fold_left (fun d kv => Pd.groupby_insert (fst kv) (snd kv) d) kvs d))
  == Py.sum (Py.values d) + Py.sum (map snd kvs).
Proof.
  revert d. induction kvs as [| kv kvs IH]; intro d; simpl.
  - rewrite PyFacts.sum_nil. lra.
  - rewrite IH, sum_values_groupby_insert, PyFacts.sum_cons. lra.
Qed.

(** The big-M constant is the sum of the demand rows at the service
    level. *)
Lemma sum_values_make_demand_dict (lvl : string) (df : list DemandRow) :
  Py.sum (Py.values (make_demand_dict lvl df))
  == Py.sum (map dm_demand
               (filter (fun r => (dm_service_level r =? lvl)%string) df)).
Proof.
  unfold make_demand_dict, Pd.groupby_sum.
  rewrite sum_values_groupby_fold, map_map.
  change (Py.sum (Py.values (@nil (string * Q)))) with 0.
  rewrite Qplus_0_l.
  apply PyFacts.sum_ext. intros r _. reflexivity.
Qed.

(** The entry of a customer is the sum of its rows at the service level. *)
Lemma make_demand_dict_total (lvl : string) (df : list DemandRow) (c : string)
  (d : Q) :
  Py.get String.eqb (make_demand_dict lvl df) c = Some d ->
  d == Py.sum (map dm_demand
                 (filter (fun r => (c =? dm_city r)%string)
                    (filter (fun r => (dm_service_level r =? lvl)%string) df))).
Proof.
  unfold make_demand_dict. rewrite DictFacts.get_groupby_sum. intro H.
  apply DictFacts.group_total_none in H. rewrite H.
  generalize (filter (fun r => (dm_service_level r =? lvl)%string) df) as l.
  intro l. induction l as [| r l IH]; simpl.
  - reflexivity.
  - destruct (c =? dm_city r)%string; simpl.
    + rewrite !PyFacts.sum_cons, IH. reflexivity.
    + exact IH.
Qed.

(** *** The objective *)

Lemma fixed_terms_inv (fd : dict string Q) (ws : list string)
  (fixed : list LpAffineExpression) :
  Forall2 (fun w e => (f <- Py.getitem fd w ;;
                       Ok (scale f (of_var (warehouse_open w)))) = Ok e)
    ws fixed ->
  exists fs,
    Forall2 (fun w f => Py.get String.eqb fd w = Some f) ws fs /\
    fixed = map (fun wf => scale (snd wf) (of_var (warehouse_open (fst wf))))
              (combine ws fs).
Proof.
  induction 1 as [| w e ws fixed Hwe H IH].
  - exists []. split; [constructor | reflexivity].
  - destruct IH as [fs [Hfs ->]].
    destruct (Py.getitem fd w) as [f |] eqn:Ef; simpl in Hwe; [| discriminate].
    injection Hwe as <-. apply DictFacts.getitem_ok_get in Ef.
    exists (f :: fs). split; [constructor; assumption | reflexivity].
Qed.

Lemma make_objective_value (ws : list string) (rts : list (string * string))
  (cd : dict (string * string) Q) (fd : dict string Q)
  (obj : LpAffineExpression) :
  make_objective ws rts cd fd = Ok obj ->
  exists fs,
    Forall2 (fun w f => Py.get String.eqb fd w = Some f) ws fs /\
    forall a,
      value a obj ==
      Py.sum (map (fun wf => snd wf * a (warehouse_open (fst wf)))
                (combine ws fs))
      + Py.sum (map (fun wc => Py.get_default Py.pair_eqb cd wc 0
                               * a (shipment (fst wc) (snd wc))) rts).
Proof.
  unfold make_objective. intro H.
  destruct (Py.mapM _ ws) as [fixed |] eqn:Ef; simpl in H; [| discriminate].
  injection H as <-.
  apply PyFacts.mapM_inv in Ef.
  destruct (fixed_terms_inv fd ws fixed Ef) as [fs [Hfs ->]].
  exists fs. split; [exact Hfs |]. intro a.
  rewrite PulpFacts.value_add.
  rewrite (PulpFacts.value_lpSum_scaled a snd
             (fun wf => warehouse_open (fst wf)) (combine ws fs)).
  rewrite (PulpFacts.value_lpSum_scaled a
             (fun wc => Py.get_default Py.pair_eqb cd wc 0)
             (fun wc => shipment (fst wc) (snd wc)) rts).
  reflexivity.
Qed.

(** *** The cost dictionary against the cost matrix *)

Section SetItem.
Context {K V : Type} (eqb : K -> K -> bool).
Hypothesis eqb_eq : forall a b, eqb a b = true <-> a = b.

Lemma in_setitem (d : dict K V) (k : K) (v : V) (kv : K * V) :
  In kv (Py.setitem eqb d k v) -> kv = (k, v) \/ In kv d.
Proof.
  induction d as [| [k' v'] d IH]; simpl.
  - intros [<- | []]. left. reflexivity.
  - destruct (eqb k k') eqn:E; simpl.
    + apply eqb_eq in E. subst k'.
      intros [<- | H]; [left; reflexivity | right; right; exact H].
    + intros [<- | H]; [right; left; reflexivity |].
      destruct (IH H) as [L | R]; [left; exact L | right; right; exact R].
Qed.

Lemma in_fold_setitem (kvs : list (K * V)) (d : dict K V) (kv : K * V) :
  In kv (fold_left (fun d kv => Py.setitem eqb d (fst kv) (snd kv)) kvs d) ->
  In kv d \/ In kv kvs.
Proof.
  revert d. induction kvs as [| [k v] kvs IH]; intro d; simpl.
  - intro H. left. exact H.
  - intro H. destruct (IH _ H) as [L | R].
    + destruct (in_setitem _ _ _ _ L) as [-> | L'].
      * right. left. reflexivity.
      * left. exact L'.
    + right. right. exact R.
Qed.

Lemma get_some_in (d : dict K V) (k : K) (v : V) :
  Py.get eqb d k = Some v -> In (k, v) d.
Proof.
  induction d as [| [k' v'] d IH]; simpl; intro H.
  - discriminate.
  - destruct (eqb k k') eqn:E.
    + apply eqb_eq in E. subst k'. injection H as ->. left. reflexivity.
    + right. apply IH. exact H.
Qed.

End SetItem.

Lemma fold_left_on_map {A B C : Type} (f : A -> B -> A) (g : C -> B)
  (l : list C) (d : A) :
  fold_left f (map g l) d = fold_left (fun d c => f d (g c)) l d.
Proof.
  revert d. induction l as [| c l IH]; intro d; simpl; [reflexivity | apply IH].
Qed.

Lemma make_cost_dict_present (lvl : string) (df : list DistanceRow)
  (w c : string) (q : Q) :
  Py.get Py.pair_eqb (make_cost_dict lvl df) (w, c) = Some q ->
  exists r, In r df /\ ds_service_level r = lvl /\ ds_warehouse r = w /\
            ds_customer_city r = c /\ ds_transport_cost_per_shipment r = q.
Proof.
  unfold make_cost_dict. intro H.
  apply (get_some_in Py.pair_eqb DictFacts.pair_eqb_eq) in H.
  rewrite <- (fold_left_on_map
                (fun d kv => Py.setitem Py.pair_eqb d (fst kv) (snd kv))
                (fun row => ((ds_warehouse row, ds_customer_city row),
                             ds_transport_cost_per_shipment row))) in H.
  apply (in_fold_setitem Py.pair_eqb DictFacts.pair_eqb_eq) in H.
  destruct H as [[] | H].
  apply in_map_iff in H. destruct H as [r [E Hr]].
  apply filter_In in Hr. destruct Hr as [Hr Hl].
  apply String.eqb_eq in Hl. injection E as <- <- <-.
  exists r. repeat split; assumption.
Qed.

Lemma make_cost_dict_absent (lvl : string) (df : list DistanceRow)
  (w c : string) :
  (forall r, In r df -> ds_service_level r = lvl ->
             ds_warehouse r = w -> ds_customer_city r <> c) ->
  Py.get_default Py.pair_eqb (make_cost_dict lvl df) (w, c) 0 = 0.
Proof.
  intro H. unfold Py.get_default.
  destruct (Py.get Py.pair_eqb (make_cost_dict lvl df) (w, c)) as [q |] eqn:G;
    [| reflexivity].
  apply make_cost_dict_present in G.
  destruct G as [r [Hr [Hl [Hw Hc]]]]. destruct Hc as [Hc _].
  exfalso. exact (H r Hr Hl Hw Hc).
Qed.

(** *** The route list *)

(** The loop of [extract_solution] keeps the keys with a significant flow
    and stamps each of them. *)
Lemma routes_filter_map (self : NetworkOptimizer) (l : list (string * string)) :
  flat_map (route_of self) l =
  map (stamp self)
    (filter (fun wc => Py.gt (varValue self (shipment (fst wc) (snd wc)))
                         (1 # 100)) l).
Proof.
  induction l as [| wc l IH]; simpl.
  - reflexivity.
  - unfold route_of at 1.
    destruct (Py.gt _ _); simpl; rewrite IH; reflexivity.
Qed.

Lemma NoDup_make_routes (ws : list string) (dd : dict string Q) :
  NoDup ws -> NoDup (Py.keys dd) -> NoDup (make_routes ws dd).
Proof.
  intros Hws Hks. unfold make_routes.
  induction Hws as [| w ws Hnin Hnd IH]; simpl.
  - constructor.
  - apply NoDup_app.
    + clear -Hks. induction Hks as [| c ks Hc Hks IHk]; simpl; constructor.
      * intro H. apply in_map_iff in H. destruct H as [c' [E H]].
        injection E as ->. contradiction.
      * exact IHk.
    + exact IH.
    + intros [w' c'] H1 H2.
      apply in_map_iff in H1. destruct H1 as [c [E _]]. injection E as <- <-.
      apply (proj1 (in_make_routes ws dd w c)) in H2.
      destruct H2 as [H2 _]. contradiction.
Qed.

Lemma NoDup_keys_make_demand_dict (lvl : string) (df : list DemandRow) :
  NoDup (Py.keys (make_demand_dict lvl df)).
Proof. apply DictFacts.groupby_sum_NoDup. Qed.

(** With distinct warehouse names, the keys of [x] are the route list. *)
Lemma x_is_routes (cap : option Z) (lvl : string) (self self' : NetworkOptimizer) :
  build_model cap lvl self = Ok self' ->
  NoDup (warehouses self) ->
  x self' = make_routes (warehouses self) (demand_dict self').
Proof.
  intros Hb Hnd.
  destruct (build_model_inv _ _ _ _ Hb)
    as (obj & c1 & _ & _ & _ & _ & Hdd & _ & _ & Hx & _).
  rewrite Hx, Hdd.
  apply (DictFacts.unique_NoDup_id Py.pair_eqb DictFacts.pair_eqb_eq).
  apply NoDup_make_routes; [exact Hnd | apply NoDup_keys_make_demand_dict].
Qed.

(** [extract_solution] only writes [self.solution]. *)
Lemma extract_solution_keeps (self self' : NetworkOptimizer) :
  extract_solution self = Ok self' ->
  varValue self' = varValue self /\ x self' = x self /\
  warehouses self' = warehouses self /\ model self' = model self /\
  demand_dict self' = demand_dict self /\ cost_dict self' = cost_dict self /\
  fixed_cost_dict self' = fixed_cost_dict self.
Proof.
  unfold extract_solution. intro H.
  destruct (Py.mapM _ _); cbn [Py.bind] in H; [| discriminate].
  destruct (Pd.getitem _ _ _); cbn [Py.bind] in H; [| discriminate].
  destruct (model self); cbn [Py.bind] in H; [| discriminate].
  injection H as <-. repeat split.
Qed.

(** *** [solve] *)

Lemma solve_inv (cbc : Solver) (t : Z) (self final : NetworkOptimizer)
  (s : Solution) :
  solve cbc t self = Ok (Some s, final) ->
  exists m st a,
    model self = Some m /\
    cbc t m = (st, a) /\
    (st = Optimal \/ st = Feasible) /\
    extract_solution (with_solver_output self st a) = Ok final /\
    solution final = Some s /\
    varValue final = a.
Proof.
  unfold solve. intro H.
  destruct (model self) as [m |] eqn:Em; [| discriminate].
  destruct (cbc t m) as [st a] eqn:Ec.
  assert (G : (st = Optimal \/ st = Feasible) ->
              (self2 <- extract_solution (with_solver_output self st a) ;;
               Ok (solution self2, self2)) = Ok (Some s, final) ->
              extract_solution (with_solver_output self st a) = Ok final /\
              solution final = Some s /\ varValue final = a).
  { intros _ H'.
    destruct (extract_solution (with_solver_output self st a)) as [self2 |] eqn:Ex;
      simpl in H'; [| discriminate].
    injection H' as Hs ->. split; [reflexivity |]. split; [exact Hs |].
    apply extract_solution_keeps in Ex. destruct Ex as [Ev _]. exact Ev. }
  exists m, st, a.
  destruct st; try discriminate H.
  - destruct (G (or_introl eq_refl) H) as (H1 & H2 & H3). repeat split; auto.
  - destruct (G (or_intror eq_refl) H) as (H1 & H2 & H3). repeat split; auto.
Qed.

(** [extract_solution] returns as soon as the model is there, every
    candidate has a fixed cost and some flow is significant. *)
Lemma extract_solution_ok (self : NetworkOptimizer) :
  model self <> None ->
  incl (warehouses self) (Py.keys (fixed_cost_dict self)) ->
  (exists wc, In wc (x self) /\
              1 # 100 < varValue self (shipment (fst wc) (snd wc))) ->
  exists self', extract_solution self = Ok self'.
Proof.
  intros Hm Hfd [wc [Hwc Hflow]].
  unfold extract_solution.
  assert (G : forall l, incl l (Py.keys (fixed_cost_dict self)) ->
            exists fs, Py.mapM (Py.getitem (fixed_cost_dict self)) l = Ok fs).
  { induction l as [| w l IH]; intro Hl; simpl.
    - eexists; reflexivity.
    - destruct (DictFacts.getitem_in_keys (fixed_cost_dict self) w) as [f [Hf _]].
      { apply Hl. left. reflexivity. }
      rewrite Hf. simpl.
      destruct IH as [fs Hfs].
      { intros k Hk. apply Hl. right. exact Hk. }
      rewrite Hfs. simpl. eexists; reflexivity. }
  destruct (G (filter (fun w => Py.gt (varValue self (warehouse_open w)) (1 # 2))
                 (warehouses self))) as [fs Hfs].
  { intros w Hw. apply filter_In in Hw. apply Hfd. apply Hw. }
  rewrite Hfs. cbn [Py.bind].
  destruct (flat_map (route_of self) (x self)) as [| r rts] eqn:Er.
  { exfalso. rewrite routes_filter_map in Er.
    assert (Hin : In (stamp self wc)
                    (map (stamp self)
                       (filter (fun wc => Py.gt (varValue self
                                  (shipment (fst wc) (snd wc))) (1 # 100))
                          (x self)))).
    { apply in_map. apply filter_In. split; [exact Hwc |].
      apply PyFacts.gt_true. exact Hflow. }
    rewrite Er in Hin. contradiction. }
  unfold Pd.getitem. simpl.
  destruct (model self) as [m |]; [| contradiction Hm; reflexivity].
  simpl. eexists; reflexivity.
Qed.

(** *** Cost totals against the objective *)

Lemma inject_length_cons {A : Type} (r : A) (l : list A) :
  inject_Z (Z.of_nat (List.length (r :: l)))
  == inject_Z (Z.of_nat (List.length l)) + 1.
Proof.
  simpl List.length. rewrite Nat2Z.inj_succ. unfold Z.succ.
  rewrite inject_Z_plus. reflexivity.
Qed.

(** With 0/1 indicators, the fixed costs of the open warehouses add up to
    the fixed-cost part of the objective. *)
Lemma fixed_part (fd : dict string Q) (a : assignment) (ws : list string)
  (fs : list Q) :
  Forall2 (fun w f => Py.get String.eqb fd w = Some f) ws fs ->
  (forall w, In w ws ->
             a (warehouse_open w) == 0 \/ a (warehouse_open w) == 1) ->
  forall fs',
    Py.mapM (Py.getitem fd)
      (filter (fun w => Py.gt (a (warehouse_open w)) (1 # 2)) ws) = Ok fs' ->
    Py.sum fs' ==
    Py.sum (map (fun wf => snd wf * a (warehouse_open (fst wf)))
              (combine ws fs)).
Proof.
  induction 1 as [| w f ws fs Hwf H IH]; intros Hbin fs' Hm; simpl in *.
  - injection Hm as <-. reflexivity.
  - assert (Hbin' : forall w0, In w0 ws ->
              a (warehouse_open w0) == 0 \/ a (warehouse_open w0) == 1)
      by (intros w0 Hw0; apply Hbin; right; exact Hw0).
    rewrite PyFacts.sum_cons.
    destruct (Py.gt (a (warehouse_open w)) (1 # 2)) eqn:E.
    + simpl in Hm. apply DictFacts.getitem_ok_get in Hwf.
      rewrite Hwf in Hm. simpl in Hm.
      destruct (Py.mapM _ _) as [fs'' |] eqn:Em; simpl in Hm; [| discriminate].
      injection Hm as <-.
      rewrite PyFacts.sum_cons, (IH Hbin' fs'' eq_refl).
      apply PyFacts.gt_true in E.
      destruct (Hbin w (or_introl eq_refl)) as [Z0 | Z1].
      * rewrite Z0 in E. lra.
      * rewrite Z1. lra.
    + apply PyFacts.gt_false in E.
      rewrite (IH Hbin' fs' Hm).
      destruct (Hbin w (or_introl eq_refl)) as [Z0 | Z1].
      * rewrite Z0. lra.
      * rewrite Z1 in E. lra.
Qed.

(** The transport part of the objective, minus the reported line costs,
    minus the cost of the flows left out of the route list, is a sum of
    rounding errors: at most half a cent per reported route. *)
Lemma variable_part (self : NetworkOptimizer) (l : list (string * string)) :
  Qabs
    (Py.sum (map (fun wc => Py.get_default Py.pair_eqb (cost_dict self) wc 0
                            * varValue self (shipment (fst wc) (snd wc))) l)
     - Py.sum (map rt_total_cost (flat_map (route_of self) l))
     - Py.sum (map (fun wc => Py.get_default Py.pair_eqb (cost_dict self) wc 0
                              * varValue self (shipment (fst wc) (snd wc)))
                 (filter (fun wc =>
                            negb (Py.gt (varValue self
                                           (shipment (fst wc) (snd wc)))
                                    (1 # 100))) l)))
  <= (1 # 200) * inject_Z (Z.of_nat (List.length (flat_map (route_of self) l))).
Proof.
  induction l as [| wc l IH].
  - vm_compute. discriminate.
  - apply Qabs_Qle_condition in IH. apply Qabs_Qle_condition.
    cbn [map flat_map filter]. unfold route_of at 1 3 5 7.
    destruct (Py.gt (varValue self (shipment (fst wc) (snd wc))) (1 # 100));
      cbn [negb app map].
    + rewrite inject_length_cons, !PyFacts.sum_cons.
      unfold stamp. cbn [rt_total_cost].
      pose proof (PyFacts.round2_near
                    (varValue self (shipment (fst wc) (snd wc))
                     * Py.get_default Py.pair_eqb (cost_dict self) wc 0)) as R.
      apply Qabs_Qle_condition in R.
      rewrite (Qmult_comm (Py.get_default Py.pair_eqb (cost_dict self) wc 0)
                 (varValue self (shipment (fst wc) (snd wc)))).
      destruct IH as [I1 I2], R as [R1 R2]. split; lra.
    + rewrite !PyFacts.sum_cons. destruct IH as [I1 I2]. split; lra.
Qed.

(** *** The rows of one customer *)

Section CustomerRows.
Variable self : NetworkOptimizer.
Variable c : string.

Lemma rows_same_customer (w : string) :
  filter (fun r => (rt_customer r =? c)%string) (route_of self (w, c)) = route_of self (w, c).
Proof.
  unfold route_of. destruct (Py.gt _ _); simpl; [| reflexivity].
  simpl. rewrite String.eqb_refl. reflexivity.
Qed.

Lemma rows_other_customer (w k : string) :
  k <> c -> filter (fun r => (rt_customer r =? c)%string) (route_of self (w, k)) = [].
Proof.
  intro N. unfold route_of. destruct (Py.gt _ _); simpl; [| reflexivity].
  simpl. apply String.eqb_neq in N. rewrite N. reflexivity.
Qed.

Lemma rows_absent_customer (w : string) (ks : list string) :
  ~ In c ks ->
  filter (fun r => (rt_customer r =? c)%string) (flat_map (route_of self) (map (fun k => (w, k)) ks)) = [].
Proof.
  induction ks as [| k ks IH]; simpl; intro N.
  - reflexivity.
  - rewrite filter_app, rows_other_customer, IH; [reflexivity | |].
    + intro H. apply N. right. exact H.
    + intro E. apply N. left. exact E.
Qed.

Lemma rows_of_warehouse (w : string) (ks : list string) :
  NoDup ks -> In c ks ->
  filter (fun r => (rt_customer r =? c)%string) (flat_map (route_of self) (map (fun k => (w, k)) ks))
  = route_of self (w, c).
Proof.
  induction 1 as [| k ks Hk Hnd IH]; simpl; intro Hin.
  - contradiction.
  - rewrite filter_app. destruct Hin as [-> | Hin].
    + rewrite rows_same_customer, rows_absent_customer by exact Hk.
      apply app_nil_r.
    + rewrite rows_other_customer, IH by (try exact Hin; intro; subst; contradiction).
      reflexivity.
Qed.

Lemma rows_of_customer (ws : list string) (dd : dict string Q) :
  NoDup (Py.keys dd) -> In c (Py.keys dd) ->
  filter (fun r => (rt_customer r =? c)%string) (flat_map (route_of self) (make_routes ws dd))
  = flat_map (fun w => route_of self (w, c)) ws.
Proof.
  intros Hnd Hin. unfold make_routes.
  induction ws as [| w ws IH]; simpl.
  - reflexivity.
  - rewrite flat_map_app, filter_app, IH, rows_of_warehouse by assumption.
    reflexivity.
Qed.

(** Each warehouse contributes its flow, rounded, or nothing when the flow
    is at most 0.01: either way within 0.01 of the flow. *)
Lemma shipments_near_flows (ws : list string) :
  (forall w, In w ws -> 0 <= varValue self (shipment w c)) ->
  Qabs (Py.sum (map rt_shipments (flat_map (fun w => route_of self (w, c)) ws))
        - Py.sum (map (fun w => varValue self (shipment w c)) ws))
  <= (1 # 100) * inject_Z (Z.of_nat (List.length ws)).
Proof.
  induction ws as [| w ws IH]; intro Hpos.
  - vm_compute. discriminate.
  - assert (IH' := IH (fun w0 H0 => Hpos w0 (or_intror H0))).
    apply Qabs_Qle_condition in IH'. apply Qabs_Qle_condition.
    pose proof (Hpos w (or_introl eq_refl)) as Hw.
    rewrite inject_length_cons.
    cbn [flat_map map].
    set (rest := flat_map (fun w0 => route_of self (w0, c)) ws) in *.
    unfold route_of. cbn [fst snd].
    destruct (Py.gt (varValue self (shipment w c)) (1 # 100)) eqn:E;
      cbn [app map].
    + rewrite !PyFacts.sum_cons. unfold stamp. cbn [rt_shipments fst snd].
      pose proof (PyFacts.round2_near (varValue self (shipment w c))) as R.
      apply Qabs_Qle_condition in R.
      destruct IH' as [I1 I2], R as [R1 R2]. split; lra.
    + apply PyFacts.gt_false in E. rewrite !PyFacts.sum_cons.
      destruct IH' as [I1 I2]. split; lra.
Qed.

End CustomerRows.

(** *** An empty route list *)

Lemma no_significant_flow (self : NetworkOptimizer) (l : list (string * string)) :
  (forall wc, In wc l ->
              varValue self (shipment (fst wc) (snd wc)) <= 1 # 100) ->
  flat_map (route_of self) l = [].
Proof.
  induction l as [| wc l IH]; intro H; simpl.
  - reflexivity.
  - rewrite IH by (intros wc' H'; apply H; right; exact H').
    unfold route_of.
    rewrite (proj2 (PyFacts.gt_false _ _) (H wc (or_introl eq_refl))).
    reflexivity.
Qed.

Lemma mapM_getitem_ok {V : Type} (d : dict string V) (l : list string) :
  incl l (Py.keys d) -> exists vs, Py.mapM (Py.getitem d) l = Ok vs.
Proof.
  induction l as [| w l IH]; intro Hl; simpl.
  - eexists; reflexivity.
  - destruct (DictFacts.getitem_in_keys d w) as [f [Hf _]].
    { apply Hl. left. reflexivity. }
    rewrite Hf. simpl.
    destruct IH as [fs Hfs].
    { intros k Hk. apply Hl. right. exact Hk. }
    rewrite Hfs. simpl. eexists; reflexivity.
Qed.

Lemma extract_solution_empty (self : NetworkOptimizer) :
  flat_map (route_of self) (x self) = [] ->
  (exists e, extract_solution self = Raise e) /\
  (incl (warehouses self) (Py.keys (fixed_cost_dict self)) ->
   extract_solution self = Raise (KeyError "total_cost")).
Proof.
  intro E. unfold extract_solution. rewrite E.
  split.
  - destruct (Py.mapM _ _) as [fs | e]; cbn [Py.bind].
    + eexists. reflexivity.
    + exists e. reflexivity.
  - intro Hfd.
    destruct (mapM_getitem_ok (fixed_cost_dict self)
                (filter (fun w => Py.gt (varValue self (warehouse_open w))
                                    (1 # 2)) (warehouses self)))
      as [fs Hfs].
    { intros w Hw. apply filter_In in Hw. apply Hfd. apply Hw. }
    rewrite Hfs. reflexivity.
Qed.

(** *** [idxmin] *)

Lemma idxmin_from_spec (l pre : list Q) (best : Q) (besti : nat) :
  nth_error pre besti = Some best ->
  (forall v, In v pre -> best <= v) ->
  (forall k v, (k < besti)%nat -> nth_error pre k = Some v -> best < v) ->
  exists vj,
    nth_error (pre ++ l) (Pd.idxmin_from best besti (List.length pre) l)
    = Some vj /\
    (forall v, In v (pre ++ l) -> vj <= v) /\
    (forall k v, (k < Pd.idxmin_from best besti (List.length pre) l)%nat ->
                 nth_error (pre ++ l) k = Some v -> vj < v).
Proof.
  revert pre best besti.
  induction l as [| v l IH]; intros pre best besti Hn Hmin Hfirst.
  - simpl. rewrite app_nil_r. exists best. repeat split; assumption.
  - assert (Hlt : (besti < List.length pre)%nat).
    { apply nth_error_Some. rewrite Hn. discriminate. }
    assert (Ea : (pre ++ v :: l = (pre ++ [v]) ++ l)%list)
      by (rewrite <- app_assoc; reflexivity).
    assert (El : List.length (pre ++ [v]) = S (List.length pre))
      by (rewrite length_app; simpl; lia).
    simpl. destruct (Py.gt best v) eqn:E.
    + apply PyFacts.gt_true in E.
      rewrite Ea.
      destruct (IH (pre ++ [v])%list v (List.length pre)) as [vj Hvj].
      * rewrite nth_error_app2 by lia. rewrite Nat.sub_diag. reflexivity.
      * intros u Hu. apply in_app_or in Hu. destruct Hu as [Hu | [<- | []]].
        -- specialize (Hmin u Hu). lra.
        -- lra.
      * intros k u Hk Hu. rewrite nth_error_app1 in Hu by exact Hk.
        apply nth_error_In in Hu. specialize (Hmin u Hu). lra.
      * exists vj. rewrite El in Hvj. exact Hvj.
    + apply PyFacts.gt_false in E.
      rewrite Ea.
      destruct (IH (pre ++ [v])%list best besti) as [vj Hvj].
      * rewrite nth_error_app1 by exact Hlt. exact Hn.
      * intros u Hu. apply in_app_or in Hu. destruct Hu as [Hu | [<- | []]].
        -- apply Hmin. exact Hu.
        -- exact E.
      * intros k u Hk Hu. rewrite nth_error_app1 in Hu by lia.
        eapply Hfirst; eassumption.
      * exists vj. rewrite El in Hvj. exact Hvj.
Qed.

Lemma idxmin_spec (l : list Q) :
  l <> [] ->
  exists j vj,
    Pd.idxmin l = Ok j /\ nth_error l j = Some vj /\
    (forall v, In v l -> vj <= v) /\
    (forall k v, (k < j)%nat -> nth_error l k = Some v -> vj < v).
Proof.
  destruct l as [| v l]; intro N; [contradiction N; reflexivity |].
  destruct (idxmin_from_spec l [v] v 0%nat) as [vj Hvj].
  - reflexivity.
  - intros u [<- | []]. lra.
  - intros k u Hk. lia.
  - exists (Pd.idxmin_from v 0 1 l), vj. split; [reflexivity | exact Hvj].
Qed.

(** *** The sweep *)

Lemma scenario_step_inv (cbc : Solver) (n : Z) (acc acc' : list Scenario)
  (self self' : NetworkOptimizer) :
  scenario_step cbc n (acc, self) = Ok (acc', self') ->
  acc' = acc \/
  exists r, acc' = (acc ++ [r])%list /\ sc_max_warehouses r = n.
Proof.
  unfold scenario_step. cbn [fst snd]. intro H.
  destruct (build_model _ _ _) as [self1 |]; cbn [Py.bind] in H; [| discriminate].
  destruct (solve cbc 60 self1) as [r |]; cbn [Py.bind] in H; [| discriminate].
  destruct (solution (snd r)) as [s |].
  - injection H as <- <-. right. eexists. split; reflexivity.
  - injection H as <- <-. left. reflexivity.
Qed.

Lemma sorted_snoc (l : list Z) (n : Z) :
  StronglySorted Z.lt l -> (forall k, In k l -> (k < n)%Z) ->
  StronglySorted Z.lt (l ++ [n]).
Proof.
  induction 1 as [| a l S IH Hall]; intro H; simpl.
  - constructor; constructor.
  - constructor.
    + apply IH. intros k Hk. apply H. right. exact Hk.
    + apply Forall_app. split; [exact Hall |].
      constructor; [| constructor]. apply H. left. reflexivity.
Qed.

(** The table is filled in cap order. *)
Lemma sweep_sorted (cbc : Solver) (caps : list Z) :
  StronglySorted Z.lt caps ->
  forall acc self scen final,
    StronglySorted Z.lt (map sc_max_warehouses acc) ->
    (forall r n, In r acc -> In n caps -> (sc_max_warehouses r < n)%Z) ->
    sweep cbc caps (acc, self) = Ok (scen, final) ->
    StronglySorted Z.lt (map sc_max_warehouses scen).
Proof.
  induction 1 as [| n caps S IH Hall]; intros acc self scen final Hs Hlt Hsw.
  - simpl in Hsw. injection Hsw as <- <-. exact Hs.
  - simpl in Hsw.
    destruct (scenario_step cbc n (acc, self)) as [[acc' self'] |] eqn:Est;
      cbn [Py.bind] in Hsw; [| discriminate].
    apply scenario_step_inv in Est.
    rewrite Forall_forall in Hall.
    destruct Est as [-> | [r [-> Hr]]].
    + eapply IH; [exact Hs | | exact Hsw].
      intros r0 n0 Hr0 Hn0. apply Hlt; [exact Hr0 | right; exact Hn0].
    + eapply IH; [| | exact Hsw].
      * rewrite map_app. simpl. apply sorted_snoc; [exact Hs |].
        intros k Hk. apply in_map_iff in Hk. destruct Hk as [r0 [<- Hr0]].
        rewrite Hr. apply Hlt; [exact Hr0 | left; reflexivity].
      * intros r0 n0 Hr0 Hn0. apply in_app_or in Hr0.
        destruct Hr0 as [Hr0 | [<- | []]].
        -- apply Hlt; [exact Hr0 | right; exact Hn0].
        -- rewrite Hr. apply Hall. exact Hn0.
Qed.

(** *** The cap and the stale solution *)

(** A cap of 0 is falsy: the model is the uncapped one. *)
Lemma cap_zero_is_uncapped (lvl : string) (self : NetworkOptimizer) :
  build_model (Some 0%Z) lvl self = build_model None lvl self.
Proof. reflexivity. Qed.

(** Any other cap adds the cardinality constraint. *)
Lemma nonzero_cap_is_enforced (n : Z) (lvl : string)
  (self self' : NetworkOptimizer) (m : LpProblem) :
  n <> 0%Z ->
  build_model (Some n) lvl self = Ok self' ->
  model self' = Some m ->
  In (max_warehouses_constraint (warehouses self) n) (constraints m).
Proof.
  intros Hn Hb Hm.
  destruct (build_model_inv _ _ _ _ Hb) as (obj & c1 & _ & _ & Hm' & _).
  rewrite Hm in Hm'. injection Hm' as ->. simpl.
  apply in_or_app. right. apply in_or_app. right.
  unfold max_warehouses_constraints, Py.truthy.
  apply Z.eqb_neq in Hn. rewrite Hn. simpl. left. reflexivity.
Qed.

(** A solver that is sound for infeasibility cannot report [Infeasible]
    on a model that some assignment satisfies. *)
Lemma satisfiable_not_reported_infeasible (cbc : Solver)
  (self : NetworkOptimizer) (m : LpProblem) (a : assignment) (t : Z) :
  reports_infeasible_soundly cbc ->
  model self = Some m ->
  satisfies self a = true ->
  fst (cbc t m) <> Infeasible.
Proof.
  intros Hsound Hm Hsat Hinf.
  rewrite (Hsound self m t Hm Hinf a) in Hsat. discriminate.
Qed.

(** [build_model] leaves [self.solution] alone, and so does a solve that
    ends with any status other than Optimal or Feasible: the sweep then
    files the previous solution under the new cap. *)
Lemma failed_solve_files_stale_solution (cbc : Solver) (n : Z)
  (acc : list Scenario) (self self1 : NetworkOptimizer) (m : LpProblem)
  (s : Solution) :
  solution self = Some s ->
  build_model (Some n) "Standard" self = Ok self1 ->
  model self1 = Some m ->
  fst (cbc 60%Z m) <> Optimal ->
  fst (cbc 60%Z m) <> Feasible ->
  exists self2,
    scenario_step cbc n (acc, self)
    = Ok ((acc ++ [ {| sc_max_warehouses := n;
                       sc_actual_warehouses := num_warehouses s;
                       sc_total_cost := total_cost s;
                       sc_fixed_cost := fixed_cost s;
                       sc_variable_cost := variable_cost s |} ])%list,
          self2).
Proof.
  intros Hs Hb Hm Ho Hf.
  destruct (build_model_inv _ _ _ _ Hb)
    as (_ & _ & _ & _ & _ & _ & _ & _ & _ & _ & _ & Hsol).
  unfold scenario_step. cbn [fst snd]. rewrite Hb. cbn [Py.bind].
  unfold solve. rewrite Hm.
  destruct (cbc 60%Z m) as [st a]. cbn [fst] in Ho, Hf.
  destruct st; try contradiction; cbn [Py.bind snd with_solver_output solution];
    rewrite Hsol, Hs; eexists; reflexivity.
Qed.

(* ===================================================================== *)
(** ** Further facts *)
(* ===================================================================== *)

(** *** Satisfying assignments *)

Lemma satisfies_inv (self : NetworkOptimizer) (a : assignment) :
  satisfies self a = true ->
  exists m,
    model self = Some m /\
    (forall cs, In cs (constraints m) -> holds a cs = true) /\
    (forall w, In w (y self) ->
               a (warehouse_open w) == 0 \/ a (warehouse_open w) == 1) /\
    (forall wc, In wc (x self) -> 0 <= a (shipment (fst wc) (snd wc))).
Proof.
  unfold satisfies. destruct (model self) as [m |]; [| discriminate].
  rewrite !andb_true_iff, !forallb_forall. intros [[Hc Hy] Hx].
  exists m. split; [reflexivity |]. split; [exact Hc |]. split.
  - intros w Hw. specialize (Hy w Hw). simpl in Hy.
    apply orb_true_iff in Hy. destruct Hy as [H | H];
      apply Qeq_bool_iff in H; [left | right]; exact H.
  - intros wc Hwc. specialize (Hx wc Hwc). simpl in Hx.
    apply Qle_bool_iff in Hx. exact Hx.
Qed.

Lemma satisfies_intro (self : NetworkOptimizer) (m : LpProblem)
  (a : assignment) :
  model self = Some m ->
  (forall cs, In cs (constraints m) -> holds a cs = true) ->
  (forall w, In w (y self) ->
             a (warehouse_open w) == 0 \/ a (warehouse_open w) == 1) ->
  (forall wc, In wc (x self) -> 0 <= a (shipment (fst wc) (snd wc))) ->
  satisfies self a = true.
Proof.
  intros Hm Hc Hy Hx. unfold satisfies. rewrite Hm.
  rewrite !andb_true_iff, !forallb_forall. repeat split.
  - exact Hc.
  - intros w Hw. simpl. apply orb_true_iff.
    destruct (Hy w Hw) as [H | H]; [left | right]; apply Qeq_bool_iff; exact H.
  - intros wc Hwc. simpl. apply Qle_bool_iff. apply Hx. exact Hwc.
Qed.

(** With 0/1 indicators, the indicators add up to the number of open
    warehouses. *)
Lemma indicators_count_open (a : assignment) (ws : list string) :
  (forall w, In w ws ->
             a (warehouse_open w) == 0 \/ a (warehouse_open w) == 1) ->
  Py.sum (map (fun w => a (warehouse_open w)) ws)
  == inject_Z (Z.of_nat
                 (List.length
                    (filter (fun w => Py.gt (a (warehouse_open w)) (1 # 2))
                       ws))).
Proof.
  induction ws as [| w ws IH]; intro Hbin.
  - vm_compute. reflexivity.
  - cbn [map filter]. rewrite PyFacts.sum_cons.
    rewrite IH by (intros w0 H0; apply Hbin; right; exact H0).
    destruct (Py.gt (a (warehouse_open w)) (1 # 2)) eqn:E.
    + apply PyFacts.gt_true in E. rewrite inject_length_cons.
      destruct (Hbin w (or_introl eq_refl)) as [H | H]; rewrite H in *; lra.
    + apply PyFacts.gt_false in E.
      destruct (Hbin w (or_introl eq_refl)) as [H | H]; rewrite H in *; lra.
Qed.

Lemma indicators_nonneg (a : assignment) (ws : list string) :
  (forall w, In w ws ->
             a (warehouse_open w) == 0 \/ a (warehouse_open w) == 1) ->
  0 <= Py.sum (map (fun w => a (warehouse_open w)) ws).
Proof.
  intro Hbin. rewrite (indicators_count_open a ws Hbin).
  change 0 with (inject_Z 0). rewrite <- Zle_Qle. lia.
Qed.

Lemma build_model_keeps_tables (cap : option Z) (lvl : string)
  (self self' : NetworkOptimizer) :
  build_model cap lvl self = Ok self' ->
  warehouse_df self' = warehouse_df self /\
  demand_df self' = demand_df self /\
  distance_df self' = distance_df self /\
  warehouses self' = warehouses self /\
  solution self' = solution self.
Proof.
  unfold build_model. intro H.
  destruct (make_objective _ _ _ _); cbn [Py.bind] in H; [| discriminate].
  destruct (demand_constraints _ _); cbn [Py.bind] in H; [| discriminate].
  injection H as <-. repeat split.
Qed.

(** *** Sums of non-negative numbers *)

Lemma sum_nonneg (l : list Q) : (forall q, In q l -> 0 <= q) -> 0 <= Py.sum l.
Proof.
  induction l as [| q l IH]; intro H.
  - vm_compute. discriminate.
  - rewrite PyFacts.sum_cons.
    pose proof (H q (or_introl eq_refl)).
    pose proof (IH (fun q0 H0 => H q0 (or_intror H0))). lra.
Qed.

Lemma elem_le_sum (l : list Q) (q : Q) :
  (forall q0, In q0 l -> 0 <= q0) -> In q l -> q <= Py.sum l.
Proof.
  induction l as [| q1 l IH]; intros H Hin.
  - contradiction.
  - rewrite PyFacts.sum_cons.
    pose proof (H q1 (or_introl eq_refl)) as H1.
    pose proof (sum_nonneg l (fun q0 H0 => H q0 (or_intror H0))) as Hs.
    destruct Hin as [-> | Hin].
    + lra.
    + pose proof (IH (fun q0 H0 => H q0 (or_intror H0)) Hin). lra.
Qed.

(** One warehouse out of a list of distinct names. *)
Lemma sum_single (ws : list string) (w0 : string) (q : Q) :
  NoDup ws -> In w0 ws ->
  Py.sum (map (fun w => if (w =? w0)%string then q else 0) ws) == q.
Proof.
  intros Hnd. induction Hnd as [| w ws Hnin Hnd IH]; intro Hin.
  - contradiction.
  - cbn [map]. rewrite PyFacts.sum_cons.
    destruct Hin as [-> | Hin].
    + rewrite String.eqb_refl.
      assert (Z0 : Py.sum (map (fun w => if (w =? w0)%string then q else 0) ws)
                   == 0).
      { clear IH Hnd. induction ws as [| w ws IH]; [reflexivity |].
        cbn [map]. rewrite PyFacts.sum_cons.
        assert (N : (w =? w0)%string = false).
        { apply String.eqb_neq. intro; subst. apply Hnin. left. reflexivity. }
        rewrite N, IH; [lra |]. intro H. apply Hnin. right. exact H. }
      rewrite Z0. lra.
    + assert (N : (w =? w0)%string = false).
      { apply String.eqb_neq. intro; subst. contradiction. }
      rewrite N, (IH Hin). lra.
Qed.

Lemma Forall2_In_r {A B : Type} (R : A -> B -> Prop) (l : list A)
  (l' : list B) (y0 : B) :
  Forall2 R l l' -> In y0 l' -> exists x0, In x0 l /\ R x0 y0.
Proof.
  induction 1 as [| a b l l' Hab H IH]; simpl; intro Hin.
  - contradiction.
  - destruct Hin as [-> | Hin].
    + exists a. split; [left; reflexivity | exact Hab].
    + destruct (IH Hin) as [x0 [Hx HR]]. exists x0. split; [right |]; assumption.
Qed.

(** Every constraint of the first group is the demand constraint of a key. *)
Lemma demand_constraints_inv (ws : list string) (dd : dict string Q)
  (c1 : list LpConstraint) (cs : LpConstraint) :
  demand_constraints ws dd = Ok c1 ->
  In cs c1 ->
  exists c d, Py.get String.eqb dd c = Some d /\
              cs = demand_constraint ws c d.
Proof.
  unfold demand_constraints. intros H Hin.
  apply PyFacts.mapM_inv in H.
  destruct (Forall2_In_r _ _ _ cs H Hin) as [c [_ Hc]].
  destruct (Py.getitem dd c) as [d |] eqn:Eg; simpl in Hc; [| discriminate].
  injection Hc as <-. exists c, d.
  split; [apply DictFacts.getitem_ok_get; exact Eg | reflexivity].
Qed.

Lemma in_capacity_constraints (M : Q) (ws : list string) (dd : dict string Q)
  (cs : LpConstraint) :
  In cs (capacity_constraints M ws dd) ->
  exists w c, In w ws /\ In c (Py.keys dd) /\ cs = capacity_constraint M w c.
Proof.
  unfold capacity_constraints. intro H.
  apply in_flat_map in H. destruct H as [w [Hw H]].
  apply in_map_iff in H. destruct H as [c [<- Hc]].
  exists w, c. repeat split; assumption.
Qed.

(** Non-negative demand rows give non-negative entries. *)
Lemma demand_entries_nonneg (lvl : string) (df : list DemandRow) :
  (forall r, In r df -> dm_service_level r = lvl -> 0 <= dm_demand r) ->
  forall c d, Py.get String.eqb (make_demand_dict lvl df) c = Some d -> 0 <= d.
Proof.
  intros Hpos c d Hget.
  rewrite (make_demand_dict_total lvl df c d Hget).
  apply sum_nonneg. intros q Hq.
  apply in_map_iff in Hq. destruct Hq as [r [<- Hr]].
  apply filter_In in Hr. destruct Hr as [Hr _].
  apply filter_In in Hr. destruct Hr as [Hr Hl].
  apply Hpos; [exact Hr | apply String.eqb_eq; exact Hl].
Qed.

Lemma in_get_NoDup {V : Type} (d : dict string V) (k : string) (v : V) :
  NoDup (Py.keys d) -> In (k, v) d -> Py.get String.eqb d k = Some v.
Proof.
  induction d as [| [k' v'] d IH]; simpl; intros Hnd Hin.
  - contradiction.
  - inversion Hnd as [| ? ? Hnin Hnd']; subst.
    destruct Hin as [E | Hin].
    + injection E as -> ->. rewrite String.eqb_refl. reflexivity.
    + assert (N : (k =? k')%string = false).
      { apply String.eqb_neq. intro; subst k'. apply Hnin.
        apply in_map_iff. exists (k, v). split; [reflexivity | exact Hin]. }
      rewrite N. apply IH; assumption.
Qed.

Lemma demand_values_nonneg (lvl : string) (df : list DemandRow) :
  (forall r, In r df -> dm_service_level r = lvl -> 0 <= dm_demand r) ->
  forall q, In q (Py.values (make_demand_dict lvl df)) -> 0 <= q.
Proof.
  intros Hpos q Hq. apply in_map_iff in Hq. destruct Hq as [[c d] [<- Hin]].
  apply (demand_entries_nonneg lvl df Hpos c d).
  apply in_get_NoDup; [apply NoDup_keys_make_demand_dict | exact Hin].
Qed.

(** *** Keys of the dictionaries *)

Lemma keys_groupby_fold (kvs : list (string * Q)) (d : dict string Q)
  (k : string) :
  In k (Py.keys (fold_left (fun d kv => Pd.groupby_insert (fst kv) (snd kv) d)
                   kvs d))
  <-> In k (Py.keys d) \/ In k (map fst kvs).
Proof.
  revert d. induction kvs as [| [k1 v1] kvs IH]; intro d; simpl.
  - intuition.
  - rewrite IH, DictFacts.keys_groupby_insert. simpl. intuition congruence.
Qed.

Lemma keys_make_demand_dict (lvl : string) (df : list DemandRow) (c : string) :
  In c (Py.keys (make_demand_dict lvl df)) <->
  exists r, In r df /\ dm_service_level r = lvl /\ dm_city r = c.
Proof.
  unfold make_demand_dict, Pd.groupby_sum. rewrite keys_groupby_fold.
  rewrite map_map. cbn [fst]. split.
  - intros [[] | H]. apply in_map_iff in H. destruct H as [r [<- Hr]].
    apply filter_In in Hr. destruct Hr as [Hr Hl].
    exists r. repeat split; [exact Hr | apply String.eqb_eq; exact Hl].
  - intros [r [Hr [Hl <-]]]. right. apply in_map_iff. exists r.
    split; [reflexivity |]. apply filter_In.
    split; [exact Hr | apply String.eqb_eq; exact Hl].
Qed.

Section Unique.
Context {K : Type} (eqb : K -> K -> bool).
Hypothesis eqb_eq : forall a b, eqb a b = true <-> a = b.

Lemma NoDup_unique (l : list K) : NoDup (Py.unique eqb l).
Proof.
  induction l as [| k l IH]; simpl; constructor.
  - intro H. apply filter_In in H. destruct H as [_ H].
    rewrite (proj2 (eqb_eq k k) eq_refl) in H. discriminate.
  - apply NoDup_filter. exact IH.
Qed.

Lemma get_setitem_same {V : Type} (d : dict K V) (k : K) (v : V) :
  Py.get eqb (Py.setitem eqb d k v) k = Some v.
Proof.
  induction d as [| [k' v'] d IH]; simpl.
  - rewrite (proj2 (eqb_eq k k) eq_refl). reflexivity.
  - destruct (eqb k k') eqn:E; simpl; rewrite E; [reflexivity | exact IH].
Qed.

Lemma get_setitem_other {V : Type} (d : dict K V) (k k0 : K) (v : V) :
  k0 <> k -> Py.get eqb (Py.setitem eqb d k v) k0 = Py.get eqb d k0.
Proof.
  intro N. induction d as [| [k' v'] d IH]; simpl.
  - rewrite (DictFacts.eqb_neq eqb eqb_eq k0 k N). reflexivity.
  - destruct (eqb k k') eqn:E; simpl.
    + apply eqb_eq in E. subst k'.
      rewrite (DictFacts.eqb_neq eqb eqb_eq k0 k N). reflexivity.
    + destruct (eqb k0 k'); [reflexivity | exact IH].
Qed.

Lemma get_fold_setitem_absent {V : Type} (kvs : list (K * V)) (d : dict K V)
  (k : K) :
  ~ In k (map fst kvs) ->
  Py.get eqb (fold_left (fun d kv => Py.setitem eqb d (fst kv) (snd kv)) kvs d) k
  = Py.get eqb d k.
Proof.
  revert d. induction kvs as [| [k1 v1] kvs IH]; intros d N; simpl.
  - reflexivity.
  - rewrite IH by (intro H; apply N; right; exact H).
    apply get_setitem_other. intro; subst. apply N. left. reflexivity.
Qed.

(** The last assignment to a key is the one that is read back. *)
Lemma get_fold_setitem_last {V : Type} (l1 l2 : list (K * V)) (d : dict K V)
  (k : K) (v : V) :
  ~ In k (map fst l2) ->
  Py.get eqb
    (fold_left (fun d kv => Py.setitem eqb d (fst kv) (snd kv))
       (l1 ++ (k, v) :: l2) d) k
  = Some v.
Proof.
  intro N. rewrite fold_left_app. simpl.
  rewrite get_fold_setitem_absent by exact N.
  apply get_setitem_same.
Qed.

End Unique.

(** *** Rounding never goes below an integer that the number reaches *)

Lemma round_half_even_ge_floor (q : Q) : (Qfloor q <= Py.round_half_even q)%Z.
Proof.
  unfold Py.round_half_even.
  destruct (Qcompare _ _); [destruct (Z.even _) |..]; lia.
Qed.

Lemma round2_lower (k : Z) (q : Q) :
  inject_Z k <= q * 100 -> inject_Z k * (1 # 100) <= Py.round2 q.
Proof.
  intro H. unfold Py.round2.
  assert (Hk : (k <= Py.round_half_even (q * 100))%Z).
  { etransitivity; [| apply round_half_even_ge_floor].
    rewrite <- (Qfloor_Z k). apply Qfloor_resp_le. exact H. }
  rewrite Zle_Qle in Hk. lra.
Qed.

(** *** The sweep and the stored solution *)


(** A solve that ends with a failing status returns [None] and leaves the
    object as it was, status and values apart. *)
Lemma solve_failed (cbc : Solver) (t : Z) (self : NetworkOptimizer)
  (m : LpProblem) :
  model self = Some m ->
  fails (fst (cbc t m)) ->
  solve cbc t self
  = Ok (None, with_solver_output self (fst (cbc t m)) (snd (cbc t m))).
Proof.
  intros Hm [Ho Hf]. unfold solve. rewrite Hm.
  destruct (cbc t m) as [st a]. cbn [fst snd] in *.
  destruct st; try reflexivity; contradiction.
Qed.

(** A solve never clears a stored solution. *)
Lemma solve_keeps_some (cbc : Solver) (t : Z) (self : NetworkOptimizer)
  (r : option Solution * NetworkOptimizer) :
  solution self <> None ->
  solve cbc t self = Ok r ->
  solution (snd r) <> None.
Proof.
  intros Hs H. unfold solve in H.
  destruct (model self) as [m |]; [| discriminate].
  destruct (cbc t m) as [st a].
  assert (G : (self2 <- extract_solution (with_solver_output self st a) ;;
               Ok (solution self2, self2)) = Ok r ->
              solution (snd r) <> None).
  { intro H'.
    destruct (extract_solution (with_solver_output self st a)) as [self2 |] eqn:Ex;
      cbn [Py.bind] in H'; [| discriminate].
    injection H' as <-. cbn [snd].
    destruct (extract_solution_inv _ _ Ex) as (fs & m' & _ & _ & _ & Hsol).
    rewrite Hsol. discriminate. }
  destruct st; try (apply G; exact H); injection H as <-; exact Hs.
Qed.

Lemma scenario_step_some (cbc : Solver) (n : Z) (acc acc' : list Scenario)
  (self self' : NetworkOptimizer) :
  solution self <> None ->
  scenario_step cbc n (acc, self) = Ok (acc', self') ->
  (exists r, acc' = (acc ++ [r])%list /\ sc_max_warehouses r = n) /\
  solution self' <> None.
Proof.
  intros Hs H. unfold scenario_step in H. cbn [fst snd] in H.
  destruct (build_model _ _ _) as [self1 |] eqn:Hb; cbn [Py.bind] in H;
    [| discriminate].
  destruct (solve cbc 60 self1) as [r |] eqn:Hsolve; cbn [Py.bind] in H;
    [| discriminate].
  destruct (build_model_keeps_tables _ _ _ _ Hb) as (_ & _ & _ & _ & Hsol).
  assert (Hs1 : solution self1 <> None) by (rewrite Hsol; exact Hs).
  pose proof (solve_keeps_some _ _ _ _ Hs1 Hsolve) as Hs2.
  destruct (solution (snd r)) as [s |] eqn:Es; [| contradiction Hs2; reflexivity].
  injection H as <- <-. split.
  - eexists. split; reflexivity.
  - rewrite Es. discriminate.
Qed.

Lemma sweep_some (cbc : Solver) (caps : list Z) :
  forall acc self scen final,
    solution self <> None ->
    sweep cbc caps (acc, self) = Ok (scen, final) ->
    map sc_max_warehouses scen = (map sc_max_warehouses acc ++ caps)%list /\
    solution final <> None.
Proof.
  induction caps as [| n caps IH]; intros acc self scen final Hs H.
  - simpl in H. injection H as <- <-. rewrite app_nil_r. split; [reflexivity | exact Hs].
  - simpl in H.
    destruct (scenario_step cbc n (acc, self)) as [[acc' self'] |] eqn:Est;
      cbn [Py.bind] in H; [| discriminate].
    destruct (scenario_step_some _ _ _ _ _ _ Hs Est) as [[r [-> Hr]] Hs'].
    destruct (IH _ _ _ _ Hs' H) as [Hmap Hfinal].
    split; [| exact Hfinal].
    rewrite Hmap, map_app. cbn [map]. rewrite Hr, <- app_assoc. reflexivity.
Qed.

Lemma compare_scenarios_inv (cbc : Solver) (self final : NetworkOptimizer)
  (cmp : Comparison) :
  compare_scenarios cbc self = Ok (cmp, final) ->
  sweep cbc scenario_caps ([], self) = Ok (Pd.rows (scenario_df cmp), final).
Proof.
  unfold compare_scenarios. intro H.
  destruct (sweep cbc scenario_caps ([], self)) as [[scen fin] |];
    cbn [Py.bind fst snd] in H; [| discriminate].
  destruct (Pd.getitem _ _ _); cbn [Py.bind] in H; [| discriminate].
  destruct (Pd.idxmin _); cbn [Py.bind] in H; [| discriminate].
  destruct (Pd.iloc _ _); cbn [Py.bind] in H; [| discriminate].
  injection H as <- <-. cbn [scenario_df]. rewrite rows_of_records. reflexivity.
Qed.




(** *** [run_optimization] *)

Lemma listed_shipments_lower (self : NetworkOptimizer) (r : Route) :
  In r (flat_map (route_of self) (x self)) -> 1 # 100 <= rt_shipments r.
Proof.
  intro Hr. apply in_flat_map in Hr. destruct Hr as [wc [_ Hr]].
  apply in_route_of in Hr. destruct Hr as [Hflow ->].
  cbn [stamp rt_shipments].
  pose proof (round2_lower 1 (varValue self (shipment (fst wc) (snd wc)))) as L.
  change (inject_Z 1) with 1 in L.
  assert (H1 : 1 <= varValue self (shipment (fst wc) (snd wc)) * 100) by lra.
  specialize (L H1). lra.
Qed.

(** A solve on an object without a stored solution returns a solution only
    through a successful status and extraction. *)
Lemma solve_fresh_inv (cbc : Solver) (t : Z) (self : NetworkOptimizer)
  (r : option Solution * NetworkOptimizer) (s : Solution) :
  solution self = None ->
  solve cbc t self = Ok r ->
  solution (snd r) = Some s ->
  exists m,
    model self = Some m /\
    (fst (cbc t m) = Optimal \/ fst (cbc t m) = Feasible) /\
    extract_solution
      (with_solver_output self (fst (cbc t m)) (snd (cbc t m))) = Ok (snd r).
Proof.
  intros Hnone H Hs. unfold solve in H.
  destruct (model self) as [m |]; [| discriminate].
  exists m. split; [reflexivity |].
  destruct (cbc t m) as [st a]. cbn [fst snd].
  assert (G : (self2 <- extract_solution (with_solver_output self st a) ;;
               Ok (solution self2, self2)) = Ok r ->
              extract_solution (with_solver_output self st a) = Ok (snd r)).
  { intro H'.
    destruct (extract_solution (with_solver_output self st a)) as [self2 |];
      cbn [Py.bind] in H'; [| discriminate].
    injection H' as <-. reflexivity. }
  destruct st;
    try (injection H as <-; cbn [snd with_solver_output solution] in Hs;
         rewrite Hnone in Hs; discriminate).
  - split; [left; reflexivity | apply G; exact H].
  - split; [right; reflexivity | apply G; exact H].
Qed.

(** *** [get_cost_breakdown] *)

Lemma for_each_ok {A B : Type} (f : A -> Api.outcome B) (g : A -> B)
  (l : list A) :
  (forall a, In a l -> f a = Api.Returned (g a)) ->
  Api.for_each f l = Api.Returned (map g l).
Proof.
  induction l as [| a l IH]; intro H; simpl.
  - reflexivity.
  - rewrite (H a (or_introl eq_refl)).
    rewrite IH by (intros b Hb; apply H; right; exact Hb).
    reflexivity.
Qed.

Lemma sum_map_plus {A : Type} (g h : A -> Q) (l : list A) :
  Py.sum (map (fun a => g a + h a) l) == Py.sum (map g l) + Py.sum (map h l).
Proof.
  induction l as [| a l IH]; simpl.
  - rewrite PyFacts.sum_nil. lra.
  - rewrite !PyFacts.sum_cons, IH. lra.
Qed.

Lemma sum_zeros {A : Type} (l : list A) : Py.sum (map (fun _ => 0) l) == 0.
Proof.
  induction l as [| a l IH]; simpl.
  - reflexivity.
  - rewrite PyFacts.sum_cons, IH. lra.
Qed.

(** Splitting the rows by warehouse loses nothing and counts nothing
    twice, as long as every row belongs to one of the distinct names. *)
Lemma sum_by_warehouse (f : Route -> Q) (ows : list string) (rows : list Route) :
  NoDup ows ->
  (forall r, In r rows -> In (rt_warehouse r) ows) ->
  Py.sum (map (fun w =>
                 Py.sum (map f (filter (fun r => (rt_warehouse r =? w)%string)
                                  rows))) ows)
  == Py.sum (map f rows).
Proof.
  intros Hnd. induction rows as [| r rows IH]; intro Hin.
  - cbn [filter map]. rewrite sum_zeros. reflexivity.
  - cbn [map]. rewrite PyFacts.sum_cons.
    rewrite <- IH by (intros r0 H0; apply Hin; right; exact H0).
    rewrite <- (sum_single ows (rt_warehouse r) (f r) Hnd
                  (Hin r (or_introl eq_refl))).
    rewrite <- sum_map_plus.
    apply PyFacts.sum_ext. intros w _. cbn [filter].
    rewrite (String.eqb_sym w (rt_warehouse r)).
    destruct (rt_warehouse r =? w)%string.
    + cbn [map]. rewrite PyFacts.sum_cons. reflexivity.
    + lra.
Qed.

Lemma combine_columns (df : list WarehouseRow) :
  combine (map wr_warehouse df) (map wr_fixed_cost_annual df)
  = map (fun r => (wr_warehouse r, wr_fixed_cost_annual r)) df.
Proof.
  induction df as [| r df IH]; simpl; [reflexivity | rewrite IH; reflexivity].
Qed.

(** With distinct names, the fixed-cost dict holds the fixed cost of the
    one row of each warehouse. *)
Lemma fixed_cost_of_row (df : list WarehouseRow) (r : WarehouseRow) :
  NoDup (map wr_warehouse df) ->
  In r df ->
  Py.get String.eqb (make_fixed_cost_dict df) (wr_warehouse r)
  = Some (wr_fixed_cost_annual r).
Proof.
  intros Hnd Hin.
  destruct (in_split r df Hin) as (l1 & l2 & ->).
  unfold make_fixed_cost_dict, Py.of_zip.
  rewrite combine_columns, map_app. cbn [map].
  apply (get_fold_setitem_last String.eqb String.eqb_eq).
  rewrite map_map. cbn [fst].
  rewrite map_app in Hnd. apply NoDup_app_remove_l in Hnd.
  cbn [map] in Hnd. inversion Hnd; assumption.
Qed.

Lemma first_row_named_ok (df : list WarehouseRow) (wh : string) :
  In wh (map wr_warehouse df) ->
  exists r, Api.first_row_named df wh = Api.Returned r /\
            In r df /\ wr_warehouse r = wh.
Proof.
  intro Hin. unfold Api.first_row_named.
  apply in_map_iff in Hin. destruct Hin as [r0 [Hn Hr0]].
  assert (Hf : In r0 (filter (fun r => (wr_warehouse r =? wh)%string) df)).
  { apply filter_In. split; [exact Hr0 | apply String.eqb_eq; exact Hn]. }
  destruct (filter (fun r => (wr_warehouse r =? wh)%string) df) as [| r l] eqn:E.
  - contradiction.
  - exists r. split; [reflexivity |].
    assert (Hr : In r (filter (fun r => (wr_warehouse r =? wh)%string) df))
      by (rewrite E; left; reflexivity).
    apply filter_In in Hr. destruct Hr as [Hr Hw].
    split; [exact Hr | apply String.eqb_eq; exact Hw].
Qed.

Lemma routes_from_ok (rts : list Route) (wh : string) :
  rts <> [] ->
  Api.routes_from (Pd.of_records route_fields rts) wh
  = Api.Returned (filter (fun r => (rt_warehouse r =? wh)%string) rts).
Proof.
  intro Hne. destruct rts as [| r rts]; [contradiction Hne; reflexivity |].
  reflexivity.
Qed.

(** The routes of a solution extracted from values that satisfy the
    linking constraints, with 0/1 indicators, start at open warehouses. *)
Lemma listed_routes_open (cap : option Z) (lvl : string)
  (self self' : NetworkOptimizer) (m : LpProblem) (st : LpStatus)
  (a : assignment) (r : Route) :
  build_model cap lvl self = Ok self' ->
  model self' = Some m ->
  (forall cs, In cs (constraints m) -> holds a cs = true) ->
  (forall w, In w (warehouses self) ->
             a (warehouse_open w) == 0 \/ a (warehouse_open w) == 1) ->
  In r (flat_map (route_of (with_solver_output self' st a)) (x self')) ->
  In (rt_warehouse r)
     (filter (fun w => Py.gt (a (warehouse_open w)) (1 # 2)) (warehouses self)).
Proof.
  intros Hb Hm Hcs Hbin Hr.
  destruct (build_model_inv _ _ _ _ Hb)
    as (obj & c1 & _ & _ & Hm' & _ & _ & _ & _ & Hx & _).
  rewrite Hm in Hm'. injection Hm' as ->.
  apply in_flat_map in Hr. destruct Hr as [[w c] [Hwc Hr]].
  apply in_route_of in Hr. cbn [fst snd with_solver_output varValue] in Hr.
  destruct Hr as [Hflow ->]. cbn [stamp rt_warehouse fst].
  rewrite Hx in Hwc.
  apply (proj1 (DictFacts.unique_in Py.pair_eqb DictFacts.pair_eqb_eq _ _))
    in Hwc.
  apply (proj1 (in_make_routes _ _ _ _)) in Hwc. destruct Hwc as [Hw Hc].
  assert (Hlink : holds a (capacity_constraint
                             (Py.sum (Py.values
                                        (make_demand_dict lvl (demand_df self))))
                             w c) = true).
  { apply Hcs. cbn [constraints]. apply in_or_app. right.
    apply in_or_app. left. unfold capacity_constraints.
    apply in_flat_map. exists w. split; [exact Hw |].
    apply in_map_iff. exists c. split; [reflexivity | exact Hc]. }
  apply holds_capacity_constraint in Hlink.
  apply filter_In. split; [exact Hw |]. apply PyFacts.gt_true.
  destruct (Hbin w Hw) as [E | E]; rewrite E in *; lra.
Qed.

Lemma mapM_getitem_values {V : Type} (d : dict string V) (g : string -> V)
  (l : list string) (vs : list V) :
  Py.mapM (Py.getitem d) l = Ok vs ->
  (forall w, In w l -> Py.get String.eqb d w = Some (g w)) ->
  vs = map g l.
Proof.
  revert vs. induction l as [| w l IH]; intros vs H Hg; simpl in H.
  - injection H as <-. reflexivity.
  - unfold Py.getitem in H at 1.
    rewrite (Hg w (or_introl eq_refl)) in H. cbn [Py.bind] in H.
    destruct (Py.mapM (Py.getitem d) l) as [vs' |]; cbn [Py.bind] in H;
      [| discriminate].
    injection H as <-. cbn [map]. f_equal.
    apply IH; [reflexivity |]. intros w0 H0. apply Hg. right. exact H0.
Qed.

Lemma warehouse_cost_ok (df : list WarehouseRow) (s : Solution)
  (rts : list Route) (wh : string) :
  routes s = Pd.of_records route_fields rts ->
  rts <> [] ->
  In wh (map wr_warehouse df) ->
  Api.warehouse_cost (Some df) s wh = Api.Returned (breakdown_entry df rts wh).
Proof.
  intros Hr Hne Hin. unfold Api.warehouse_cost.
  rewrite Hr, (routes_from_ok rts wh Hne).
  destruct (first_row_named_ok df wh Hin) as [r [Hf _]].
  unfold breakdown_entry, first_fixed_cost.
  unfold Api.first_row_named in *.
  destruct (filter (fun r => (wr_warehouse r =? wh)%string) df) as [| r0 l];
    [discriminate |].
  reflexivity.
Qed.

Lemma first_fixed_cost_in_dict (df : list WarehouseRow) (wh : string) :
  NoDup (map wr_warehouse df) ->
  In wh (map wr_warehouse df) ->
  Py.get String.eqb (make_fixed_cost_dict df) wh
  = Some (first_fixed_cost df wh).
Proof.
  intros Hnd Hin.
  destruct (first_row_named_ok df wh Hin) as [r [Hf [Hr Hn]]].
  unfold first_fixed_cost. unfold Api.first_row_named in Hf.
  destruct (filter (fun r => (wr_warehouse r =? wh)%string) df) as [| r0 l];
    [discriminate |].
  injection Hf as ->. rewrite <- Hn. apply fixed_cost_of_row; assumption.
Qed.

(** *** Sizes *)

Lemma length_make_routes (ws : list string) (dd : dict string Q) :
  List.length (make_routes ws dd)
  = (List.length ws * List.length (Py.keys dd))%nat.
Proof.
  unfold make_routes. induction ws as [| w ws IH]; simpl.
  - reflexivity.
  - rewrite length_app, length_map, IH. reflexivity.
Qed.

Lemma length_capacity_constraints (M : Q) (ws : list string)
  (dd : dict string Q) :
  List.length (capacity_constraints M ws dd)
  = (List.length ws * List.length (Py.keys dd))%nat.
Proof.
  unfold capacity_constraints. induction ws as [| w ws IH]; simpl.
  - reflexivity.
  - rewrite length_app, length_map, IH. reflexivity.
Qed.

Lemma length_demand_constraints (ws : list string) (dd : dict string Q)
  (c1 : list LpConstraint) :
  demand_constraints ws dd = Ok c1 ->
  List.length c1 = List.length (Py.keys dd).
Proof.
  unfold demand_constraints. intro H. apply PyFacts.mapM_inv in H.
  symmetry. eapply Forall2_length. exact H.
Qed.

(* ===================================================================== *)
(** ** The model built by [build_model] *)
(* ===================================================================== *)

(** C3.  Demand satisfaction.  Whenever [build_model] returns, for every
    customer of the filtered demand mapping with nonzero demand [d] (the
    sum of its rows at the service level) the model contains the constraint
    named after the customer whose sense is equality and which holds
    exactly when the flows into the customer from all the warehouses add up
    to [d]. *)
Theorem demand_satisfaction_constraint (cap : option Z) (lvl : string)
  (self self' : NetworkOptimizer) (m : LpProblem) :
  build_model cap lvl self = Ok self' ->
  model self' = Some m ->
  demand_dict self' = make_demand_dict lvl (demand_df self) /\
  forall c d,
    Py.get String.eqb (demand_dict self') c = Some d ->
    ~ d == 0 ->
    d == Py.sum (map dm_demand
                   (filter (fun r => (c =? dm_city r)%string)
                      (filter (fun r => (dm_service_level r =? lvl)%string)
                         (demand_df self)))) /\
    In (demand_constraint (warehouses self) c d) (constraints m) /\
    c_sense (demand_constraint (warehouses self) c d) = EQ /\
    forall a,
      holds a (demand_constraint (warehouses self) c d) = true <->
      Py.sum (map (fun w => a (shipment w c)) (warehouses self)) == d.
Proof.
  intros Hb Hm0.
  destruct (build_model_inv _ _ _ _ Hb)
    as (obj & c1 & _ & Hc1 & Hm & _ & Hdd & _).
  rewrite Hm0 in Hm. injection Hm as ->.
  split; [exact Hdd |].
  intros c d Hget _. rewrite Hdd in Hget.
  split; [apply make_demand_dict_total; exact Hget |].
  split.
  - simpl. apply in_or_app. left.
    eapply in_demand_constraints; eassumption.
  - split; [reflexivity |]. intro a. apply holds_demand_constraint.
Qed.

Lemma demand_satisfaction_constraint_witness :
  50 == Py.sum (map dm_demand
                  (filter (fun r => ("C2" =? dm_city r)%string)
                     (filter (fun r => (dm_service_level r =? "Standard")%string)
                        (demand_df Examples.network)))) /\
  In (demand_constraint (warehouses Examples.network) "C2" 50)
     (constraints (Examples.problem_of Cases.capped_at_two)).
Proof.
  destruct (demand_satisfaction_constraint (Some 2%Z) "Standard"
              Examples.network Cases.capped_at_two
              (Examples.problem_of Cases.capped_at_two)) as (_ & H).
  - vm_compute. reflexivity.
  - vm_compute. reflexivity.
  - destruct (H "C2" 50) as (Hsum & Hin & _).
    + vm_compute. reflexivity.
    + intro E. discriminate E.
    + split; [exact Hsum | exact Hin].
Defined.

(** C4.  Linking.  Whenever [build_model] returns, the model contains,
    for every warehouse and every customer of the demand mapping, the
    constraint [flow[w,c] <= M * open[w]] with [M] the sum of the values of
    the demand mapping, which is the sum of all the demand rows at the
    service level.  Hence, whenever an assignment satisfies the constraints
    of the model and gives every open indicator the value 0 or 1, each
    route of the extracted route list has a flow above 0.01 and a warehouse
    whose indicator exceeds 0.5, so the warehouse is in the open-warehouse
    set. *)
Theorem linking_constraint_and_invariant (cap : option Z) (lvl : string)
  (self self' : NetworkOptimizer) (m : LpProblem) :
  build_model cap lvl self = Ok self' ->
  model self' = Some m ->
  (forall w c,
     In w (warehouses self) -> In c (Py.keys (demand_dict self')) ->
     In (capacity_constraint (Py.sum (Py.values (demand_dict self'))) w c)
        (constraints m)) /\
  Py.sum (Py.values (demand_dict self'))
  == Py.sum (map dm_demand
               (filter (fun r => (dm_service_level r =? lvl)%string)
                  (demand_df self))) /\
  (forall a M w c,
     holds a (capacity_constraint M w c) = true <->
     a (shipment w c) <= M * a (warehouse_open w)) /\
  forall st a self'' s,
    (forall cs, In cs (constraints m) -> holds a cs = true) ->
    (forall w, In w (warehouses self) ->
               a (warehouse_open w) == 0 \/ a (warehouse_open w) == 1) ->
    extract_solution (with_solver_output self' st a) = Ok self'' ->
    solution self'' = Some s ->
    forall r, In r (Pd.rows (routes s)) ->
      1 # 100 < a (shipment (rt_warehouse r) (rt_customer r)) /\
      1 # 2 < a (warehouse_open (rt_warehouse r)) /\
      In (rt_warehouse r) (open_warehouses s).
Proof.
  intros Hb Hm0.
  destruct (build_model_inv _ _ _ _ Hb)
    as (obj & c1 & _ & _ & Hm & Hws & Hdd & _ & _ & Hx & _).
  rewrite Hm0 in Hm. injection Hm as ->. cbn [constraints].
  assert (Hcap : forall w c,
    In w (warehouses self) -> In c (Py.keys (demand_dict self')) ->
    In (capacity_constraint (Py.sum (Py.values (demand_dict self'))) w c)
       (c1 ++ capacity_constraints
                (Py.sum (Py.values (make_demand_dict lvl (demand_df self))))
                (warehouses self) (make_demand_dict lvl (demand_df self))
           ++ max_warehouses_constraints (warehouses self) cap)).
  { intros w c Hw Hc. rewrite Hdd in *.
    apply in_or_app. right. apply in_or_app. left.
    unfold capacity_constraints. apply in_flat_map. exists w.
    split; [exact Hw |]. apply in_map_iff. exists c.
    split; [reflexivity | exact Hc]. }
  split; [exact Hcap |].
  split; [rewrite Hdd; apply sum_values_make_demand_dict |].
  split; [intros a M w c; apply holds_capacity_constraint |].
  intros st a self'' s Hcs Hbin Hex Hsol r Hr.
  destruct (extract_solution_inv _ _ Hex) as (fs & m' & _ & _ & _ & Hs).
  rewrite Hsol in Hs. injection Hs as ->. simpl in *.
  rewrite rows_of_records in Hr.
  apply in_flat_map in Hr. destruct Hr as [[w c] [Hwc Hr]].
  apply in_route_of in Hr. simpl in Hr. destruct Hr as [Hflow ->]. simpl.
  rewrite Hx in Hwc.
  apply (proj1 (DictFacts.unique_in Py.pair_eqb DictFacts.pair_eqb_eq _ _))
    in Hwc.
  apply (proj1 (in_make_routes _ _ _ _)) in Hwc. destruct Hwc as [Hw Hc].
  rewrite <- Hdd in Hc.
  pose proof (Hcs _ (Hcap w c Hw Hc)) as Hlink.
  apply holds_capacity_constraint in Hlink.
  assert (Hopen : 1 # 2 < a (warehouse_open w)).
  { destruct (Hbin w Hw) as [E | E]; rewrite E in *; lra. }
  split; [exact Hflow |]. split; [exact Hopen |].
  apply filter_In. rewrite Hws. split; [exact Hw |].
  apply PyFacts.gt_true. exact Hopen.
Qed.

Lemma linking_constraint_and_invariant_witness :
  1 # 100 < Examples.all_from_A (shipment "A" "C1") /\
  1 # 2 < Examples.all_from_A (warehouse_open "A") /\
  In "A" (open_warehouses (Examples.solved Examples.uncapped_extracted)).
Proof.
  destruct (linking_constraint_and_invariant None "Standard" Examples.network
              Examples.uncapped (Examples.problem_of Examples.uncapped))
    as (_ & _ & _ & H).
  - vm_compute. reflexivity.
  - vm_compute. reflexivity.
  - refine (H Optimal Examples.all_from_A
              (Examples.built Examples.uncapped_extracted)
              (Examples.solved Examples.uncapped_extracted) _ _ _ _
              {| rt_warehouse := "A"; rt_customer := "C1";
                 rt_shipments := 10000 # 100;
                 rt_cost_per_shipment := 2;
                 rt_total_cost := 20000 # 100 |} _).
    + apply forallb_forall. vm_compute. reflexivity.
    + intros w [<- | [<- | []]]; [right | left]; reflexivity.
    + vm_compute. reflexivity.
    + vm_compute. reflexivity.
    + vm_compute. left. reflexivity.
Defined.

(** C5.  Objective.  Whenever [build_model] returns, the objective of the
    model evaluates, under every assignment, to the sum over the warehouses
    of fixed cost times open indicator plus the sum, over every pair of a
    warehouse and a customer of the demand mapping, of unit cost times
    flow.  The customers of the demand mapping are the cities with a demand
    row at the service level.  The fixed cost of a warehouse is the one of
    its row in the warehouse table (of the last such row, should the name
    be repeated).  The unit cost of a pair is the one of its row in the
    cost matrix at the service level (of the last such row), and zero when
    the matrix has no such row. *)
Theorem objective_is_fixed_plus_transport (cap : option Z) (lvl : string)
  (self self' : NetworkOptimizer) (m : LpProblem) :
  build_model cap lvl self = Ok self' ->
  model self' = Some m ->
  exists fs,
    Forall2 (fun w f => Py.get String.eqb (fixed_cost_dict self') w = Some f)
      (warehouses self) fs /\
    (forall a,
       value a (objective m) ==
       Py.sum (map (fun wf => snd wf * a (warehouse_open (fst wf)))
                 (combine (warehouses self) fs))
       + Py.sum (map (fun wc =>
                        Py.get_default Py.pair_eqb (cost_dict self') wc 0
                        * a (shipment (fst wc) (snd wc)))
                   (flat_map
                      (fun w => map (fun c => (w, c))
                                  (Py.keys (demand_dict self')))
                      (warehouses self)))) /\
    (forall c, In c (Py.keys (demand_dict self')) <->
               exists r, In r (demand_df self) /\
                         dm_service_level r = lvl /\ dm_city r = c) /\
    NoDup (Py.keys (demand_dict self')) /\
    (forall before r after,
       warehouse_df self = (before ++ r :: after)%list ->
       (forall r', In r' after -> wr_warehouse r' <> wr_warehouse r) ->
       Py.get String.eqb (fixed_cost_dict self') (wr_warehouse r)
       = Some (wr_fixed_cost_annual r)) /\
    (forall before r after,
       distance_df self = (before ++ r :: after)%list ->
       ds_service_level r = lvl ->
       (forall r', In r' after -> ds_service_level r' = lvl ->
                   ds_warehouse r' = ds_warehouse r ->
                   ds_customer_city r' <> ds_customer_city r) ->
       Py.get_default Py.pair_eqb (cost_dict self')
         (ds_warehouse r, ds_customer_city r) 0
       = ds_transport_cost_per_shipment r) /\
    (forall w c q,
       Py.get Py.pair_eqb (cost_dict self') (w, c) = Some q ->
       exists r, In r (distance_df self) /\ ds_service_level r = lvl /\
                 ds_warehouse r = w /\ ds_customer_city r = c /\
                 ds_transport_cost_per_shipment r = q) /\
    (forall w c,
       (forall r, In r (distance_df self) -> ds_service_level r = lvl ->
                  ds_warehouse r = w -> ds_customer_city r <> c) ->
       Py.get_default Py.pair_eqb (cost_dict self') (w, c) 0 = 0).
Proof.
  intros Hb Hm0.
  destruct (build_model_inv _ _ _ _ Hb)
    as (obj & c1 & Ho & _ & Hm & _ & Hdd & Hcd & Hfd & _).
  rewrite Hm0 in Hm. injection Hm as ->. cbn [objective].
  destruct (make_objective_value _ _ _ _ _ Ho) as [fs [Hfs Hval]].
  exists fs. rewrite Hdd, Hcd, Hfd.
  split; [exact Hfs |]. split; [exact Hval |].
  split; [intro c; apply keys_make_demand_dict |].
  split; [apply NoDup_keys_make_demand_dict |].
  split.
  { intros before r after Hdf Hafter.
    unfold make_fixed_cost_dict, Py.of_zip.
    rewrite combine_columns, Hdf, map_app. cbn [map].
    apply (get_fold_setitem_last String.eqb String.eqb_eq).
    rewrite map_map. cbn [fst]. intro H.
    apply in_map_iff in H. destruct H as [r' [E Hr']].
    exact (Hafter r' Hr' E). }
  split.
  { intros before r after Hdf Hl Hafter.
    unfold Py.get_default, make_cost_dict. rewrite Hdf, filter_app.
    cbn [filter]. rewrite (proj2 (String.eqb_eq _ _) Hl).
    rewrite <- (fold_left_on_map
                  (fun d kv => Py.setitem Py.pair_eqb d (fst kv) (snd kv))
                  (fun row => ((ds_warehouse row, ds_customer_city row),
                               ds_transport_cost_per_shipment row))).
    rewrite map_app. cbn [map].
    rewrite (get_fold_setitem_last Py.pair_eqb DictFacts.pair_eqb_eq);
      [reflexivity |].
    rewrite map_map. cbn [fst]. intro H.
    apply in_map_iff in H. destruct H as [r' [E Hr']].
    apply filter_In in Hr'. destruct Hr' as [Hr' Hl'].
    injection E as Ew Ec.
    exact (Hafter r' Hr' (proj1 (String.eqb_eq _ _) Hl') Ew Ec). }
  split.
  - intros w c q. apply make_cost_dict_present.
  - intros w c. apply make_cost_dict_absent.
Qed.

Lemma objective_is_fixed_plus_transport_witness :
  (exists fs,
     Forall2 (fun w f =>
                Py.get String.eqb (fixed_cost_dict Examples.uncapped) w = Some f)
       ["A"; "B"] fs /\
     value Examples.all_from_A
       (objective (Examples.problem_of Examples.uncapped)) ==
     Py.sum (map (fun wf => snd wf
                            * Examples.all_from_A (warehouse_open (fst wf)))
               (combine ["A"; "B"] fs))
     + Py.sum (map (fun wc =>
                      Py.get_default Py.pair_eqb
                        (cost_dict Examples.uncapped) wc 0
                      * Examples.all_from_A (shipment (fst wc) (snd wc)))
                 [ ("A", "C1"); ("A", "C2"); ("A", "C3");
                   ("B", "C1"); ("B", "C2"); ("B", "C3") ])) /\
  Py.get String.eqb (fixed_cost_dict Examples.uncapped) "B" = Some 1200000 /\
  Py.get_default Py.pair_eqb (cost_dict Examples.uncapped) ("A", "C3") 0
  = 1 # 8 /\
  Py.get_default Py.pair_eqb (cost_dict Examples.uncapped) ("B", "C3") 0 = 0.
Proof.
  destruct (objective_is_fixed_plus_transport None "Standard" Examples.network
              Examples.uncapped (Examples.problem_of Examples.uncapped))
    as (fs & Hfs & Hval & _ & _ & Hfix & Hrow & _ & Habsent).
  - vm_compute. reflexivity.
  - vm_compute. reflexivity.
  - split; [| split; [| split]].
    + exists fs. split; [exact Hfs | exact (Hval Examples.all_from_A)].
    + apply (Hfix [mkWarehouseRow "A" 1000000] (mkWarehouseRow "B" 1200000) []).
      * reflexivity.
      * intros r' [].
    + apply (Hrow [ mkDistanceRow "A" "C1" "Standard" 2;
                    mkDistanceRow "A" "C2" "Standard" 3 ]
                  (mkDistanceRow "A" "C3" "Standard" (1 # 8))
                  [ mkDistanceRow "B" "C1" "Standard" 5;
                    mkDistanceRow "B" "C2" "Standard" 6;
                    mkDistanceRow "B" "C3" "Express" 1 ]).
      * reflexivity.
      * reflexivity.
      * intros r' [<- | [<- | [<- | []]]] Hl Hw; discriminate.
    + apply Habsent. simpl.
      intros r [<- | [<- | [<- | [<- | [<- | [<- | []]]]]]] Hl Hw; simpl in *;
        discriminate.
Defined.

(* ===================================================================== *)
(** ** The solution built by [extract_solution] *)
(* ===================================================================== *)

(** C7, as the code has it.  When the model is present, every candidate
    has a fixed cost and some flow exceeds 0.01, [extract_solution] returns
    a solution whose open-warehouse list is the warehouses with indicator
    above 0.5 and whose route list is, in key order, the (warehouse,
    customer) keys with flow above 0.01.  Each route carries the flow
    rounded to 2 decimals, the unit cost of the cost dict (0 if absent)
    exactly as stored, not rounded, and the line cost flow times unit cost
    rounded to 2 decimals. *)
Theorem extraction_thresholds_and_stamps (self : NetworkOptimizer) :
  model self <> None ->
  incl (warehouses self) (Py.keys (fixed_cost_dict self)) ->
  (exists wc, In wc (x self) /\
              1 # 100 < varValue self (shipment (fst wc) (snd wc))) ->
  exists self' s,
    extract_solution self = Ok self' /\
    solution self' = Some s /\
    (forall w, In w (open_warehouses s) <->
               In w (warehouses self) /\
               1 # 2 < varValue self (warehouse_open w)) /\
    Pd.rows (routes s) =
      map (stamp self)
        (filter (fun wc => Py.gt (varValue self (shipment (fst wc) (snd wc)))
                             (1 # 100)) (x self)) /\
    (forall r, In r (Pd.rows (routes s)) <->
               exists wc, In wc (x self) /\
                          1 # 100 < varValue self (shipment (fst wc) (snd wc)) /\
                          r = stamp self wc) /\
    forall wc,
      rt_warehouse (stamp self wc) = fst wc /\
      rt_customer (stamp self wc) = snd wc /\
      rt_shipments (stamp self wc) =
        Py.round2 (varValue self (shipment (fst wc) (snd wc))) /\
      rt_cost_per_shipment (stamp self wc) =
        Py.get_default Py.pair_eqb (cost_dict self) wc 0 /\
      rt_total_cost (stamp self wc) =
        Py.round2 (varValue self (shipment (fst wc) (snd wc))
                   * Py.get_default Py.pair_eqb (cost_dict self) wc 0).
Proof.
  intros Hm Hfd Hflow.
  destruct (extract_solution_ok self Hm Hfd Hflow) as [self' Hex].
  destruct (extract_solution_inv _ _ Hex) as (fs & m & _ & _ & _ & Hs).
  eexists self', _. split; [exact Hex |]. split; [exact Hs |]. simpl.
  split.
  { intro w. rewrite filter_In, PyFacts.gt_true. reflexivity. }
  rewrite rows_of_records, routes_filter_map.
  split; [reflexivity |].
  split.
  { intro r. rewrite in_map_iff. split.
    - intros [wc [<- Hwc]]. apply filter_In in Hwc. destruct Hwc as [Hwc Hg].
      exists wc. split; [exact Hwc |].
      split; [apply PyFacts.gt_true; exact Hg | reflexivity].
    - intros [wc [Hwc [Hg ->]]]. exists wc. split; [reflexivity |].
      apply filter_In. split; [exact Hwc | apply PyFacts.gt_true; exact Hg]. }
  intro wc. repeat split.
Qed.

Lemma extraction_thresholds_and_stamps_witness :
  exists self' s,
    extract_solution
      (with_solver_output Examples.uncapped Optimal Examples.all_from_A)
    = Ok self' /\
    solution self' = Some s /\
    (In "A" (open_warehouses s) <->
     In "A" ["A"; "B"] /\ 1 # 2 < Examples.all_from_A (warehouse_open "A")).
Proof.
  destruct (extraction_thresholds_and_stamps
              (with_solver_output Examples.uncapped Optimal Examples.all_from_A))
    as (self' & s & Hex & Hs & Hopen & _).
  - vm_compute. discriminate.
  - intros w Hw. vm_compute in Hw. vm_compute. exact Hw.
  - exists ("A", "C1"). split; [vm_compute; left; reflexivity |].
    vm_compute. reflexivity.
  - exists self', s. split; [exact Hex |]. split; [exact Hs |].
    exact (Hopen "A").
Defined.

(** C7 does not hold as stated.  On the example network the
    route from A to C3 is reported with unit cost 1/8 = 0.125, which is not
    a number with two decimals: the unit cost is not rounded. *)
Lemma unit_cost_is_not_rounded :
  exists r,
    solve Examples.cbc_all_from_A 300 Examples.uncapped
    = Ok (Some (Examples.solved Examples.uncapped_extracted),
          Examples.built Examples.uncapped_extracted) /\
    In r (Pd.rows (routes (Examples.solved Examples.uncapped_extracted))) /\
    rt_warehouse r = "A" /\ rt_customer r = "C3" /\
    rt_cost_per_shipment r == 1 # 8 /\
    ~ rt_cost_per_shipment r == Py.round2 (rt_cost_per_shipment r).
Proof.
  exists (stamp (with_solver_output Examples.uncapped Optimal Examples.all_from_A)
            ("A", "C3")).
  split; [vm_compute; reflexivity |].
  split; [vm_compute; right; right; left; reflexivity |].
  split; [reflexivity |]. split; [reflexivity |].
  split; [vm_compute; reflexivity |].
  vm_compute. discriminate.
Qed.

(** C6, as the code has it.  After a successful solve of a built model
    (distinct warehouse names, 0/1 open indicators), the fixed-cost total is
    the sum of the fixed costs of the open warehouses only, the
    variable-cost total is the sum of the route line costs, the total cost
    is their sum, and the objective value is the objective evaluated at the
    solver's values.  The objective value differs from the total cost by the
    unrounded cost of the flows at or below 0.01, which the route list
    leaves out, and by at most 0.005 of rounding per listed route. *)
Theorem cost_breakdown_consistency (cbc : Solver) (cap : option Z)
  (lvl : string) (self self' final : NetworkOptimizer) (m : LpProblem)
  (t : Z) (s : Solution) :
  build_model cap lvl self = Ok self' ->
  model self' = Some m ->
  NoDup (warehouses self) ->
  solve cbc t self' = Ok (Some s, final) ->
  (forall w, In w (warehouses self) ->
             varValue final (warehouse_open w) == 0 \/
             varValue final (warehouse_open w) == 1) ->
  exists fs,
    Forall2 (fun w f => Py.get String.eqb (fixed_cost_dict self') w = Some f)
      (open_warehouses s) fs /\
    (forall w, In w (open_warehouses s) <->
               In w (warehouses self) /\
               1 # 2 < varValue final (warehouse_open w)) /\
    fixed_cost s = Py.sum fs /\
    variable_cost s = Py.sum (map rt_total_cost (Pd.rows (routes s))) /\
    total_cost s = fixed_cost s + variable_cost s /\
    objective_value s = value (varValue final) (objective m) /\
    Qabs (objective_value s - total_cost s
          - Py.sum (map (fun wc =>
                           Py.get_default Py.pair_eqb (cost_dict self') wc 0
                           * varValue final (shipment (fst wc) (snd wc)))
                      (filter (fun wc =>
                                 negb (Py.gt (varValue final
                                                (shipment (fst wc) (snd wc)))
                                         (1 # 100)))
                         (x self'))))
    <= (1 # 200) * inject_Z (Z.of_nat (List.length (Pd.rows (routes s)))).
Proof.
  intros Hb Hm Hnd Hsolve Hbin.
  destruct (solve_inv _ _ _ _ _ Hsolve)
    as (m' & st & a & Hm' & _ & _ & Hex & Hsol & Hval).
  rewrite Hm in Hm'. injection Hm' as <-.
  rewrite Hval in *.
  pose proof (x_is_routes _ _ _ _ Hb Hnd) as Hx.
  destruct (build_model_inv _ _ _ _ Hb)
    as (obj & c1 & Ho & _ & Hm2 & Hws & Hdd & Hcd & Hfd & _).
  rewrite Hm in Hm2. injection Hm2 as Hm2.
  destruct (make_objective_value _ _ _ _ _ Ho) as [fs0 [Hfs0 Hobj]].
  destruct (extract_solution_inv _ _ Hex) as (fs & m3 & Hfs & _ & Hm3 & Hs).
  simpl in Hfs, Hm3, Hs. rewrite Hm in Hm3. injection Hm3 as <-.
  rewrite Hsol in Hs. injection Hs as ->.
  cbn [open_warehouses fixed_cost variable_cost total_cost objective_value
       routes].
  rewrite rows_of_records.
  exists fs. split.
  { apply PyFacts.mapM_inv in Hfs.
    eapply Forall2_impl; [| exact Hfs].
    intros w f Hw. apply DictFacts.getitem_ok_get. exact Hw. }
  split.
  { intro w. rewrite filter_In, PyFacts.gt_true, Hws. reflexivity. }
  repeat (split; [reflexivity |]).
  pose proof (variable_part (with_solver_output self' st a) (x self')) as V.
  cbn [with_solver_output cost_dict varValue] in V.
  rewrite Hws, Hfd in Hfs.
  pose proof (fixed_part _ a _ _ Hfs0 Hbin fs Hfs) as F.
  specialize (Hobj a). rewrite Hm2. cbn [objective].
  rewrite <- Hdd, <- Hx, <- Hcd in Hobj.
  apply Qabs_Qle_condition in V. apply Qabs_Qle_condition.
  destruct V as [V1 V2]. split; lra.
Qed.

Lemma cost_breakdown_consistency_witness :
  total_cost (Examples.solved Examples.uncapped_extracted)
  = fixed_cost (Examples.solved Examples.uncapped_extracted)
    + variable_cost (Examples.solved Examples.uncapped_extracted).
Proof.
  destruct (cost_breakdown_consistency Examples.cbc_all_from_A None "Standard"
              Examples.network Examples.uncapped
              (Examples.built Examples.uncapped_extracted)
              (Examples.problem_of Examples.uncapped)
              300%Z (Examples.solved Examples.uncapped_extracted))
    as (fs & _ & _ & _ & _ & Ht & _).
  - vm_compute. reflexivity.
  - vm_compute. reflexivity.
  - repeat constructor; simpl; intuition discriminate.
  - vm_compute. reflexivity.
  - intros w [<- | [<- | []]]; [right | left]; reflexivity.
  - exact Ht.
Defined.

(** C6 does not hold as stated.  In the tiny network the
    only feasible assignment ships 1/128 of a unit to C2 at 1,280,000 per
    unit.  The solve succeeds; the flow is below the 0.01 threshold, so its
    cost of 10,000 is in the objective value but not in the total cost. *)
Lemma total_cost_misses_small_flows :
  solve Examples.cbc_tiny 300 Examples.tiny_model
  = Ok (Some (Examples.solved Examples.tiny_extracted),
        Examples.built Examples.tiny_extracted) /\
  satisfies Examples.tiny_model Examples.tiny_flows = true /\
  total_cost (Examples.solved Examples.tiny_extracted) == 1010 /\
  objective_value (Examples.solved Examples.tiny_extracted) == 11010 /\
  ~ Qabs (total_cost (Examples.solved Examples.tiny_extracted)
          - objective_value (Examples.solved Examples.tiny_extracted))
    <= 1 # 1000.
Proof.
  split; [vm_compute; reflexivity |].
  split; [vm_compute; reflexivity |].
  split; [vm_compute; reflexivity |].
  split; [vm_compute; reflexivity |].
  vm_compute. intro H. apply H. reflexivity.
Qed.

(** C8, as the code has it.  After a successful solve of a built model
    (distinct warehouse names) whose values satisfy the demand equality
    constraints and the lower bound 0 of the flows, the 'shipments' of the
    rows of a customer with nonzero demand add up to its demand up to 0.01
    per candidate warehouse: each warehouse's flow is either rounded to 2
    decimals or, when at most 0.01, left out of the route list. *)
Theorem demand_conservation_bound (cbc : Solver) (cap : option Z)
  (lvl : string) (self self' final : NetworkOptimizer) (t : Z) (s : Solution)
  (c : string) (d : Q) :
  build_model cap lvl self = Ok self' ->
  NoDup (warehouses self) ->
  solve cbc t self' = Ok (Some s, final) ->
  (forall c' d', Py.get String.eqb (demand_dict self') c' = Some d' ->
     holds (varValue final) (demand_constraint (warehouses self) c' d') = true) ->
  (forall w c', In (w, c') (x self') ->
                0 <= varValue final (shipment w c')) ->
  Py.get String.eqb (demand_dict self') c = Some d ->
  ~ d == 0 ->
  Qabs (Py.sum (map rt_shipments
                  (filter (fun r => (rt_customer r =? c)%string)
                     (Pd.rows (routes s))))
        - d)
  <= (1 # 100) * inject_Z (Z.of_nat (List.length (warehouses self))).
Proof.
  intros Hb Hnd Hsolve Hdem Hlb Hget _.
  destruct (solve_inv _ _ _ _ _ Hsolve)
    as (m & st & a & _ & _ & _ & Hex & Hsol & Hval).
  rewrite Hval in *.
  pose proof (x_is_routes _ _ _ _ Hb Hnd) as Hx.
  destruct (build_model_inv _ _ _ _ Hb)
    as (_ & _ & _ & _ & _ & _ & Hdd & _).
  destruct (extract_solution_inv _ _ Hex) as (fs & m' & _ & _ & _ & Hs).
  rewrite Hsol in Hs. injection Hs as ->. cbn [routes].
  rewrite rows_of_records.
  cbn [with_solver_output x]. rewrite Hx.
  assert (Hin : In c (Py.keys (demand_dict self'))).
  { eapply DictFacts.get_some_in_keys; [exact String.eqb_eq | exact Hget]. }
  rewrite rows_of_customer;
    [| rewrite Hdd; apply NoDup_keys_make_demand_dict | exact Hin].
  pose proof (shipments_near_flows (with_solver_output self' st a) c
                (warehouses self)) as B.
  cbn [with_solver_output varValue] in B.
  assert (Hpos : forall w, In w (warehouses self) -> 0 <= a (shipment w c)).
  { intros w Hw. apply Hlb. rewrite Hx. apply in_make_routes.
    split; [exact Hw | exact Hin]. }
  specialize (B Hpos).
  pose proof (proj1 (holds_demand_constraint a (warehouses self) c d)
                (Hdem c d Hget)) as D.
  apply Qabs_Qle_condition in B. apply Qabs_Qle_condition.
  destruct B as [B1 B2]. split; lra.
Qed.

Lemma demand_conservation_bound_witness :
  Qabs (Py.sum (map rt_shipments
                  (filter (fun r => (rt_customer r =? "C2")%string)
                     (Pd.rows (routes (Examples.solved
                                         Examples.uncapped_extracted)))))
        - 50)
  <= (1 # 100) * inject_Z (Z.of_nat (List.length (warehouses Examples.network))).
Proof.
  apply (demand_conservation_bound Examples.cbc_all_from_A None "Standard"
           Examples.network Examples.uncapped
           (Examples.built Examples.uncapped_extracted) 300%Z).
  - vm_compute. reflexivity.
  - repeat constructor; simpl; intuition discriminate.
  - vm_compute. reflexivity.
  - intros c' d' H.
    assert (K : In c' (Py.keys (demand_dict Examples.uncapped))).
    { eapply DictFacts.get_some_in_keys; [exact String.eqb_eq | exact H]. }
    destruct K as [<- | [<- | [<- | []]]]; vm_compute in H;
      injection H as <-; vm_compute; reflexivity.
  - intros w c' [E | [E | [E | [E | [E | [E | []]]]]]];
      injection E as <- <-; vm_compute; discriminate.
  - vm_compute. reflexivity.
  - vm_compute. discriminate.
Defined.

(** C8 does not hold as stated.  In the tiny network the
    solve succeeds with the values that satisfy the model, customer C2 has
    demand 1/128 > 0, and its flow 1/128 is below the 0.01 threshold: C2
    has no row in the route list, so its shipments add up to 0, which is
    further than 1e-3 from its demand. *)
Lemma small_demand_is_not_conserved :
  solve Examples.cbc_tiny 300 Examples.tiny_model
  = Ok (Some (Examples.solved Examples.tiny_extracted),
        Examples.built Examples.tiny_extracted) /\
  satisfies Examples.tiny_model Examples.tiny_flows = true /\
  Py.get String.eqb (demand_dict Examples.tiny_model) "C2" = Some (1 # 128) /\
  filter (fun r => (rt_customer r =? "C2")%string)
    (Pd.rows (routes (Examples.solved Examples.tiny_extracted))) = [] /\
  ~ Qabs (Py.sum (map rt_shipments
                    (filter (fun r => (rt_customer r =? "C2")%string)
                       (Pd.rows (routes (Examples.solved
                                           Examples.tiny_extracted)))))
          - (1 # 128))
    <= 1 # 1000.
Proof.
  split; [vm_compute; reflexivity |].
  split; [vm_compute; reflexivity |].
  split; [vm_compute; reflexivity |].
  split; [vm_compute; reflexivity |].
  vm_compute. intro H. apply H. reflexivity.
Qed.

(** C10.  An empty route list.  When the solver ends Optimal or Feasible
    and no flow of a key of [x] exceeds 0.01, the route list is empty, the
    frame built from it has no 'total_cost' column, and [extract_solution]
    raises instead of returning a solution with no routes; so does [solve].
    When every candidate has a fixed cost, the exception is the
    [KeyError] of that column. *)
Theorem empty_route_list_raises (cbc : Solver) (t : Z)
  (self : NetworkOptimizer) (m : LpProblem) (st : LpStatus) (a : assignment) :
  model self = Some m ->
  cbc t m = (st, a) ->
  st = Optimal \/ st = Feasible ->
  (forall wc, In wc (x self) -> a (shipment (fst wc) (snd wc)) <= 1 # 100) ->
  (exists e, extract_solution (with_solver_output self st a) = Raise e) /\
  (exists e, solve cbc t self = Raise e) /\
  (incl (warehouses self) (Py.keys (fixed_cost_dict self)) ->
   extract_solution (with_solver_output self st a)
   = Raise (KeyError "total_cost") /\
   solve cbc t self = Raise (KeyError "total_cost")).
Proof.
  intros Hm Hc Hst Hflow.
  pose proof (no_significant_flow (with_solver_output self st a) (x self) Hflow)
    as Hempty.
  destruct (extract_solution_empty (with_solver_output self st a) Hempty)
    as [[e He] Hkey].
  assert (Hsolve : forall e', extract_solution (with_solver_output self st a)
                              = Raise e' -> solve cbc t self = Raise e').
  { intros e' He'. unfold solve. rewrite Hm, Hc.
    destruct Hst as [-> | ->]; rewrite He'; reflexivity. }
  split; [exists e; exact He |].
  split; [exists e; apply Hsolve; exact He |].
  intro Hfd. specialize (Hkey Hfd).
  split; [exact Hkey | apply Hsolve; exact Hkey].
Qed.

Lemma empty_route_list_raises_witness :
  solve Examples.cbc_idle 300 Examples.idle_model
  = Raise (KeyError "total_cost").
Proof.
  refine (proj2 (proj2 (proj2
            (empty_route_list_raises Examples.cbc_idle 300 Examples.idle_model
               (Examples.problem_of Examples.idle_model)
               Optimal Examples.no_flows _ _ _ _)) _)).
  - vm_compute. reflexivity.
  - reflexivity.
  - left. reflexivity.
  - intros wc _. vm_compute. discriminate.
  - intros w Hw. vm_compute in Hw. vm_compute. exact Hw.
Defined.

(* ===================================================================== *)
(** ** The scenario sweep *)
(* ===================================================================== *)

(** C9.  Selection.  When the sweep over the caps 2..8 ends with a
    non-empty list of records, [compare_scenarios] returns the table of
    these records, which are in increasing cap order, and reports as
    optimal a record of the table whose total cost is minimal; every record
    before it in the table has a strictly greater total cost, so among
    records of minimal cost the first in cap order is chosen. *)
Theorem optimal_is_first_minimum (cbc : Solver) (self final : NetworkOptimizer)
  (scenarios : list Scenario) :
  sweep cbc scenario_caps ([], self) = Ok (scenarios, final) ->
  scenarios <> [] ->
  exists opt i,
    compare_scenarios cbc self
    = Ok ({| scenario_df := Pd.of_records scenario_fields scenarios;
             optimal := opt |}, final) /\
    Pd.rows (Pd.of_records scenario_fields scenarios) = scenarios /\
    StronglySorted Z.lt (map sc_max_warehouses scenarios) /\
    nth_error scenarios i = Some opt /\
    (forall r, In r scenarios -> sc_total_cost opt <= sc_total_cost r) /\
    (forall k r, (k < i)%nat -> nth_error scenarios k = Some r ->
                 sc_total_cost opt < sc_total_cost r).
Proof.
  intros Hsw Hne.
  destruct (idxmin_spec (map sc_total_cost scenarios))
    as (j & vj & Hj & Hn & Hmin & Hfirst).
  { destruct scenarios; [contradiction Hne; reflexivity | discriminate]. }
  rewrite nth_error_map in Hn.
  destruct (nth_error scenarios j) as [opt |] eqn:Eo; [| discriminate].
  simpl in Hn. injection Hn as <-.
  exists opt, j. split.
  { unfold compare_scenarios. rewrite Hsw. cbn [Py.bind fst snd].
    destruct scenarios as [| r0 rest]; [contradiction Hne; reflexivity |].
    unfold Pd.getitem. cbn [Pd.of_records Pd.columns Pd.rows].
    replace (existsb (String.eqb "total_cost") scenario_fields) with true
      by reflexivity.
    cbn [Py.bind]. rewrite Hj. cbn [Py.bind].
    unfold Pd.iloc. cbn [Pd.rows]. rewrite Eo. reflexivity. }
  split; [apply rows_of_records |].
  split.
  { eapply (sweep_sorted cbc scenario_caps); [| | | exact Hsw].
    - unfold scenario_caps. repeat constructor.
    - constructor.
    - intros r n []. }
  split; [exact Eo |].
  split.
  - intros r Hr. apply Hmin. apply in_map. exact Hr.
  - intros k r Hk Hr. apply (Hfirst k); [exact Hk |].
    rewrite nth_error_map, Hr. reflexivity.
Qed.

Lemma optimal_is_first_minimum_witness :
  exists opt,
    In opt Examples.swept_rows /\
    forall r, In r Examples.swept_rows -> sc_total_cost opt <= sc_total_cost r.
Proof.
  destruct (optimal_is_first_minimum Examples.cbc_all_from_A Examples.network
              Examples.swept_final Examples.swept_rows)
    as (opt & i & _ & _ & _ & Hn & Hmin & _).
  - vm_compute. reflexivity.
  - vm_compute. discriminate.
  - exists opt. split; [eapply nth_error_In; exact Hn | exact Hmin].
Defined.

(* ===================================================================== *)
(** ** Where the code departs from its description *)
(* ===================================================================== *)

(** C1.  Cap of zero.  On the example network, whose customers have
    positive demand, [build_model] with a cap of 0 returns exactly the
    uncapped model: the test [if max_warehouses:] is false for 0, so no
    "Max_Warehouses" constraint is added.  The assignment that opens
    warehouse A satisfies this model, and a solve that ends Optimal with it
    returns a solution with one open warehouse and a positive cost: the
    model is not infeasible. *)
Theorem cap_zero_model_is_feasible :
  build_model (Some 0%Z) "Standard" Examples.network
  = build_model None "Standard" Examples.network /\
  Py.get String.eqb (demand_dict Examples.capped_at_zero) "C1" = Some 100 /\
  (forall m c, model Examples.capped_at_zero = Some m ->
               In c (constraints m) -> c_name c <> "Max_Warehouses") /\
  satisfies Examples.capped_at_zero Examples.all_from_A = true /\
  exists s final,
    solve Examples.cbc_all_from_A 300 Examples.capped_at_zero
    = Ok (Some s, final) /\
    open_warehouses s = ["A"] /\ num_warehouses s = 1%nat /\
    0 < total_cost s.
Proof.
  split; [reflexivity |].
  split; [vm_compute; reflexivity |].
  split.
  { intros m c Hm Hc. vm_compute in Hm. injection Hm as <-.
    simpl in Hc.
    repeat (destruct Hc as [<- | Hc]; [discriminate |]). contradiction. }
  split; [vm_compute; reflexivity |].
  exists (Examples.solved Examples.uncapped_extracted),
         (Examples.built Examples.uncapped_extracted).
  split; [vm_compute; reflexivity |].
  split; [vm_compute; reflexivity |].
  split; [vm_compute; reflexivity |].
  vm_compute. reflexivity.
Qed.

(** C2.  Stale record.  The main script solves the uncapped model with the
    default budget of 300 seconds and then runs the sweep, whose solves get
    60 seconds.  With a solver that needs the full 300 seconds, every solve
    of the sweep ends NotSolved; yet the comparison table has a record for
    each of the caps 2..8, all of them copies of the solution of the first
    solve, and the first of them is reported as optimal. *)
Theorem failed_caps_get_stale_records :
  (forall m, fst (Examples.cbc_slow 60%Z m) = NotSolved) /\
  (exists s0, solution Examples.after_first_solve = Some s0 /\
     Forall (fun r => sc_total_cost r = total_cost s0 /\
                      sc_fixed_cost r = fixed_cost s0 /\
                      sc_variable_cost r = variable_cost s0 /\
                      sc_actual_warehouses r = num_warehouses s0)
       (Examples.table
          (compare_scenarios Examples.cbc_slow Examples.after_first_solve))) /\
  map sc_max_warehouses
    (Examples.table
       (compare_scenarios Examples.cbc_slow Examples.after_first_solve))
  = [2; 3; 4; 5; 6; 7; 8]%Z /\
  option_map sc_max_warehouses
    (Examples.reported
       (compare_scenarios Examples.cbc_slow Examples.after_first_solve))
  = Some 2%Z.
Proof.
  split; [intro m; reflexivity |].
  split.
  { exists (Examples.solved Examples.uncapped_extracted).
    split; [vm_compute; reflexivity |].
    vm_compute. repeat constructor. }
  split; vm_compute; reflexivity.
Qed.

(* ===================================================================== *)
(** ** Further properties of the model *)
(* ===================================================================== *)

(** X1.  Cap respected.  When [build_model] is given a cap other than 0,
    every assignment that satisfies the constraints of the model with 0/1
    open indicators is extracted into a solution whose number of open
    warehouses is at most the cap. *)
Theorem nonzero_cap_bounds_open_warehouses (n : Z) (lvl : string)
  (self self' self'' : NetworkOptimizer) (m : LpProblem) (st : LpStatus)
  (a : assignment) (s : Solution) :
  n <> 0%Z ->
  build_model (Some n) lvl self = Ok self' ->
  model self' = Some m ->
  (forall cs, In cs (constraints m) -> holds a cs = true) ->
  (forall w, In w (warehouses self) ->
             a (warehouse_open w) == 0 \/ a (warehouse_open w) == 1) ->
  extract_solution (with_solver_output self' st a) = Ok self'' ->
  solution self'' = Some s ->
  (Z.of_nat (num_warehouses s) <= n)%Z /\
  num_warehouses s = List.length (open_warehouses s).
Proof.
  intros Hn Hb Hm Hcs Hbin Hex Hsol.
  pose proof (nonzero_cap_is_enforced n lvl self self' m Hn Hb Hm) as Hin.
  pose proof (Hcs _ Hin) as Hcap.
  apply holds_max_warehouses_constraint in Hcap.
  destruct (build_model_keeps_tables _ _ _ _ Hb) as (_ & _ & _ & Hws & _).
  destruct (extract_solution_inv _ _ Hex) as (fs & m' & _ & _ & _ & Hs).
  rewrite Hsol in Hs. injection Hs as ->.
  cbn [num_warehouses open_warehouses with_solver_output warehouses varValue].
  split; [| reflexivity].
  rewrite Hws, Zle_Qle.
  rewrite <- (indicators_count_open a (warehouses self) Hbin). exact Hcap.
Qed.

Lemma nonzero_cap_bounds_open_warehouses_witness :
  (Z.of_nat (num_warehouses (Examples.solved Cases.capped_at_two_extracted))
   <= 2)%Z /\
  num_warehouses (Examples.solved Cases.capped_at_two_extracted)
  = List.length
      (open_warehouses (Examples.solved Cases.capped_at_two_extracted)).
Proof.
  apply (nonzero_cap_bounds_open_warehouses 2 "Standard" Examples.network
           Cases.capped_at_two (Examples.built Cases.capped_at_two_extracted)
           (Examples.problem_of Cases.capped_at_two) Optimal
           Examples.all_from_A).
  - discriminate.
  - vm_compute. reflexivity.
  - vm_compute. reflexivity.
  - apply forallb_forall. vm_compute. reflexivity.
  - intros w [<- | [<- | []]]; [right | left]; reflexivity.
  - vm_compute. reflexivity.
  - vm_compute. reflexivity.
Defined.

(** X2.  Negative cap.  A negative cap is enforced like any nonzero cap,
    and no assignment satisfies the model built with it: the 0/1
    indicators cannot add up to a negative number. *)
Theorem negative_cap_is_infeasible (n : Z) (lvl : string)
  (self self' : NetworkOptimizer) (a : assignment) :
  (n < 0)%Z ->
  build_model (Some n) lvl self = Ok self' ->
  satisfies self' a = false.
Proof.
  intros Hn Hb.
  destruct (satisfies self' a) eqn:Hsat; [| reflexivity]. exfalso.
  destruct (satisfies_inv _ _ Hsat) as (m & Hm & Hcs & Hy & _).
  assert (Hn0 : n <> 0%Z) by lia.
  pose proof (Hcs _ (nonzero_cap_is_enforced n lvl self self' m Hn0 Hb Hm))
    as Hcap.
  apply holds_max_warehouses_constraint in Hcap.
  destruct (build_model_inv _ _ _ _ Hb)
    as (_ & _ & _ & _ & _ & _ & _ & _ & _ & _ & Hyk & _).
  assert (Hbin : forall w, In w (warehouses self) ->
            a (warehouse_open w) == 0 \/ a (warehouse_open w) == 1).
  { intros w Hw. apply Hy. rewrite Hyk.
    apply (DictFacts.unique_in String.eqb String.eqb_eq). exact Hw. }
  pose proof (indicators_nonneg a (warehouses self) Hbin) as Hpos.
  assert (Hneg : inject_Z n < 0).
  { change 0 with (inject_Z 0). rewrite <- Zlt_Qlt. exact Hn. }
  lra.
Qed.

Lemma negative_cap_is_infeasible_witness :
  satisfies Cases.capped_below_zero Examples.all_from_A = false.
Proof.
  apply (negative_cap_is_infeasible (-1) "Standard" Examples.network).
  - reflexivity.
  - vm_compute. reflexivity.
Defined.

(** X3.  No candidate warehouse.  When the warehouse list is empty and some
    customer of the demand mapping has nonzero demand, no assignment
    satisfies the built model: the customer's inbound flows are an empty
    sum. *)
Theorem no_warehouse_is_infeasible (cap : option Z) (lvl : string)
  (self self' : NetworkOptimizer) (c : string) (d : Q) (a : assignment) :
  build_model cap lvl self = Ok self' ->
  warehouses self = [] ->
  Py.get String.eqb (demand_dict self') c = Some d ->
  ~ d == 0 ->
  satisfies self' a = false.
Proof.
  intros Hb Hws Hget Hd.
  destruct (satisfies self' a) eqn:Hsat; [| reflexivity]. exfalso.
  destruct (satisfies_inv _ _ Hsat) as (m & Hm & Hcs & _).
  destruct (build_model_inv _ _ _ _ Hb)
    as (obj & c1 & _ & Hc1 & Hm' & _ & Hdd & _).
  rewrite Hm in Hm'. injection Hm' as ->.
  rewrite Hdd in Hget.
  pose proof (in_demand_constraints _ _ _ _ _ Hc1 Hget) as Hin.
  assert (Hh : holds a (demand_constraint (warehouses self) c d) = true).
  { apply Hcs. simpl. apply in_or_app. left. exact Hin. }
  apply holds_demand_constraint in Hh. rewrite Hws in Hh.
  simpl in Hh. apply Hd. rewrite <- Hh. reflexivity.
Qed.

Lemma no_warehouse_is_infeasible_witness :
  satisfies Cases.no_warehouse_model Examples.no_flows = false.
Proof.
  apply (no_warehouse_is_infeasible None "Standard" Cases.no_warehouse_network
           Cases.no_warehouse_model "C1" 100).
  - vm_compute. reflexivity.
  - reflexivity.
  - vm_compute. reflexivity.
  - vm_compute. discriminate.
Defined.

(** X4.  Feasibility.  With distinct warehouse names, at least one
    candidate warehouse, non-negative demand rows at the service level and
    a cap that is absent or not negative, the built model has a satisfying
    assignment: open one warehouse and ship every customer's whole demand
    from it.  (A cap of 0 counts, since it adds no constraint.) *)
Theorem one_warehouse_serves_all (cap : option Z) (lvl : string)
  (self self' : NetworkOptimizer) (w0 : string) :
  build_model cap lvl self = Ok self' ->
  NoDup (warehouses self) ->
  In w0 (warehouses self) ->
  (forall r, In r (demand_df self) -> dm_service_level r = lvl ->
             0 <= dm_demand r) ->
  match cap with Some n => (0 <= n)%Z | None => True end ->
  satisfies self' (serve_all_from w0 (demand_dict self')) = true.
Proof.
  intros Hb Hnd Hw0 Hpos Hcap.
  destruct (build_model_inv _ _ _ _ Hb)
    as (obj & c1 & _ & Hc1 & Hm & _ & Hdd & _ & _ & Hx & Hy & _).
  set (dd := make_demand_dict lvl (demand_df self)) in *.
  rewrite Hdd.
  assert (Hval : forall c d, Py.get String.eqb dd c = Some d ->
            Py.get_default String.eqb dd c 0 = d).
  { intros c d H. unfold Py.get_default. rewrite H. reflexivity. }
  assert (Hone : Py.sum (map (fun w => serve_all_from w0 dd (warehouse_open w))
                           (warehouses self)) == 1).
  { apply (sum_single (warehouses self) w0 1 Hnd Hw0). }
  apply (satisfies_intro self' _ _ Hm).
  - intros cs Hin. cbn [constraints] in Hin.
    apply in_app_or in Hin. destruct Hin as [Hin | Hin].
    + destruct (demand_constraints_inv _ _ _ _ Hc1 Hin) as (c & d & Hget & ->).
      apply holds_demand_constraint. cbn [serve_all_from].
      rewrite (Hval c d Hget). apply sum_single; assumption.
    + apply in_app_or in Hin. destruct Hin as [Hin | Hin].
      * destruct (in_capacity_constraints _ _ _ _ Hin)
          as (w & c & Hw & Hc & ->).
        apply holds_capacity_constraint. cbn [serve_all_from].
        pose proof (sum_nonneg _ (demand_values_nonneg lvl _ Hpos)) as HM.
        fold dd in HM.
        destruct (w =? w0)%string; [| lra].
        destruct (DictFacts.get_in_keys String.eqb String.eqb_eq dd c Hc)
          as [d Hget].
        rewrite (Hval c d Hget).
        assert (Hle : d <= Py.sum (Py.values dd)).
        { apply elem_le_sum; [apply demand_values_nonneg; exact Hpos |].
          apply in_map_iff. exists (c, d). split; [reflexivity |].
          eapply get_some_in; [exact String.eqb_eq | exact Hget]. }
        lra.
      * unfold max_warehouses_constraints in Hin.
        destruct cap as [n |]; [| contradiction].
        unfold Py.truthy in Hin.
        destruct (n =? 0)%Z eqn:E0; simpl in Hin; [contradiction |].
        destruct Hin as [<- | []].
        apply holds_max_warehouses_constraint. rewrite Hone.
        apply Z.eqb_neq in E0.
        assert (H1 : (1 <= n)%Z) by lia.
        change 1 with (inject_Z 1). rewrite <- Zle_Qle. exact H1.
  - intros w _. cbn [serve_all_from].
    destruct (w =? w0)%string; [right | left]; reflexivity.
  - intros [w c] _. cbn [serve_all_from fst snd].
    destruct (w =? w0)%string; [| lra].
    unfold Py.get_default.
    destruct (Py.get String.eqb dd c) as [d |] eqn:Hget; [| lra].
    eapply demand_entries_nonneg; [exact Hpos | exact Hget].
Qed.

Lemma one_warehouse_serves_all_witness :
  satisfies Examples.capped_at_zero
    (serve_all_from "B" (demand_dict Examples.capped_at_zero)) = true.
Proof.
  apply (one_warehouse_serves_all (Some 0%Z) "Standard" Examples.network).
  - vm_compute. reflexivity.
  - repeat constructor; simpl; intuition discriminate.
  - right. left. reflexivity.
  - intros r [<- | [<- | [<- | [<- | [<- | []]]]]] _; vm_compute; discriminate.
  - vm_compute. discriminate.
Defined.

(** X5.  Demand mapping.  The demand dict built by [build_model] has a
    key for exactly the customers that have at least one demand row at the
    service level, whatever the demand of the row; its keys are in strictly
    ascending order, hence distinct. *)
Theorem demand_mapping_keys (cap : option Z) (lvl : string)
  (self self' : NetworkOptimizer) :
  build_model cap lvl self = Ok self' ->
  (forall c, In c (Py.keys (demand_dict self')) <->
             exists r, In r (demand_df self) /\ dm_service_level r = lvl /\
                       dm_city r = c) /\
  StronglySorted slt (Py.keys (demand_dict self')) /\
  NoDup (Py.keys (demand_dict self')).
Proof.
  intro Hb.
  destruct (build_model_inv _ _ _ _ Hb) as (_ & _ & _ & _ & _ & _ & Hdd & _).
  rewrite Hdd. split; [intro c; apply keys_make_demand_dict |].
  split; [apply DictFacts.groupby_sum_sorted |].
  apply NoDup_keys_make_demand_dict.
Qed.

Lemma demand_mapping_keys_witness :
  Py.keys (demand_dict Examples.uncapped) = ["C1"; "C2"; "C3"] /\
  NoDup (Py.keys (demand_dict Examples.uncapped)).
Proof.
  split; [vm_compute; reflexivity |].
  apply (demand_mapping_keys None "Standard" Examples.network Examples.uncapped).
  vm_compute. reflexivity.
Defined.

(** X6.  Decision variables.  Whenever [build_model] returns, the keys of
    the open indicators it stores are the names of the warehouse list, each
    once, and the keys of the flow variables are the pairs of a name of the
    warehouse list and a city with a demand row at the service level, each
    once; customers without a demand row at the service level get no flow
    variable. *)
Theorem decision_variable_keys (cap : option Z) (lvl : string)
  (self self' : NetworkOptimizer) :
  build_model cap lvl self = Ok self' ->
  NoDup (y self') /\
  (forall w, In w (y self') <-> In w (warehouses self)) /\
  NoDup (x self') /\
  (forall w c, In (w, c) (x self') <->
               In w (warehouses self) /\
               exists r, In r (demand_df self) /\
                         dm_service_level r = lvl /\ dm_city r = c).
Proof.
  intro Hb.
  destruct (build_model_inv _ _ _ _ Hb)
    as (_ & _ & _ & _ & _ & _ & _ & _ & _ & Hx & Hy & _).
  rewrite Hx, Hy.
  split; [apply (NoDup_unique String.eqb String.eqb_eq) |].
  split; [intro w; apply (DictFacts.unique_in String.eqb String.eqb_eq) |].
  split; [apply (NoDup_unique Py.pair_eqb DictFacts.pair_eqb_eq) |].
  intros w c.
  rewrite (DictFacts.unique_in Py.pair_eqb DictFacts.pair_eqb_eq).
  rewrite in_make_routes, keys_make_demand_dict. reflexivity.
Qed.

Lemma decision_variable_keys_witness :
  NoDup (x Examples.uncapped) /\
  (In ("B", "C3") (x Examples.uncapped) <->
   In "B" (warehouses Examples.network) /\
   exists r, In r (demand_df Examples.network) /\
             dm_service_level r = "Standard" /\ dm_city r = "C3").
Proof.
  destruct (decision_variable_keys None "Standard" Examples.network
              Examples.uncapped) as (_ & _ & Hnd & Hx).
  - vm_compute. reflexivity.
  - split; [exact Hnd | exact (Hx "B" "C3")].
Defined.

(** X7.  Repeated lane.  When the cost matrix has several rows for the
    same warehouse and customer at the service level, the cost dict holds
    the unit cost of the last of them. *)
Theorem last_cost_row_wins (cap : option Z) (lvl : string)
  (self self' : NetworkOptimizer) (before after : list DistanceRow)
  (r : DistanceRow) :
  build_model cap lvl self = Ok self' ->
  distance_df self = (before ++ r :: after)%list ->
  ds_service_level r = lvl ->
  (forall r', In r' after -> ds_service_level r' = lvl ->
              ds_warehouse r' = ds_warehouse r ->
              ds_customer_city r' <> ds_customer_city r) ->
  Py.get Py.pair_eqb (cost_dict self') (ds_warehouse r, ds_customer_city r)
  = Some (ds_transport_cost_per_shipment r).
Proof.
  intros Hb Hdf Hl Hafter.
  destruct (build_model_inv _ _ _ _ Hb)
    as (_ & _ & _ & _ & _ & _ & _ & Hcd & _).
  rewrite Hcd. unfold make_cost_dict. rewrite Hdf, filter_app.
  cbn [filter]. rewrite (proj2 (String.eqb_eq _ _) Hl).
  rewrite <- (fold_left_on_map
                (fun d kv => Py.setitem Py.pair_eqb d (fst kv) (snd kv))
                (fun row => ((ds_warehouse row, ds_customer_city row),
                             ds_transport_cost_per_shipment row))).
  rewrite map_app. cbn [map].
  apply (get_fold_setitem_last Py.pair_eqb DictFacts.pair_eqb_eq).
  rewrite map_map. cbn [fst]. intro H.
  apply in_map_iff in H. destruct H as [r' [E Hr']].
  apply filter_In in Hr'. destruct Hr' as [Hr' Hl'].
  injection E as Ew Ec.
  exact (Hafter r' Hr' (proj1 (String.eqb_eq _ _) Hl') Ew Ec).
Qed.

Lemma last_cost_row_wins_witness :
  Py.get Py.pair_eqb
    (cost_dict (Examples.built
                  (build_model None "Standard" Cases.repeated_lane_network)))
    ("A", "C1")
  = Some 9.
Proof.
  apply (last_cost_row_wins None "Standard" Cases.repeated_lane_network
           (Examples.built
              (build_model None "Standard" Cases.repeated_lane_network))
           [ mkDistanceRow "A" "C1" "Standard" 2;
             mkDistanceRow "A" "C2" "Standard" 3 ]
           [ mkDistanceRow "A" "C1" "Express" 20 ]
           (mkDistanceRow "A" "C1" "Standard" 9)).
  - vm_compute. reflexivity.
  - reflexivity.
  - reflexivity.
  - intros r' [<- | []] Hl. discriminate Hl.
Defined.

(** X8.  Stored solutions.  A solution stored by [extract_solution] always
    has at least one route; every route of it has a 'shipments' value of at
    least 0.01, and its total cost is its fixed cost plus its variable
    cost.  When no unit cost of the cost dict is negative, no route has a
    negative unit cost or line cost and the variable cost is not
    negative. *)
Theorem stored_solution_routes (self self' : NetworkOptimizer) (s : Solution) :
  extract_solution self = Ok self' ->
  solution self' = Some s ->
  Pd.rows (routes s) <> [] /\
  (forall r, In r (Pd.rows (routes s)) -> 1 # 100 <= rt_shipments r) /\
  total_cost s = fixed_cost s + variable_cost s /\
  ((forall wc q, Py.get Py.pair_eqb (cost_dict self) wc = Some q -> 0 <= q) ->
   (forall r, In r (Pd.rows (routes s)) ->
              0 <= rt_cost_per_shipment r /\ 0 <= rt_total_cost r) /\
   0 <= variable_cost s /\ fixed_cost s <= total_cost s).
Proof.
  intros Hex Hsol.
  destruct (extract_solution_inv _ _ Hex) as (fs & m & _ & Hne & _ & Hs).
  rewrite Hsol in Hs. injection Hs as ->.
  cbn [routes total_cost fixed_cost variable_cost].
  rewrite rows_of_records.
  split; [exact Hne |].
  assert (Hrow : forall r, In r (flat_map (route_of self) (x self)) ->
            exists wc, 1 # 100 < varValue self (shipment (fst wc) (snd wc)) /\
                       r = stamp self wc).
  { intros r Hr. apply in_flat_map in Hr. destruct Hr as [wc [_ Hr]].
    exists wc. apply in_route_of. exact Hr. }
  split.
  { intros r Hr. destruct (Hrow r Hr) as [wc [Hflow ->]].
    cbn [stamp rt_shipments].
    pose proof (round2_lower 1 (varValue self (shipment (fst wc) (snd wc))))
      as L.
    change (inject_Z 1) with 1 in L.
    assert (H1 : 1 <= varValue self (shipment (fst wc) (snd wc)) * 100) by lra.
    specialize (L H1). lra. }
  split; [reflexivity |].
  intro Hcost.
  assert (Hdef : forall wc,
            0 <= Py.get_default Py.pair_eqb (cost_dict self) wc 0).
  { intro wc. unfold Py.get_default.
    destruct (Py.get Py.pair_eqb (cost_dict self) wc) as [q |] eqn:E.
    - exact (Hcost wc q E).
    - lra. }
  assert (Hline : forall r, In r (flat_map (route_of self) (x self)) ->
            0 <= rt_cost_per_shipment r /\ 0 <= rt_total_cost r).
  { intros r Hr. destruct (Hrow r Hr) as [wc [Hflow ->]].
    cbn [stamp rt_cost_per_shipment rt_total_cost].
    split; [apply Hdef |].
    pose proof (round2_lower 0
                  (varValue self (shipment (fst wc) (snd wc))
                   * Py.get_default Py.pair_eqb (cost_dict self) wc 0)) as L.
    change (inject_Z 0) with 0 in L.
    assert (H0 : 0 <= varValue self (shipment (fst wc) (snd wc))
                      * Py.get_default Py.pair_eqb (cost_dict self) wc 0 * 100).
    { pose proof (Hdef wc) as Hc.
      assert (Hf : 0 <= varValue self (shipment (fst wc) (snd wc))) by lra.
      pose proof (Qmult_le_0_compat _ _ Hf Hc). lra. }
    specialize (L H0). lra. }
  split; [exact Hline |].
  assert (Hvar : 0 <= Py.sum (map rt_total_cost
                                (flat_map (route_of self) (x self)))).
  { apply sum_nonneg. intros q Hq. apply in_map_iff in Hq.
    destruct Hq as [r [<- Hr]]. apply Hline. exact Hr. }
  split; [exact Hvar | lra].
Qed.

Lemma stored_solution_routes_witness :
  Pd.rows (routes Cases.uncapped_solution) <> [] /\
  0 <= variable_cost Cases.uncapped_solution.
Proof.
  destruct (stored_solution_routes
              (with_solver_output Examples.uncapped Optimal Examples.all_from_A)
              (Examples.built Examples.uncapped_extracted)
              Cases.uncapped_solution)
    as (Hne & _ & _ & Hcost).
  - vm_compute. reflexivity.
  - vm_compute. reflexivity.
  - split; [exact Hne |]. apply Hcost.
    intros wc q H.
    apply (get_some_in Py.pair_eqb DictFacts.pair_eqb_eq) in H.
    vm_compute in H.
    repeat (destruct H as [H | H]; [injection H as <- <-; discriminate |]).
    contradiction.
Defined.

(* ===================================================================== *)
(** ** Further properties of the sweep *)
(* ===================================================================== *)

(** X9.  Once a solution is stored, every cap gets a record.  When
    [compare_scenarios] is called on an object that holds a solution and
    returns, its table has exactly one record per cap 2..8, in this order,
    whatever the statuses of the seven solves: neither [build_model] nor
    [solve] ever clears the stored solution. *)
Theorem stored_solution_fills_every_cap (cbc : Solver)
  (self final : NetworkOptimizer) (cmp : Comparison) :
  solution self <> None ->
  compare_scenarios cbc self = Ok (cmp, final) ->
  map sc_max_warehouses (Pd.rows (scenario_df cmp)) = [2; 3; 4; 5; 6; 7; 8]%Z /\
  solution final <> None.
Proof.
  intros Hs H. apply compare_scenarios_inv in H.
  destruct (sweep_some _ _ _ _ _ _ Hs H) as [Hmap Hfin].
  split; [exact Hmap | exact Hfin].
Qed.

Lemma stored_solution_fills_every_cap_witness :
  map sc_max_warehouses
    (Examples.table
       (compare_scenarios Examples.cbc_slow Examples.after_first_solve))
  = [2; 3; 4; 5; 6; 7; 8]%Z.
Proof.
  destruct (compare_scenarios Examples.cbc_slow Examples.after_first_solve)
    as [[cmp final] |] eqn:E; [| vm_compute in E; discriminate].
  cbn [Examples.table].
  apply (stored_solution_fills_every_cap Examples.cbc_slow
           Examples.after_first_solve final cmp).
  - vm_compute. discriminate.
  - exact E.
Defined.





(* ===================================================================== *)
(** ** Properties of the API handlers *)
(* ===================================================================== *)

(** X12.  A failed solve is never answered from old data.
    [run_optimization] works on a new optimizer object, so when the solver
    ends with a status other than Optimal or Feasible on the model built
    for the request, the handler raises the [HTTPException] with status 500
    whose detail is the text of its own "Optimization failed"
    exception. *)
Theorem run_optimization_failed_solve (cbc : Solver)
  (wf : list WarehouseRow) (df : list DemandRow) (sf : list DistanceRow)
  (request : Api.OptimizationRequest) (self1 : NetworkOptimizer)
  (m : LpProblem) :
  build_model (Api.rq_max_warehouses request) (Api.rq_service_level request)
    (load_data wf df sf init) = Ok self1 ->
  model self1 = Some m ->
  fails (fst (cbc 60%Z m)) ->
  Api.run_optimization cbc wf df sf request
  = Api.Failed
      (Api.HTTPException 500 (Api.StrOfHTTP 500 "Optimization failed")).
Proof.
  intros Hb Hm Hfail. unfold Api.run_optimization.
  rewrite Hb. cbn [Py.bind].
  rewrite (solve_failed cbc 60 self1 m Hm Hfail). cbn [Py.bind snd].
  cbn [with_solver_output solution].
  destruct (build_model_keeps_tables _ _ _ _ Hb) as (_ & _ & _ & _ & Hsol).
  rewrite Hsol. reflexivity.
Qed.

Lemma run_optimization_failed_solve_witness :
  Api.run_optimization Cases.cbc_never Examples.warehouse_table
    Examples.demand_table Examples.distance_table
    (Api.mkRequest (Some 3%Z) "Standard")
  = Api.Failed
      (Api.HTTPException 500 (Api.StrOfHTTP 500 "Optimization failed")).
Proof.
  apply (run_optimization_failed_solve Cases.cbc_never Examples.warehouse_table
           Examples.demand_table Examples.distance_table
           (Api.mkRequest (Some 3%Z) "Standard")
           (Examples.built (build_model (Some 3%Z) "Standard" Examples.network))
           (Examples.problem_of
              (Examples.built
                 (build_model (Some 3%Z) "Standard" Examples.network)))).
  - vm_compute. reflexivity.
  - vm_compute. reflexivity.
  - split; discriminate.
Defined.

(** X13.  What a response rests on.  When [run_optimization] returns a
    response, the solver ended Optimal or Feasible on the model built from
    the request; the open warehouses are the rows of the warehouse table
    whose indicator exceeds 0.5 and their number is the reported count; the
    total cost is fixed plus variable cost; savings plus total cost give
    the baseline of 22,667,407; and the route list is not empty, each route
    shipping at least 0.01. *)
Theorem run_optimization_response (cbc : Solver)
  (wf : list WarehouseRow) (df : list DemandRow) (sf : list DistanceRow)
  (request : Api.OptimizationRequest) (resp : Api.OptimizationResponse) :
  Api.run_optimization cbc wf df sf request = Api.Returned resp ->
  exists self1 m,
    build_model (Api.rq_max_warehouses request) (Api.rq_service_level request)
      (load_data wf df sf init) = Ok self1 /\
    model self1 = Some m /\
    (fst (cbc 60%Z m) = Optimal \/ fst (cbc 60%Z m) = Feasible) /\
    Api.rs_open_warehouses resp
    = filter (fun w => Py.gt (snd (cbc 60%Z m) (warehouse_open w)) (1 # 2))
        (map wr_warehouse wf) /\
    Api.rs_num_warehouses resp = List.length (Api.rs_open_warehouses resp) /\
    Api.rs_total_cost resp
    = Api.rs_fixed_cost resp + Api.rs_variable_cost resp /\
    Api.rs_annual_savings resp + Api.rs_total_cost resp == 22667407 /\
    Api.rs_routes resp <> [] /\
    forall r, In r (Api.rs_routes resp) -> 1 # 100 <= rt_shipments r.
Proof.
  unfold Api.run_optimization. intro H.
  destruct (build_model _ _ _) as [self1 |] eqn:Hb; cbn [Py.bind] in H;
    [| discriminate].
  destruct (solve cbc 60 self1) as [r |] eqn:Hsolve; cbn [Py.bind] in H;
    [| discriminate].
  destruct (solution (snd r)) as [s |] eqn:Hs; [| discriminate].
  injection H as <-.
  destruct (build_model_keeps_tables _ _ _ _ Hb) as (_ & _ & _ & Hws & Hsol).
  destruct (solve_fresh_inv cbc 60 self1 r s Hsol Hsolve Hs)
    as (m & Hm & Hst & Hex).
  exists self1, m. split; [reflexivity |]. split; [exact Hm |].
  split; [exact Hst |].
  destruct (extract_solution_inv _ _ Hex) as (fs & m' & _ & Hne & _ & Hs').
  rewrite Hs in Hs'. injection Hs' as ->.
  cbn [Api.rs_open_warehouses Api.rs_num_warehouses Api.rs_total_cost
       Api.rs_fixed_cost Api.rs_variable_cost Api.rs_annual_savings
       Api.rs_routes open_warehouses num_warehouses total_cost fixed_cost
       variable_cost routes with_solver_output warehouses varValue x].
  rewrite rows_of_records, Hws.
  split; [reflexivity |]. split; [reflexivity |]. split; [reflexivity |].
  split; [unfold Api.baseline_cost; lra |].
  split; [exact Hne |].
  intros r0 Hr0.
  exact (listed_shipments_lower
           (with_solver_output self1 (fst (cbc 60%Z m)) (snd (cbc 60%Z m)))
           r0 Hr0).
Qed.

Lemma run_optimization_response_witness :
  exists resp,
    Api.run_optimization Examples.cbc_all_from_A Examples.warehouse_table
      Examples.demand_table Examples.distance_table
      (Api.mkRequest None "Standard") = Api.Returned resp /\
    Api.rs_open_warehouses resp = ["A"] /\
    Api.rs_annual_savings resp + Api.rs_total_cost resp == 22667407.
Proof.
  destruct (Api.run_optimization Examples.cbc_all_from_A
              Examples.warehouse_table Examples.demand_table
              Examples.distance_table (Api.mkRequest None "Standard"))
    as [resp | f] eqn:E; [| vm_compute in E; discriminate].
  exists resp. split; [reflexivity |].
  destruct (run_optimization_response _ _ _ _ _ _ E)
    as (self1 & m & _ & Hm & _ & Hopen & _ & _ & Hsav & _).
  split; [| exact Hsav].
  rewrite Hopen. reflexivity.
Defined.

(** X14.  Nothing to ship.  When the solver ends Optimal or Feasible on the
    model built for the request but no flow exceeds 0.01, the handler does
    not answer with an empty route list: the [KeyError] of the missing
    'total_cost' column is turned into the [HTTPException] with status
    500. *)
Theorem run_optimization_nothing_to_ship (cbc : Solver)
  (wf : list WarehouseRow) (df : list DemandRow) (sf : list DistanceRow)
  (request : Api.OptimizationRequest) (self1 : NetworkOptimizer)
  (m : LpProblem) :
  build_model (Api.rq_max_warehouses request) (Api.rq_service_level request)
    (load_data wf df sf init) = Ok self1 ->
  model self1 = Some m ->
  fst (cbc 60%Z m) = Optimal \/ fst (cbc 60%Z m) = Feasible ->
  (forall wc, In wc (x self1) ->
              snd (cbc 60%Z m) (shipment (fst wc) (snd wc)) <= 1 # 100) ->
  Api.run_optimization cbc wf df sf request
  = Api.Failed (Api.HTTPException 500 (Api.StrOfExn (KeyError "total_cost"))).
Proof.
  intros Hb Hm Hst Hflow. unfold Api.run_optimization.
  rewrite Hb. cbn [Py.bind].
  assert (Hsolve : solve cbc 60 self1 = Raise (KeyError "total_cost")).
  { unfold solve. rewrite Hm.
    destruct (cbc 60%Z m) as [st a]. cbn [fst snd] in *.
    pose proof (no_significant_flow (with_solver_output self1 st a) (x self1)
                  Hflow) as Hempty.
    destruct (extract_solution_empty (with_solver_output self1 st a) Hempty)
      as [_ Hkey].
    rewrite Hkey.
    - destruct Hst as [-> | ->]; reflexivity.
    - cbn [with_solver_output warehouses fixed_cost_dict].
      destruct (build_model_inv _ _ _ _ Hb)
        as (_ & _ & _ & _ & _ & Hws & _ & _ & Hfd & _).
      rewrite Hws, Hfd. intros w Hw.
      apply keys_make_fixed_cost_dict. exact Hw. }
  rewrite Hsolve. reflexivity.
Qed.

Lemma run_optimization_nothing_to_ship_witness :
  Api.run_optimization Examples.cbc_idle Examples.warehouse_table
    Examples.idle_demand_table Examples.distance_table
    (Api.mkRequest None "Standard")
  = Api.Failed (Api.HTTPException 500 (Api.StrOfExn (KeyError "total_cost"))).
Proof.
  apply (run_optimization_nothing_to_ship Examples.cbc_idle
           Examples.warehouse_table Examples.idle_demand_table
           Examples.distance_table (Api.mkRequest None "Standard")
           Examples.idle_model (Examples.problem_of Examples.idle_model)).
  - vm_compute. reflexivity.
  - vm_compute. reflexivity.
  - left. reflexivity.
  - intros wc _. vm_compute. discriminate.
Defined.

(** X15.  The per-warehouse breakdown adds up.  Take a solution produced
    by [solve] on a built model (table loaded, distinct warehouse names)
    from values that satisfy the constraints with 0/1 indicators, and hand
    it to [get_cost_breakdown] with the same warehouse table.  The handler
    returns one entry per open warehouse, in order, and over the entries
    the variable costs add up to the solution's variable cost, the fixed
    costs to its fixed cost, the totals to the optimized cost and the
    shipments to the shipments of all routes: every route is listed under
    exactly one open warehouse. *)
Theorem cost_breakdown_adds_up (cbc : Solver) (cap : option Z) (lvl : string)
  (self self' final : NetworkOptimizer) (m : LpProblem) (t : Z)
  (s : Solution) :
  loaded self ->
  NoDup (warehouses self) ->
  build_model cap lvl self = Ok self' ->
  model self' = Some m ->
  solve cbc t self' = Ok (Some s, final) ->
  (forall cs, In cs (constraints m) -> holds (varValue final) cs = true) ->
  (forall w, In w (warehouses self) ->
             varValue final (warehouse_open w) == 0 \/
             varValue final (warehouse_open w) == 1) ->
  exists cb,
    Api.get_cost_breakdown (Some s) (Some (warehouse_df self))
    = Api.Returned cb /\
    map Api.wc_warehouse (Api.cb_warehouse_breakdown cb) = open_warehouses s /\
    Py.sum (map Api.wc_variable_cost (Api.cb_warehouse_breakdown cb))
    == variable_cost s /\
    Py.sum (map Api.wc_fixed_cost (Api.cb_warehouse_breakdown cb))
    == fixed_cost s /\
    Py.sum (map Api.wc_total_cost (Api.cb_warehouse_breakdown cb))
    == Api.cb_optimized_cost cb /\
    Py.sum (map Api.wc_total_shipments (Api.cb_warehouse_breakdown cb))
    == Py.sum (map rt_shipments (Pd.rows (routes s))).
Proof.
  intros L Hnd Hb Hm Hsolve Hcs Hbin.
  destruct (solve_inv _ _ _ _ _ Hsolve)
    as (m' & st & a & Hm' & _ & _ & Hex & Hsol & Hval).
  rewrite Hval in *.
  destruct (build_model_inv _ _ _ _ Hb)
    as (_ & _ & _ & _ & _ & Hws & _ & _ & Hfd & _).
  destruct (extract_solution_inv _ _ Hex) as (fs & m3 & Hfs & Hne & _ & Hs).
  rewrite Hsol in Hs. injection Hs as Hs.
  cbn [with_solver_output warehouses varValue x fixed_cost_dict] in Hfs, Hne, Hs.
  rewrite Hws in Hfs, Hs. rewrite Hfd in Hfs.
  set (ow := filter (fun w => Py.gt (a (warehouse_open w)) (1 # 2))
               (warehouses self)) in *.
  set (rts := flat_map (route_of (with_solver_output self' st a)) (x self'))
    in *.
  assert (Hnames : NoDup (map wr_warehouse (warehouse_df self)))
    by (rewrite <- L; exact Hnd).
  assert (Hown : forall w, In w ow -> In w (map wr_warehouse (warehouse_df self))).
  { intros w Hw. apply filter_In in Hw. rewrite <- L. apply Hw. }
  assert (Hbd : Api.for_each (Api.warehouse_cost (Some (warehouse_df self)) s)
                  ow
                = Api.Returned
                    (map (breakdown_entry (warehouse_df self) rts) ow)).
  { apply for_each_ok. intros w Hw.
    apply warehouse_cost_ok; [rewrite Hs; reflexivity | exact Hne |].
    apply Hown. exact Hw. }
  assert (Hfsv : fs = map (first_fixed_cost (warehouse_df self)) ow).
  { apply (mapM_getitem_values _ _ _ _ Hfs).
    intros w Hw. apply first_fixed_cost_in_dict; [exact Hnames |].
    apply Hown. exact Hw. }
  assert (Hopen : forall r, In r rts -> In (rt_warehouse r) ow).
  { intros r Hr.
    exact (listed_routes_open cap lvl self self' m st a r Hb Hm Hcs Hbin Hr). }
  assert (Hndow : NoDup ow) by (apply NoDup_filter; exact Hnd).
  assert (Evar : Py.sum (map Api.wc_variable_cost
                           (map (breakdown_entry (warehouse_df self) rts) ow))
                 == Py.sum (map rt_total_cost rts)).
  { rewrite map_map. cbn [breakdown_entry Api.wc_variable_cost].
    apply (sum_by_warehouse rt_total_cost ow rts Hndow Hopen). }
  assert (Efix : Py.sum (map Api.wc_fixed_cost
                           (map (breakdown_entry (warehouse_df self) rts) ow))
                 == Py.sum fs).
  { rewrite map_map, Hfsv. cbn [breakdown_entry Api.wc_fixed_cost].
    reflexivity. }
  eexists. unfold Api.get_cost_breakdown.
  replace (open_warehouses s) with ow by (rewrite Hs; reflexivity).
  rewrite Hbd. split; [reflexivity |].
  cbn [Api.cb_warehouse_breakdown Api.cb_optimized_cost].
  split.
  { rewrite map_map. cbn [breakdown_entry Api.wc_warehouse]. apply map_id. }
  split.
  { rewrite Evar, Hs. cbn [variable_cost]. reflexivity. }
  split.
  { rewrite Efix, Hs. cbn [fixed_cost]. reflexivity. }
  split.
  { rewrite Hs. cbn [total_cost]. rewrite <- Evar, <- Efix.
    rewrite !map_map. cbn [breakdown_entry Api.wc_total_cost
                           Api.wc_fixed_cost Api.wc_variable_cost].
    apply sum_map_plus. }
  rewrite Hs. cbn [routes]. rewrite rows_of_records, map_map.
  cbn [breakdown_entry Api.wc_total_shipments].
  apply (sum_by_warehouse rt_shipments ow rts Hndow Hopen).
Qed.

Lemma cost_breakdown_adds_up_witness :
  exists cb,
    Api.get_cost_breakdown (Some Cases.uncapped_solution)
      (Some Examples.warehouse_table) = Api.Returned cb /\
    Py.sum (map Api.wc_total_cost (Api.cb_warehouse_breakdown cb))
    == Api.cb_optimized_cost cb.
Proof.
  destruct (cost_breakdown_adds_up Examples.cbc_all_from_A None "Standard"
              Examples.network Examples.uncapped
              (Examples.built Examples.uncapped_extracted)
              (Examples.problem_of Examples.uncapped) 300%Z
              Cases.uncapped_solution)
    as (cb & Hcb & _ & _ & _ & Htot & _).
  - reflexivity.
  - repeat constructor; simpl; intuition discriminate.
  - vm_compute. reflexivity.
  - vm_compute. reflexivity.
  - vm_compute. reflexivity.
  - apply forallb_forall. vm_compute. reflexivity.
  - intros w [<- | [<- | []]]; [right | left]; reflexivity.
  - exists cb. split; [exact Hcb | exact Htot].
Defined.

(* ===================================================================== *)
(** ** Further properties of [load_data], [build_model] and [solve] *)
(* ===================================================================== *)

(** X16.  What [solve] returns and what it stores.  A solve that returns
    does one of two things.  Either the solver ended Optimal or Feasible,
    extraction succeeded, and the returned solution is the stored one; or
    the solver ended with another status, [None] is returned and the stored
    solution is the one the object held before the solve, which need not be
    [None]. *)
Theorem solve_outcome (cbc : Solver) (t : Z) (self final : NetworkOptimizer)
  (o : option Solution) :
  solve cbc t self = Ok (o, final) ->
  exists m,
    model self = Some m /\
    status final = fst (cbc t m) /\
    varValue final = snd (cbc t m) /\
    (((status final = Optimal \/ status final = Feasible) /\
      o = solution final /\ o <> None /\
      extract_solution
        (with_solver_output self (fst (cbc t m)) (snd (cbc t m))) = Ok final)
     \/
     (fails (status final) /\ o = None /\ solution final = solution self)).
Proof.
  unfold solve. intro H.
  destruct (model self) as [m |]; [| discriminate].
  exists m. split; [reflexivity |].
  destruct (cbc t m) as [st a]. cbn [fst snd].
  assert (G : (st = Optimal \/ st = Feasible) ->
              (self2 <- extract_solution (with_solver_output self st a) ;;
               Ok (solution self2, self2)) = Ok (o, final) ->
              status final = st /\ varValue final = a /\
              (((status final = Optimal \/ status final = Feasible) /\
                o = solution final /\ o <> None /\
                extract_solution (with_solver_output self st a) = Ok final)
               \/ (fails (status final) /\ o = None /\
                   solution final = solution self))).
  { intros Hst H'.
    destruct (extract_solution (with_solver_output self st a)) as [self2 |] eqn:Ex;
      cbn [Py.bind] in H'; [| discriminate].
    injection H' as <- <-.
    destruct (extract_solution_inv _ _ Ex) as (fs & m' & _ & _ & _ & Hsol).
    assert (Hstat : status self2 = st).
    { unfold extract_solution in Ex.
      destruct (Py.mapM _ _); cbn [Py.bind] in Ex; [| discriminate].
      destruct (Pd.getitem _ _ _); cbn [Py.bind] in Ex; [| discriminate].
      destruct (model _); cbn [Py.bind] in Ex; [| discriminate].
      injection Ex as <-. reflexivity. }
    destruct (extract_solution_keeps _ _ Ex) as (Hv & _).
    split; [exact Hstat |]. split; [exact Hv |]. left.
    split; [rewrite Hstat; exact Hst |].
    split; [reflexivity |]. split; [rewrite Hsol; discriminate | reflexivity]. }
  destruct st;
    try (injection H as <- <-; cbn [with_solver_output status varValue solution];
         split; [reflexivity |]; split; [reflexivity |]; right;
         split; [split; discriminate | split; reflexivity]).
  - apply G; [left; reflexivity | exact H].
  - apply G; [right; reflexivity | exact H].
Qed.

Lemma solve_outcome_witness :
  exists final,
    solve Cases.cbc_never 60 Examples.after_first_solve = Ok (None, final) /\
    solution final = Some Cases.uncapped_solution.
Proof.
  destruct (solve Cases.cbc_never 60 Examples.after_first_solve)
    as [[o final] |] eqn:E; [| vm_compute in E; discriminate].
  destruct (solve_outcome _ _ _ _ _ E) as (m & _ & Hst & _ & [H | H]).
  - exfalso. destruct H as [[H | H] _]; rewrite Hst in H; discriminate H.
  - destruct H as (_ & -> & Hsol). exists final.
    split; [reflexivity |]. rewrite Hsol. vm_compute. reflexivity.
Defined.

(** X17.  Size of the model.  The built model has one demand constraint
    per customer of the demand dict, one linking constraint per warehouse
    of the list and customer, and one more constraint exactly when the cap
    is neither absent nor 0.  With distinct warehouse names it has as many
    flow variables as linking constraints and one indicator per
    warehouse. *)
Theorem model_size (cap : option Z) (lvl : string)
  (self self' : NetworkOptimizer) (m : LpProblem) :
  build_model cap lvl self = Ok self' ->
  model self' = Some m ->
  List.length (constraints m)
  = (List.length (Py.keys (demand_dict self'))
     + List.length (warehouses self) * List.length (Py.keys (demand_dict self'))
     + (if Py.truthy cap then 1 else 0))%nat /\
  (NoDup (warehouses self) ->
   List.length (x self')
   = (List.length (warehouses self)
      * List.length (Py.keys (demand_dict self')))%nat /\
   List.length (y self') = List.length (warehouses self)).
Proof.
  intros Hb Hm.
  destruct (build_model_inv _ _ _ _ Hb)
    as (obj & c1 & _ & Hc1 & Hm' & _ & Hdd & _ & _ & _ & Hy & _).
  rewrite Hm in Hm'. injection Hm' as ->. cbn [constraints].
  rewrite Hdd. split.
  - rewrite !length_app, (length_demand_constraints _ _ _ Hc1),
      length_capacity_constraints.
    assert (E : List.length (max_warehouses_constraints (warehouses self) cap)
                = if Py.truthy cap then 1%nat else 0%nat).
    { unfold max_warehouses_constraints.
      destruct cap as [n |]; [| reflexivity].
      destruct (Py.truthy (Some n)); reflexivity. }
    rewrite E. lia.
  - intro Hnd. split.
    + rewrite (x_is_routes _ _ _ _ Hb Hnd), Hdd. apply length_make_routes.
    + rewrite Hy.
      rewrite (DictFacts.unique_NoDup_id String.eqb String.eqb_eq _ Hnd).
      reflexivity.
Qed.

Lemma model_size_witness :
  List.length (constraints (Examples.problem_of Cases.capped_at_two)) = 10%nat /\
  List.length (x Cases.capped_at_two) = 6%nat.
Proof.
  destruct (model_size (Some 2%Z) "Standard" Examples.network
              Cases.capped_at_two (Examples.problem_of Cases.capped_at_two))
    as [Hc Hv].
  - vm_compute. reflexivity.
  - vm_compute. reflexivity.
  - split.
    + rewrite Hc. vm_compute. reflexivity.
    + destruct Hv as [Hx _].
      * repeat constructor; simpl; intuition discriminate.
      * rewrite Hx. vm_compute. reflexivity.
Defined.

(** X18.  [load_data].  After [load_data] the customer list holds every
    city of the demand table once, whatever its service levels, and the
    warehouse list is the warehouse column as it is, repetitions included;
    so every name [build_model] looks up in the fixed-cost dict is a key of
    it, and no [KeyError] leaves [build_model], whatever the cap and the
    service level. *)
Theorem load_data_lists (wf : list WarehouseRow) (df : list DemandRow)
  (sf : list DistanceRow) (self : NetworkOptimizer) (cap : option Z)
  (lvl : string) :
  NoDup (customers (load_data wf df sf self)) /\
  (forall c, In c (customers (load_data wf df sf self)) <->
             exists r, In r df /\ dm_city r = c) /\
  warehouses (load_data wf df sf self) = map wr_warehouse wf /\
  (forall w, In w (warehouses (load_data wf df sf self)) ->
             exists f, Py.get String.eqb
                         (make_fixed_cost_dict
                            (warehouse_df (load_data wf df sf self))) w
                       = Some f) /\
  forall k, build_model cap lvl (load_data wf df sf self) <> Raise (KeyError k).
Proof.
  split; [apply (NoDup_unique String.eqb String.eqb_eq) |].
  split.
  { cbn [load_data customers].
    intro c. rewrite (DictFacts.unique_in String.eqb String.eqb_eq).
    rewrite in_map_iff. split; intros [r [H1 H2]]; exists r; split; assumption. }
  split; [reflexivity |].
  split.
  { intros w Hw. apply (DictFacts.get_in_keys String.eqb String.eqb_eq).
    apply keys_make_fixed_cost_dict.
    rewrite <- (load_data_loaded wf df sf self). exact Hw. }
  apply build_model_no_KeyError. apply load_data_loaded.
Qed.
